(** * RoadCast-Api: forecast cache, KNMI warnings and response mapping

    A shallow embedding of the two hosting shells of the repository,
    [api/index.py] (FastAPI route [get_weather]) and [main.py]
    ([lambda_handler]), together with the helpers they share
    ([fetch_knmi_warnings], [parse_knmi_warnings],
    [weather_response_mapper], [RoadCastApiResponse]).

    Python values decoded from JSON are the inductive [json]; Python
    exceptions are the constructors of [exn]; the module globals
    [data_cache] and [last_loaded] and the sequence of upstream HTTP calls
    live in a [store] that is threaded through a state-and-exception
    monad [M].  What the outside world answers during one request (clock
    readings, environment, HTTP replies) is a [World]; library parsers
    ([int] on strings, [datetime.fromisoformat], [ET.fromstring], [str] on
    exceptions) are a [Runtime].

    Numbers are exact: a finite Python [float] (a forecast value, a
    reading of [time.time()]) is the rational it denotes, an [int] an
    integer; [inf], [-inf] and [nan] are values of their own.  The age of
    the cache is the exact difference of two clock readings, where Python
    rounds that difference to a float; rounding keeps the order and
    leaves 120 and 121 in place, so an age of at most 120 seconds, or of
    at least 121, compares with [CACHE_TTL] the same way before and after
    rounding, and the statements below speak of such ages only.  A call
    to an upstream provider is recorded when it is attempted, whether or
    not it is answered. *)

From Stdlib Require Import ZArith QArith Qround String Ascii List Lia Lqa Bool.
From stdpp Require Import base option list gmap strings.

Set Warnings "-register-all".
#[local] Open Scope string_scope.
#[local] Open Scope list_scope.
#[local] Open Scope Z_scope.

(** ** Python values *)

(** The floats that denote no rational: [json.loads] reads [Infinity] or
    [1e999] as [inf], [-Infinity] as [-inf] and [NaN] as [nan]. *)
Inductive nonfinite : Type := PosInf | NegInf | NaN.

(** Values produced by [response.json()] / the Lambda event: [None], [bool],
    [int], [float], [str], [list] and [dict] with string keys.  A finite
    float is represented by the rational it denotes; a [str] by its UTF-8
    bytes. *)
Inductive json : Type :=
  | JNull
  | JBool (b : bool)
  | JInt (z : Z)
  | JFloat (q : Q)
  | JNonFinite (x : nonfinite)
  | JStr (s : string)
  | JArr (l : list json)
  | JObj (m : gmap string json).

(** Exception classes that the modelled code can raise or catch. *)
Inductive exn : Type :=
  | IndexError
  | KeyError
  | TypeError
  | ValueError
  | OverflowError
  | AttributeError
  | RequestException                               (* requests: network failure, timeout, bad URL *)
  | HTTPError                                      (* requests: raise_for_status *)
  | JSONDecodeError                                (* requests: response.json() *)
  | ParseError                                     (* xml.etree.ElementTree *)
  | HTTPException (status_code : Z) (detail : string). (* fastapi *)

(** Outcome of evaluating a Python expression. *)
Inductive result (A : Type) : Type :=
  | Ok (a : A)
  | Raise (e : exn).
Arguments Ok {A} a.
Arguments Raise {A} e.

#[global] Instance result_ret : MRet result := fun A a => Ok a.
#[global] Instance result_bind : MBind result := fun A B f r =>
  match r with
  | Ok a => f a
  | Raise e => Raise e
  end.

(** [e] is caught by [except IndexError]. *)
Definition is_IndexError (e : exn) : bool :=
  match e with IndexError => true | _ => false end.

(** [e] is caught by [except (ValueError, TypeError)]; [JSONDecodeError]
    derives from [ValueError]. *)
Definition is_ValueError_or_TypeError (e : exn) : bool :=
  match e with
  | ValueError | JSONDecodeError | TypeError => true
  | _ => false
  end.

(** *** Builtins on decoded JSON *)

(** [x is None]. *)
Definition is_None (x : json) : bool :=
  match x with JNull => true | _ => false end.

(** A Python number: a rational (an [int], a [bool], a finite [float]) or
    one of the three other floats. *)
Inductive numeric : Type :=
  | Rational (q : Q)
  | Special (x : nonfinite).

(** The number denoted by an [int], [float] or [bool]. *)
Definition as_number (x : json) : option numeric :=
  match x with
  | JBool b => Some (Rational (inject_Z (if b then 1 else 0)))
  | JInt z => Some (Rational (inject_Z z))
  | JFloat q => Some (Rational q)
  | JNonFinite n => Some (Special n)
  | _ => None
  end.

(** [a < b] on rationals. *)
Definition Qlt_bool (a b : Q) : bool := negb (Qle_bool b a).

(** [a == b] and [a < b] on numbers: [nan] is equal to nothing and
    neither below nor above anything. *)
Definition number_eq (a b : numeric) : bool :=
  match a, b with
  | Rational p, Rational q => Qeq_bool p q
  | Special PosInf, Special PosInf => true
  | Special NegInf, Special NegInf => true
  | _, _ => false
  end.

Definition number_lt (a b : numeric) : bool :=
  match a, b with
  | Rational p, Rational q => Qlt_bool p q
  | Special NegInf, Rational _ => true
  | Special NegInf, Special PosInf => true
  | Rational _, Special PosInf => true
  | _, _ => false
  end.

(** A byte [10xxxxxx], which continues a character in UTF-8. *)
Definition is_continuation (c : ascii) : bool :=
  let n := Z.of_N (N_of_ascii c) in (128 <=? n) && (n <? 192).

(** The characters (code points) of a [str], each as the string of its
    UTF-8 bytes: a byte joins the group after it when that group starts
    with a continuation byte. *)
Fixpoint characters (s : string) : list string :=
  match s with
  | EmptyString => []
  | String c r =>
      match characters r with
      | String d first :: others =>
          if is_continuation d then String c (String d first) :: others
          else String c EmptyString :: String d first :: others
      | others => String c EmptyString :: others
      end
  end.

(** [len(x)]; for a [str], the number of its characters. *)
Definition py_len (x : json) : result Z :=
  match x with
  | JArr l => Ok (Z.of_nat (List.length l))
  | JStr s => Ok (Z.of_nat (List.length (characters s)))
  | JObj m => Ok (Z.of_nat (size m))
  | _ => Raise TypeError
  end.

(** [bool(x)], as used by [or] and [if]. *)
Definition py_truthy (x : json) : bool :=
  match x with
  | JNull => false
  | JBool b => b
  | JInt z => negb (z =? 0)
  | JFloat q => negb (Qeq_bool q 0)
  | JNonFinite _ => true
  | JStr s => negb (String.eqb s EmptyString)
  | JArr l => match l with [] => false | _ => true end
  | JObj m => negb (bool_decide (size m = 0%nat))
  end.

(** Position [i] of a sequence of length [n], with Python's negative
    indices; [None] when out of range. *)
Definition normalize_index (n : nat) (i : Z) : option nat :=
  let j := if i <? 0 then i + Z.of_nat n else i in
  if (0 <=? j) && (j <? Z.of_nat n) then Some (Z.to_nat j) else None.

(** [l[i]] on a list. *)
Definition list_getitem {A : Type} (l : list A) (i : Z) : result A :=
  match normalize_index (List.length l) i with
  | Some j => match l !! j with Some x => Ok x | None => Raise IndexError end
  | None => Raise IndexError
  end.

(** [x[i]] for an [int] subscript. *)
Definition getitem_int (x : json) (i : Z) : result json :=
  match x with
  | JArr l => list_getitem l i
  | JStr s => c ← list_getitem (characters s) i; Ok (JStr c)
  | JObj _ => Raise KeyError       (* decoded dicts only have str keys *)
  | _ => Raise TypeError
  end.

(** [x[k]] for a [str] subscript. *)
Definition getitem_str (x : json) (k : string) : result json :=
  match x with
  | JObj m => match m !! k with Some v => Ok v | None => Raise KeyError end
  | _ => Raise TypeError
  end.

(** [x.get(k, default)]: only a dict has the method. *)
Definition dict_get (x : json) (k : string) (default : json) : result json :=
  match x with
  | JObj m => Ok (match m !! k with Some v => v | None => default end)
  | _ => Raise AttributeError
  end.

(** Iterating over [x], as [sorted] does on its first argument: the
    elements of a list, the characters of a [str], the keys of a dict (in
    the order of the map, which no use below depends on). *)
Definition py_iter (x : json) : result (list json) :=
  match x with
  | JArr l => Ok l
  | JStr s => Ok (map JStr (characters s))
  | JObj m => Ok (map (fun kv => JStr (fst kv)) (map_to_list m))
  | _ => Raise TypeError
  end.

(** Both are [nan].  Every [nan] of a decoded document is the one object
    that [json] keeps for the literal [NaN], and the comparisons of the
    elements of two containers take identical objects for equal. *)
Definition both_nan (x y : json) : bool :=
  match x, y with
  | JNonFinite NaN, JNonFinite NaN => true
  | _, _ => false
  end.

(** [x == y]. *)
Fixpoint py_eq (x y : json) {struct x} : bool :=
  match as_number x, as_number y with
  | Some a, Some b => number_eq a b
  | _, _ =>
      match x, y with
      | JNull, JNull => true
      | JStr s, JStr t => String.eqb s t
      | JArr l, JArr l' =>
          (fix go (l l' : list json) {struct l} : bool :=
             match l, l' with
             | [], [] => true
             | a :: r, b :: r' => (both_nan a b || py_eq a b) && go r r'
             | _, _ => false
             end) l l'
      | JObj m, JObj m' =>
          bool_decide (size m = size m') &&
          map_fold (fun k v acc =>
                      acc && match m' !! k with
                             | Some v' => both_nan v v' || py_eq v v'
                             | None => false
                             end) true m
      | _, _ => false
      end
  end.

(** [x < y]: numbers by value, strings by code point, lists
    lexicographically; every other pairing is a [TypeError]. *)
Fixpoint py_lt (x y : json) {struct x} : result bool :=
  match as_number x, as_number y with
  | Some a, Some b => Ok (number_lt a b)
  | _, _ =>
      match x, y with
      | JStr s, JStr t => Ok (String.ltb s t)
      | JArr l, JArr l' =>
          (fix go (l l' : list json) {struct l} : result bool :=
             match l, l' with
             | [], [] => Ok false
             | [], _ :: _ => Ok true
             | _ :: _, [] => Ok false
             | a :: r, b :: r' =>
                 if both_nan a b || py_eq a b then go r r' else py_lt a b
             end) l l'
      | _, _ => Raise TypeError
      end
  end.

(** [sorted(xs, key=key, reverse=True)].  Keys are computed first, left
    to right; the sort is stable, so elements with equal keys keep their
    order, and only [<] is used on keys.  Where [<] orders the keys
    (strings, or numbers other than [nan]) every stable sort returns the
    list computed here; the order Python leaves keys in that [<] does not
    order is not modelled. *)
Fixpoint keyed (key : json -> result json) (xs : list json)
    : result (list (json * json)) :=
  match xs with
  | [] => Ok []
  | x :: r => k ← key x; kr ← keyed key r; Ok ((k, x) :: kr)
  end.

Fixpoint insert_desc (kx : json * json) (l : list (json * json))
    : result (list (json * json)) :=
  match l with
  | [] => Ok [kx]
  | ky :: r =>
      b ← py_lt (fst kx) (fst ky);
      if b : bool then r' ← insert_desc kx r; Ok (ky :: r')
      else Ok (kx :: ky :: r)
  end.

Fixpoint sort_desc (l : list (json * json)) : result (list (json * json)) :=
  match l with
  | [] => Ok []
  | kx :: r => s ← sort_desc r; insert_desc kx s
  end.

Definition sorted_reverse (key : json -> result json) (xs : list json)
    : result (list json) :=
  ks ← keyed key xs;
  s ← sort_desc ks;
  Ok (map snd s).

(** ** XML elements and datetimes *)

(** An [xml.etree.ElementTree.Element]: tag, text and children. *)
Inductive element : Type :=
  | Element (tag : string) (text : option string) (children : list element).

Definition tag_of (e : element) : string :=
  match e with Element t _ _ => t end.
Definition text_of (e : element) : option string :=
  match e with Element _ t _ => t end.
Definition children_of (e : element) : list element :=
  match e with Element _ _ c => c end.

(** All elements strictly below [e], in document order. *)
Fixpoint descendants (e : element) : list element :=
  match e with
  | Element _ _ cs => flat_map (fun c => c :: descendants c) cs
  end.

(** [e.findall(".//" + t)]. *)
Definition findall_descendant (e : element) (t : string) : list element :=
  List.filter (fun d => String.eqb (tag_of d) t) (descendants e).

(** [e.findtext(t)]: text of the first child tagged [t] (the empty string when that
    child has no text), [None] when there is no such child. *)
Definition findtext (e : element) (t : string) : option string :=
  match List.filter (fun c => String.eqb (tag_of c) t) (children_of e) with
  | c :: _ => Some (match text_of c with Some s => s | None => EmptyString end)
  | [] => None
  end.

(** A [datetime]: the wall-clock fields as microseconds since
    1970-01-01T00:00:00, and the UTC offset in microseconds when the value
    is timezone-aware. *)
Record datetime : Type := Datetime { wall : Z; utcoffset : option Z }.

Definition usec_per_second : Z := 1000000.
Definition usec_per_day : Z := 86400 * usec_per_second.

(** [x + timedelta(days=n)]. *)
Definition add_days (x : datetime) (n : Z) : datetime :=
  Datetime (wall x + n * usec_per_day) (utcoffset x).

(** [x.replace(hour=h, minute=m, second=s)]: date, microsecond and tzinfo
    are kept. *)
Definition replace_hms (x : datetime) (h m s : Z) : datetime :=
  Datetime ((wall x / usec_per_day) * usec_per_day
            + (h * 3600 + m * 60 + s) * usec_per_second
            + wall x mod usec_per_second)
           (utcoffset x).

(** Three-way comparison behind [<=] and [>=] on datetimes: aware values
    are compared as instants, naive ones by their fields, and mixing the
    two is a [TypeError]. *)
Definition datetime_cmp (x y : datetime) : result comparison :=
  match utcoffset x, utcoffset y with
  | Some ox, Some oy => Ok ((wall x - ox) ?= (wall y - oy))
  | None, None => Ok (wall x ?= wall y)
  | _, _ => Raise TypeError
  end.

Definition datetime_le (x y : datetime) : result bool :=
  c ← datetime_cmp x y; Ok (match c with Gt => false | _ => true end).

Definition datetime_ge (x y : datetime) : result bool :=
  c ← datetime_cmp x y; Ok (match c with Lt => false | _ => true end).

(** ** Runtime and world *)

(** Library parsers, each total on strings: [None] is the library's own
    error ([ValueError] for [int] and [fromisoformat], [ParseError] for
    [ET.fromstring]). *)
Record Runtime : Type := {
  int_of_str : string -> option Z;
  fromisoformat_str : string -> option datetime;
  ET_fromstring : string -> option element;
  str_of_exn : exn -> string
}.

(** An HTTP reply as seen through [requests]: status, [.text], and the
    value of [.json()] when the body decodes. *)
Record http_response : Type := {
  status : Z;
  text : string;
  json_body : option json
}.

(** What the outside answers during one request.  A reply of [None] means
    that [requests.get] itself raised. *)
Record World : Type := {
  time_time : Q;                       (* time.time(), seconds *)
  datetime_now : Z;                    (* datetime.now(timezone.utc), microseconds *)
  environ : gmap string string;        (* os.environ *)
  forecast_reply : option http_response;
  files_reply : string -> option http_response;
  download_reply : json -> string -> option http_response
}.

(** Upstream calls, with the [Authorization] header where one is sent. *)
Inductive upstream_call : Type :=
  | GetForecast
  | GetFiles (authorization : string)
  | GetDownload (url : json) (authorization : string).

(** The module globals and the calls made so far. *)
Record store : Type := Store {
  data_cache : json;
  last_loaded : Q;
  trace : list upstream_call
}.

(** The state of a freshly imported module. *)
Definition initial_store : store := Store JNull 0 [].

Definition CACHE_TTL : Q := 120.

(** ** The monad of statements *)

Definition M (A : Type) : Type := store -> result A * store.

#[global] Instance M_ret : MRet M := fun A a s => (Ok a, s).
#[global] Instance M_bind : MBind M := fun A B f m s =>
  match m s with
  | (Ok a, s') => f a s'
  | (Raise e, s') => (Raise e, s')
  end.

Definition lift {A : Type} (r : result A) : M A := fun s => (r, s).
Definition raise {A : Type} (e : exn) : M A := fun s => (Raise e, s).
Definition gets {A : Type} (f : store -> A) : M A := fun s => (Ok (f s), s).
Definition set_data_cache (v : json) : M unit :=
  fun s => (Ok tt, Store v (last_loaded s) (trace s)).
Definition set_last_loaded (t : Q) : M unit :=
  fun s => (Ok tt, Store (data_cache s) t (trace s)).
Definition record_call (c : upstream_call) : M unit :=
  fun s => (Ok tt, Store (data_cache s) (last_loaded s) (trace s ++ [c])).

(** [try: body / except ...: handler]; the handler sees the store as the
    body left it. *)
Definition try_except {A : Type} (body : M A) (handler : exn -> M A) : M A :=
  fun s =>
    match body s with
    | (Ok a, s') => (Ok a, s')
    | (Raise e, s') => handler e s'
    end.

(** ** Response mapping ([RoadCastApiResponse], [weather_response_mapper]) *)

Record RoadCastApiResponse : Type := {
  min_temp : json;
  max_temp : json;
  rain : json;
  showers : json;
  snow : json;
  sunrise : json;
  sunset : json;
  min_visibility : json;
  max_visibility : json;
  wind_speed : json;
  wind_gusts : json;
  warnings : list json
}.

(** [warnings or []], for an argument that may be [None]. *)
Definition or_empty (ws : option (list json)) : list json :=
  match ws with Some l => l | None => [] end.

(** [RoadCastApiResponse.__init__]. *)
Definition init (min_temp max_temp rain showers snow sunrise sunset
                 min_visibility max_visibility wind_speed wind_gusts : json)
                (warnings : option (list json)) : RoadCastApiResponse :=
  {| min_temp := min_temp; max_temp := max_temp; rain := rain;
     showers := showers; snow := snow; sunrise := sunrise; sunset := sunset;
     min_visibility := min_visibility; max_visibility := max_visibility;
     wind_speed := wind_speed; wind_gusts := wind_gusts;
     warnings := or_empty warnings |}.

(** The inner function [get_val] of [from_api], closed over [daily] and
    [index]. *)
Definition get_val (daily : json) (index : Z) (key : string) : result json :=
  values ← dict_get daily key (JArr []);
  n ← py_len values;
  if index <? n then getitem_int values index else Ok JNull.

(** [RoadCastApiResponse.from_api]. *)
Definition from_api (response : json) (index : Z) : result RoadCastApiResponse :=
  daily ← getitem_str response "daily";
  v_min_temp ← get_val daily index "temperature_2m_min";
  v_max_temp ← get_val daily index "temperature_2m_max";
  v_rain ← get_val daily index "rain_sum";
  v_showers ← get_val daily index "showers_sum";
  v_snow ← get_val daily index "snowfall_sum";
  v_sunrise ← get_val daily index "sunrise";
  v_sunset ← get_val daily index "sunset";
  v_min_visibility ← get_val daily index "visibility_min";
  v_max_visibility ← get_val daily index "visibility_max";
  v_wind_speed ← get_val daily index "wind_speed_10m_max";
  v_wind_gusts ← get_val daily index "wind_gusts_10m_max";
  Ok (init v_min_temp v_max_temp v_rain v_showers v_snow v_sunrise v_sunset
           v_min_visibility v_max_visibility v_wind_speed v_wind_gusts None).

(** [weather_response_mapper]: [api.warnings = warnings or []]. *)
Definition weather_response_mapper (response : json) (day_index : Z)
    (ws : option (list json)) : result RoadCastApiResponse :=
  api ← from_api response day_index;
  Ok {| min_temp := min_temp api; max_temp := max_temp api; rain := rain api;
        showers := showers api; snow := snow api; sunrise := sunrise api;
        sunset := sunset api; min_visibility := min_visibility api;
        max_visibility := max_visibility api; wind_speed := wind_speed api;
        wind_gusts := wind_gusts api; warnings := or_empty ws |}.

(** [RoadCastApiResponse.to_dict]. *)
Definition to_dict (self : RoadCastApiResponse) : json :=
  JObj (list_to_map
    [("min_temp", min_temp self); ("max_temp", max_temp self);
     ("rain", rain self); ("showers", showers self); ("snow", snow self);
     ("sunrise", sunrise self); ("sunset", sunset self);
     ("min_visibility", min_visibility self);
     ("max_visibility", max_visibility self);
     ("wind_speed", wind_speed self); ("wind_gusts", wind_gusts self);
     ("warnings", JArr (warnings self))]).

(** The eleven upstream field names read by [from_api]. *)
Definition tracked_fields : list string :=
  ["temperature_2m_min"; "temperature_2m_max"; "rain_sum"; "showers_sum";
   "snowfall_sum"; "sunrise"; "sunset"; "visibility_min"; "visibility_max";
   "wind_speed_10m_max"; "wind_gusts_10m_max"].

(** The attribute of the response that [from_api] fills from each
    upstream field. *)
Definition output_of (key : string) (r : RoadCastApiResponse) : option json :=
  if String.eqb key "temperature_2m_min" then Some (min_temp r)
  else if String.eqb key "temperature_2m_max" then Some (max_temp r)
  else if String.eqb key "rain_sum" then Some (rain r)
  else if String.eqb key "showers_sum" then Some (showers r)
  else if String.eqb key "snowfall_sum" then Some (snow r)
  else if String.eqb key "sunrise" then Some (sunrise r)
  else if String.eqb key "sunset" then Some (sunset r)
  else if String.eqb key "visibility_min" then Some (min_visibility r)
  else if String.eqb key "visibility_max" then Some (max_visibility r)
  else if String.eqb key "wind_speed_10m_max" then Some (wind_speed r)
  else if String.eqb key "wind_gusts_10m_max" then Some (wind_gusts r)
  else None.

Section Shells.

Context (rt : Runtime) (w : World).

(** ** KNMI helpers *)

(** [response.json()]. *)
Definition response_json (r : http_response) : result json :=
  match json_body r with
  | Some j => Ok j
  | None => Raise JSONDecodeError
  end.

(** [response.raise_for_status()]. *)
Definition raise_for_status (r : http_response) : result unit :=
  if (400 <=? status r) && (status r <? 600) then Raise HTTPError else Ok tt.

Definition requests_get_forecast : M http_response :=
  record_call GetForecast;;
  match forecast_reply w with
  | Some r => mret r
  | None => raise RequestException
  end.

Definition requests_get_files (api_key : string) : M http_response :=
  record_call (GetFiles api_key);;
  match files_reply w api_key with
  | Some r => mret r
  | None => raise RequestException
  end.

Definition requests_get_download (url : json) (api_key : string)
    : M http_response :=
  record_call (GetDownload url api_key);;
  match download_reply w url api_key with
  | Some r => mret r
  | None => raise RequestException
  end.

(** [fetch_knmi_warnings]. *)
Definition fetch_knmi_warnings (api_key : string) : M string :=
  response ← requests_get_files api_key;
  listing ← lift (response_json response);
  files ← lift (getitem_str listing "files");
  items ← lift (py_iter files);
  ordered ← lift (sorted_reverse (fun f => getitem_str f "created") items);
  latest ← lift (list_getitem ordered 0);
  url ← lift (getitem_str latest "downloadUrl");
  xml ← requests_get_download url api_key;
  mret (text xml).

(** [datetime.fromisoformat(x)] on the result of [findtext]. *)
Definition fromisoformat (x : option string) : result datetime :=
  match x with
  | None => Raise TypeError
  | Some s =>
      match fromisoformat_str rt s with
      | Some d => Ok d
      | None => Raise ValueError
      end
  end.

Definition json_of_text (x : option string) : json :=
  match x with Some s => JStr s | None => JNull end.

(** The dict appended for an active warning. *)
Definition warning_entry (warning : element) : json :=
  JObj (list_to_map
    [("color", json_of_text (findtext warning "awarenessLevel"));
     ("type", json_of_text (findtext warning "phenomenon"))]).

(** The [for] loop of [parse_knmi_warnings]; [results] is the list built
    so far. *)
Fixpoint warnings_loop (now end_of_tomorrow : datetime)
    (ws : list element) (results : list json) : result (list json) :=
  match ws with
  | [] => Ok results
  | warning :: rest =>
      start ← fromisoformat (findtext warning "startTime");
      end_ ← fromisoformat (findtext warning "endTime");
      before ← datetime_le start end_of_tomorrow;
      if before : bool then
        after ← datetime_ge end_ now;
        if after : bool then
          warnings_loop now end_of_tomorrow rest (results ++ [warning_entry warning])
        else warnings_loop now end_of_tomorrow rest results
      else warnings_loop now end_of_tomorrow rest results
  end.

(** [parse_knmi_warnings]. *)
Definition parse_knmi_warnings (xml_text : string) : result (list json) :=
  let now := Datetime (datetime_now w) (Some 0) in
  let end_of_tomorrow := replace_hms (add_days now 1) 23 59 59 in
  root ← match ET_fromstring rt xml_text with
         | Some r => Ok r
         | None => Raise ParseError
         end;
  warnings_loop now end_of_tomorrow (findall_descendant root "warning") [].

(** ** The FastAPI shell ([api/index.py]) *)

(** [os.getenv(name, default)]. *)
Definition getenv (name default : string) : string :=
  match environ w !! name with
  | Some v => v
  | None => default
  end.

(** The [try] block around the warnings path, the same in both shells:
    fetch, then parse, with [except Exception: warnings = []]. *)
Definition try_warnings (api_key : string) : M (list json) :=
  try_except
    (knmi_xml ← fetch_knmi_warnings api_key;
     lift (parse_knmi_warnings knmi_xml))
    (fun _ => mret []).

(** Lines 53-60 of [api/index.py]: the key comes from the environment and
    an empty key leaves [warnings = []]. *)
Definition web_warnings : M (list json) :=
  let api_key := getenv "KNMI_API_KEY" EmptyString in
  if negb (String.eqb api_key EmptyString) then try_warnings api_key else mret [].

(** Lines 62-67 of [main.py]: the key is the literal in the source. *)
Definition lambda_warnings : M (list json) :=
  try_warnings "KNMI_API_KEY_HIER".

(** The route function [get_weather]; [day] is the validated query
    parameter ([Query(default=0, ge=0)]).  A returned value is sent with
    status 200, a raised [HTTPException] with its own status. *)
Definition get_weather (day : Z) : M json :=
  let current_time := time_time w in
  loaded ← gets last_loaded;
  let cache_age := (current_time - loaded)%Q in
  cache ← gets data_cache;
  (if is_None cache || Qlt_bool CACHE_TTL cache_age then
     try_except
       (response ← requests_get_forecast;
        lift (raise_for_status response);;
        payload ← lift (response_json response);
        set_data_cache payload;;
        set_last_loaded current_time)
       (fun _ =>
          cache' ← gets data_cache;
          if is_None cache'
          then raise (HTTPException 500 "Weather fetch failed")
          else mret tt)
   else mret tt);;
  ws ← web_warnings;
  try_except
    (cache ← gets data_cache;
     api ← lift (weather_response_mapper cache day (Some ws));
     mret (to_dict api))
    (fun exc =>
       if is_IndexError exc
       then raise (HTTPException 400 "Day index out of range")
       else raise (HTTPException 500 (str_of_exn rt exc))).

(** Status line FastAPI sends for the outcome of the route function. *)
Definition web_status (r : result json) : Z :=
  match r with
  | Ok _ => 200
  | Raise (HTTPException code _) => code
  | Raise _ => 500
  end.

(** Body FastAPI sends: the returned dict, or, for an [HTTPException],
    the object [{"detail": exc.detail}] of its default handler. *)
Definition web_body (r : result json) : json :=
  match r with
  | Ok b => b
  | Raise (HTTPException _ detail) => JObj (list_to_map [("detail", JStr detail)])
  | Raise _ => JStr "Internal Server Error"
  end.

(** ** The Lambda shell ([main.py]) *)

(** The dict returned by [lambda_handler]; [body] is the value handed to
    [json.dumps]. *)
Record lambda_response : Type := {
  statusCode : Z;
  body : json
}.

Definition error_body (msg : string) : json :=
  JObj (list_to_map [("error", JStr msg)]).

(** [int(x)]. *)
Definition py_int (x : json) : result Z :=
  match x with
  | JInt z => Ok z
  | JBool b => Ok (if b then 1 else 0)
  | JFloat q => Ok (Z.quot (Qnum q) (Zpos (Qden q)))   (* towards zero *)
  | JNonFinite NaN => Raise ValueError
  | JNonFinite _ => Raise OverflowError                (* int(inf), int(-inf) *)
  | JStr s =>
      match int_of_str rt s with
      | Some z => Ok z
      | None => Raise ValueError
      end
  | _ => Raise TypeError
  end.

(** [event.get('queryStringParameters') or {}]. *)
Definition query_params_of (event : json) : result json :=
  qp ← dict_get event "queryStringParameters" JNull;
  Ok (if py_truthy qp then qp else JObj ∅).

(** Lines 20-27 of [main.py]: the day index a request resolves to. *)
Definition day_index_of (event : json) : result Z :=
  query_params ← query_params_of event;
  day_index ←
    match (v ← dict_get query_params "day" (JInt 0); py_int v) with
    | Ok z => Ok z
    | Raise e => if is_ValueError_or_TypeError e then Ok 0 else Raise e
    end;
  Ok (if day_index <? 0 then 0 else day_index).

(** Lines 29-94 of [main.py]: the rest of the handler, once [day_index]
    is known.  (The [print] in the warnings handler is not modelled.) *)
Definition handle_day (day_index : Z) : M lambda_response :=
  let current_time := time_time w in
  loaded ← gets last_loaded;
  let cache_age := (current_time - loaded)%Q in
  cache ← gets data_cache;
  early ←
    (if is_None cache || Qlt_bool CACHE_TTL cache_age then
       try_except
         (response ← requests_get_forecast;
          payload ← lift (response_json response);
          set_data_cache payload;;
          set_last_loaded current_time;;
          mret None)
         (fun _ =>
            cache' ← gets data_cache;
            if is_None cache'
            then mret (Some {| statusCode := 500;
                               body := error_body "Weather fetch failed" |})
            else mret None)
     else mret None);
  match early with
  | Some r => mret r
  | None =>
      ws ← lambda_warnings;
      try_except
        (cache ← gets data_cache;
         api ← lift (weather_response_mapper cache day_index (Some ws));
         mret {| statusCode := 200; body := to_dict api |})
        (fun e =>
           if is_IndexError e
           then mret {| statusCode := 400;
                        body := error_body "Day index out of range" |}
           else mret {| statusCode := 500;
                        body := error_body (str_of_exn rt e) |})
  end.

(** [lambda_handler]. *)
Definition lambda_handler (event : json) : M lambda_response :=
  day_index ← lift (day_index_of event);
  handle_day day_index.

End Shells.

(** ** A runtime and worlds to run the model on

    The theorems below hold for every [Runtime] and [World].  To evaluate
    the handlers on concrete requests we fix small readers for the ASCII
    fragment of [int] and for ISO-8601 timestamps of the shape
    [YYYY-MM-DDTHH:MM:SS[.ffffff][+HH:MM]]. *)

Definition digit_of (c : ascii) : option Z :=
  let n := Z.of_N (N_of_ascii c) in
  if (48 <=? n) && (n <=? 57) then Some (n - 48) else None.

Definition is_space (c : ascii) : bool :=
  let n := Z.of_N (N_of_ascii c) in
  (n =? 32) || ((9 <=? n) && (n <=? 13)).

(** Digits, with single underscores allowed between two digits. *)
Fixpoint digits_value (cs : list ascii) (acc : Z) (after_digit : bool)
    : option Z :=
  match cs with
  | [] => if after_digit then Some acc else None
  | c :: r =>
      if Ascii.eqb c "_"%char
      then (if after_digit then digits_value r acc false else None)
      else d ← digit_of c; digits_value r (10 * acc + d) true
  end.

Fixpoint drop_spaces (cs : list ascii) : list ascii :=
  match cs with
  | c :: r => if is_space c then drop_spaces r else cs
  | [] => []
  end.

Definition strip (cs : list ascii) : list ascii :=
  rev (drop_spaces (rev (drop_spaces cs))).

(** [int(s)] for an ASCII string [s]. *)
Definition int_of_ascii (s : string) : option Z :=
  match strip (list_ascii_of_string s) with
  | c :: r =>
      if Ascii.eqb c "-"%char then z ← digits_value r 0 false; Some (- z)
      else if Ascii.eqb c "+"%char then digits_value r 0 false
      else digits_value (c :: r) 0 false
  | [] => None
  end.

(** Exactly [n] decimal digits. *)
Definition number (n : nat) (cs : list ascii) : option Z :=
  if bool_decide (List.length cs = n) then digits_value cs 0 false else None.

(** Days from 1970-01-01 to the civil date [y]-[m]-[d]. *)
Definition days_from_civil (y m d : Z) : Z :=
  let y' := if m <=? 2 then y - 1 else y in
  let era := y' / 400 in
  let yoe := y' - era * 400 in
  let mp := (m + 9) mod 12 in
  let doy := (153 * mp + 2) / 5 + d - 1 in
  let doe := yoe * 365 + yoe / 4 - yoe / 100 + doy in
  era * 146097 + doe - 719468.

Definition is_leap (y : Z) : bool :=
  ((y mod 4 =? 0) && negb (y mod 100 =? 0)) || (y mod 400 =? 0).

Definition days_in_month (y m : Z) : Z :=
  if m =? 2 then (if is_leap y then 29 else 28)
  else if (m =? 4) || (m =? 6) || (m =? 9) || (m =? 11) then 30
  else 31.

(** The ranges [datetime] accepts for its fields. *)
Definition fields_in_range (year month day hour minute second : Z) : bool :=
  (1 <=? year) && (year <=? 9999) && (1 <=? month) && (month <=? 12)
  && (1 <=? day) && (day <=? days_in_month year month)
  && (0 <=? hour) && (hour <=? 23) && (0 <=? minute) && (minute <=? 59)
  && (0 <=? second) && (second <=? 59).

Definition expect (c : ascii) (cs : list ascii) : option unit :=
  match cs with
  | [x] => if Ascii.eqb x c then Some tt else None
  | _ => None
  end.

(** The UTC offset that ends a timestamp: nothing (naive), or [+HH:MM] /
    [-HH:MM]. *)
Definition offset_of (cs : list ascii) : option (option Z) :=
  match cs with
  | [] => Some None
  | sign :: r =>
      hh ← number 2 (take 2 r);
      _ ← expect ":"%char (take 1 (drop 2 r));
      mm ← number 2 (drop 3 r);
      if negb ((hh <=? 23) && (mm <=? 59)) then None else
      let v := (hh * 3600 + mm * 60) * usec_per_second in
      if Ascii.eqb sign "+"%char then Some (Some v)
      else if Ascii.eqb sign "-"%char then Some (Some (- v))
      else None
  end.

Definition iso_datetime (s : string) : option datetime :=
  let cs := list_ascii_of_string s in
  year ← number 4 (take 4 cs);
  _ ← expect "-"%char (take 1 (drop 4 cs));
  month ← number 2 (take 2 (drop 5 cs));
  _ ← expect "-"%char (take 1 (drop 7 cs));
  day ← number 2 (take 2 (drop 8 cs));
  _ ← expect "T"%char (take 1 (drop 10 cs));
  hour ← number 2 (take 2 (drop 11 cs));
  _ ← expect ":"%char (take 1 (drop 13 cs));
  minute ← number 2 (take 2 (drop 14 cs));
  _ ← expect ":"%char (take 1 (drop 16 cs));
  second ← number 2 (take 2 (drop 17 cs));
  if negb (fields_in_range year month day hour minute second) then None else
  let rest := drop 19 cs in
  '(usec, rest') ←
    match rest with
    | c :: r =>
        if Ascii.eqb c "."%char
        then u ← number 6 (take 6 r); Some (u, drop 6 r)
        else Some (0, rest)
    | [] => Some (0, [])
    end;
  off ← offset_of rest';
  Some (Datetime ((days_from_civil year month day * 86400
                   + hour * 3600 + minute * 60 + second) * usec_per_second
                  + usec) off).

(** Class names, standing in for [str(exc)], whose text depends on the
    arguments of the exception and on the version of Python. *)
Definition exn_name (e : exn) : string :=
  match e with
  | IndexError => "IndexError"
  | KeyError => "KeyError"
  | TypeError => "TypeError"
  | ValueError => "ValueError"
  | OverflowError => "OverflowError"
  | AttributeError => "AttributeError"
  | RequestException => "RequestException"
  | HTTPError => "HTTPError"
  | JSONDecodeError => "JSONDecodeError"
  | ParseError => "ParseError"
  | HTTPException _ d => d
  end.

(** A runtime whose XML reader knows the documents of [docs]. *)
Definition runtime_with (docs : list (string * element)) : Runtime := {|
  int_of_str := int_of_ascii;
  fromisoformat_str := iso_datetime;
  ET_fromstring := fun s =>
    match List.filter (fun d => String.eqb (fst d) s) docs with
    | d :: _ => Some (snd d)
    | [] => None
    end;
  str_of_exn := exn_name
|}.

Definition dict (kvs : list (string * json)) : json := JObj (list_to_map kvs).

(** The payload of the specification's example. *)
Definition example_payload : json :=
  dict [("daily", dict [("temperature_2m_min", JArr [JFloat 2.1; JFloat 3.4])])].

Definition ok_reply (j : json) : http_response :=
  {| status := 200; text := EmptyString; json_body := Some j |}.

(** A world at clock reading [t] whose forecast provider answers [r], with
    no warnings provider reachable and an empty environment. *)
Definition forecast_world (t : Q) (r : option http_response) : World := {|
  time_time := t;
  datetime_now := 0;
  environ := ∅;
  forecast_reply := r;
  files_reply := fun _ => None;
  download_reply := fun _ _ => None
|}.

(** The Lambda event of a request [?day=v]. *)
Definition event_with_day (v : json) : json :=
  dict [("queryStringParameters", dict [("day", v)])].

(** * Vocabulary of the statements *)

(** ** Payloads and statuses *)

(** The value sequence of a field of [daily]: empty when the field is
    absent, undefined when the field holds something that is not a list. *)
Definition field_sequence (daily : gmap string json) (key : string)
    : option (list json) :=
  match daily !! key with
  | None => Some []
  | Some (JArr l) => Some l
  | Some _ => None
  end.

(** A payload the mapper accepts: a dict whose ["daily"] entry is a dict
    that holds, under each tracked name, nothing or a list. *)
Definition well_formed_payload (payload : json) : Prop :=
  exists daily,
    getitem_str payload "daily" = Ok (JObj daily) /\
    forall key, In key tracked_fields ->
      exists seq, field_sequence daily key = Some seq.

(** The reply in which every forecast field is null. *)
Definition all_null : RoadCastApiResponse :=
  init JNull JNull JNull JNull JNull JNull JNull JNull JNull JNull JNull None.

(** Status of the reply, from the payload and the day index alone. *)
Definition mapping_status (payload : json) (day : Z) : Z :=
  match from_api payload day with
  | Ok _ => 200
  | Raise e => if is_IndexError e then 400 else 500
  end.

(** Status carried by the outcome of [lambda_handler]. *)
Definition lambda_status (r : result lambda_response) : option Z :=
  match r with
  | Ok reply => Some (statusCode reply)
  | Raise _ => None
  end.

(** Status of a request, read off the cache, the clock and the forecast
    download; the warnings path does not occur in it. *)
Definition status_of_request (fetch : result json) (due : bool) (s : store)
    (day : Z) : Z :=
  if due then
    match fetch with
    | Ok payload => mapping_status payload day
    | Raise _ =>
        if is_None (data_cache s) then 500
        else mapping_status (data_cache s) day
    end
  else mapping_status (data_cache s) day.

(** ** Stores and calls *)

(** [s] after the calls [calls], with the globals as they were. *)
Definition with_calls (s : store) (calls : list upstream_call) : store :=
  Store (data_cache s) (last_loaded s) (trace s ++ calls).

(** [m] returns the same result from every store, leaves the globals
    alone and appends the same calls, all of them satisfying [P]. *)
Definition appends_only (P : upstream_call -> Prop) {A : Type} (m : M A) : Prop :=
  exists (r : result A) (calls : list upstream_call),
    Forall P calls /\
    forall s, m s = (r, Store (data_cache s) (last_loaded s) (trace s ++ calls)).

(** A call to the warnings provider. *)
Definition warnings_call (c : upstream_call) : Prop := c <> GetForecast.

Section RequestVocabulary.

Context (rt : Runtime) (w : World).

(** The statements inside the [try] of the warnings path. *)
Definition warnings_sequence (api_key : string) : M (list json) :=
  knmi_xml ← fetch_knmi_warnings w api_key;
  lift (parse_knmi_warnings rt w knmi_xml).

(** Outcome of the forecast download as [api/index.py] performs it:
    [requests.get], [raise_for_status], [.json()]. *)
Definition web_fetch : result json :=
  match forecast_reply w with
  | Some r => _ ← raise_for_status r; response_json r
  | None => Raise RequestException
  end.

(** Outcome of the forecast download as [main.py] performs it:
    [requests.get(...).json()]. *)
Definition lambda_fetch : result json :=
  match forecast_reply w with
  | Some r => response_json r
  | None => Raise RequestException
  end.

(** The guard [data_cache is None or cache_age > CACHE_TTL]. *)
Definition refetch_due (s : store) : bool :=
  is_None (data_cache s) || Qlt_bool CACHE_TTL (time_time w - last_loaded s)%Q.

(** [s] after a download that stored [payload], and the calls [calls]. *)
Definition refreshed (payload : json) (s : store) (calls : list upstream_call)
    : store :=
  Store payload (time_time w) (trace s ++ calls).

(** The last [try] of [get_weather], as a function of the payload it
    maps. *)
Definition web_response (payload : json) (day : Z) (ws : list json)
    : result json :=
  match weather_response_mapper payload day (Some ws) with
  | Ok api => Ok (to_dict api)
  | Raise exc =>
      if is_IndexError exc
      then Raise (HTTPException 400 "Day index out of range")
      else Raise (HTTPException 500 (str_of_exn rt exc))
  end.

(** The last [try] of [lambda_handler], as a function of the payload it
    maps. *)
Definition lambda_reply (payload : json) (day_index : Z) (ws : list json)
    : lambda_response :=
  match weather_response_mapper payload day_index (Some ws) with
  | Ok api => {| statusCode := 200; body := to_dict api |}
  | Raise e =>
      if is_IndexError e
      then {| statusCode := 400; body := error_body "Day index out of range" |}
      else {| statusCode := 500; body := error_body (str_of_exn rt e) |}
  end.

End RequestVocabulary.

(** ** Sort keys, and the bound on the start of a warning *)

(** Keyed entries whose sort key is a string. *)
Definition str_keyed (kx : json * json) : Prop := exists c, fst kx = JStr c.

(** [h] carries a key that no key of [l] exceeds. *)
Definition key_max (h : json * json) (l : list (json * json)) : Prop :=
  forall y c c', In y l -> fst y = JStr c' -> fst h = JStr c ->
                 String.leb c' c = true.

(** [end_of_tomorrow] as [parse_knmi_warnings] computes it from the
    current instant. *)
Definition end_of_tomorrow (now_us : Z) : datetime :=
  replace_hms (add_days (Datetime now_us (Some 0)) 1) 23 59 59.

(** 23:59:59 UTC on the day after the day of [now_us], in microseconds. *)
Definition tomorrow_235959 (now_us : Z) : Z :=
  (now_us / usec_per_day + 1) * usec_per_day + 86399 * usec_per_second.

Section WarningVocabulary.

Context (rt : Runtime).

(** Start and end of a warning element as instants, when both texts are
    read as timezone-aware datetimes. *)
Definition aware_times (warning : element) : option (Z * Z) :=
  match fromisoformat rt (findtext warning "startTime"),
        fromisoformat rt (findtext warning "endTime") with
  | Ok (Datetime s (Some os)), Ok (Datetime e (Some oe)) => Some (s - os, e - oe)
  | _, _ => None
  end.

(** The test [start <= end_of_tomorrow and end >= now] on instants. *)
Definition is_active (now_us : Z) (warning : element) : bool :=
  match aware_times warning with
  | Some (s, e) => (s <=? wall (end_of_tomorrow now_us)) && (now_us <=? e)
  | None => false
  end.

End WarningVocabulary.

(** ** Timestamps of the warnings provider *)

(** A civil date and time of day, in UTC. *)
Record civil : Type := Civil {
  c_year : Z; c_month : Z; c_day : Z;
  c_hour : Z; c_minute : Z; c_second : Z
}.

(** The fields are those of a date and time that [datetime] accepts. *)
Definition valid_civil (c : civil) : Prop :=
  1 <= c_year c <= 9999 /\ 1 <= c_month c <= 12 /\
  1 <= c_day c <= days_in_month (c_year c) (c_month c) /\
  0 <= c_hour c <= 23 /\ 0 <= c_minute c <= 59 /\ 0 <= c_second c <= 59.

(** The instant of a civil time, in seconds since 1970-01-01T00:00:00Z. *)
Definition civil_instant (c : civil) : Z :=
  days_from_civil (c_year c) (c_month c) (c_day c) * 86400
  + c_hour c * 3600 + c_minute c * 60 + c_second c.

(** The character of the decimal digit [d]. *)
Definition digit_char (d : Z) : ascii := ascii_of_N (Z.to_N (48 + d)).

(** Text that follows [pattern]: [Some c] is the character [c], [None]
    the next digit of [ds]. *)
Fixpoint render (pattern : list (option ascii)) (ds : list Z) : string :=
  match pattern with
  | [] => EmptyString
  | Some c :: p => String c (render p ds)
  | None :: p =>
      match ds with
      | d :: r => String (digit_char d) (render p r)
      | [] => EmptyString
      end
  end.

(** [YYYY-MM-DDTHH:MM:SS+00:00]. *)
Definition utc_pattern : list (option ascii) :=
  [None; None; None; None; Some "-"%char; None; None; Some "-"%char;
   None; None; Some "T"%char; None; None; Some ":"%char; None; None;
   Some ":"%char; None; None; Some "+"%char; Some "0"%char; Some "0"%char;
   Some ":"%char; Some "0"%char; Some "0"%char].

Definition two_digits (v : Z) : list Z := [v / 10; v mod 10].

(** The fourteen digits of a civil time, year first. *)
Definition civil_digits (c : civil) : list Z :=
  [c_year c / 1000; c_year c / 100 mod 10; c_year c / 10 mod 10; c_year c mod 10]
  ++ two_digits (c_month c) ++ two_digits (c_day c) ++ two_digits (c_hour c)
  ++ two_digits (c_minute c) ++ two_digits (c_second c).

(** The [created] text of a bundle made at civil time [c]. *)
Definition utc_timestamp (c : civil) : string :=
  render utc_pattern (civil_digits c).

(** Lexicographic comparison of digit sequences. *)
Fixpoint lex_compare (a b : list Z) : comparison :=
  match a, b with
  | [], [] => Eq
  | [], _ :: _ => Lt
  | _ :: _, [] => Gt
  | x :: r, y :: r' =>
      match x ?= y with
      | Eq => lex_compare r r'
      | c => c
      end
  end.

(** The number written by a digit sequence. *)
Fixpoint digits_number (acc : Z) (ds : list Z) : Z :=
  match ds with
  | [] => acc
  | d :: r => digits_number (10 * acc + d) r
  end.

Definition is_digit (d : Z) : Prop := 0 <= d <= 9.

(** Number of digits a pattern asks for. *)
Definition digits_in (pattern : list (option ascii)) : nat :=
  List.length (List.filter (fun x => match x with None => true | Some _ => false end) pattern).

(** The fourteen digits of a timestamp, read as one number. *)
Definition civil_key (c : civil) : Z :=
  ((((c_year c * 100 + c_month c) * 100 + c_day c) * 100 + c_hour c) * 100
   + c_minute c) * 100 + c_second c.

(** Days before 1 March of year [y], counted from 1 March of year 0. *)
Definition march_first (y : Z) : Z := 365 * y + y / 4 - y / 100 + y / 400.

(** Days from 1 January of year [y] to the first of month [m]. *)
Definition days_before_month (y m : Z) : Z :=
  if m =? 1 then 0
  else if m =? 2 then 31
  else 59 + (if is_leap y then 1 else 0) + (153 * (m - 3) + 2) / 5.

(** ** Example data *)

(** Worlds and stores for the cache examples: a payload cached at clock
    reading 1000, and a forecast provider that is unreachable. *)
Definition cached_store : store := Store example_payload 1000 [].
Definition outage_at (t : Q) : World := forecast_world t None.

(** A world whose warnings provider answers every listing request with
    [reply]; the forecast provider serves the example payload. *)
Definition listing_world (env : gmap string string)
    (reply : option http_response) : World := {|
  time_time := 1000;
  datetime_now := 0;
  environ := env;
  forecast_reply := Some (ok_reply example_payload);
  files_reply := fun _ => reply;
  download_reply := fun _ _ => None
|}.

Definition with_key : gmap string string := {["KNMI_API_KEY" := "secret"]}.

(** The provider's answer to a credential it does not know. *)
Definition forbidden : http_response :=
  {| status := 403; text := EmptyString;
     json_body := Some (dict [("message", JStr "Forbidden")]) |}.

(** A listing of three bundles; the second and third share the latest
    timestamp. *)
Definition file_entry (created url : string) : json :=
  dict [("filename", JStr "knmi_waarschuwingen.xml");
        ("created", JStr created); ("downloadUrl", JStr url)].

Definition example_files : list json :=
  [file_entry "2024-01-01T06:00:00+00:00" "https://knmi.example/a";
   file_entry "2024-01-01T12:00:00+00:00" "https://knmi.example/b";
   file_entry "2024-01-01T12:00:00+00:00" "https://knmi.example/c"].

Definition example_listing : http_response :=
  ok_reply (dict [("files", JArr example_files)]).

(** When each bundle of the example listing was made. *)
Definition example_made (f : json) : civil :=
  match getitem_str f "downloadUrl" with
  | Ok (JStr url) =>
      if String.eqb url "https://knmi.example/a" then Civil 2024 1 1 6 0 0
      else Civil 2024 1 1 12 0 0
  | _ => Civil 2024 1 1 12 0 0
  end.

(** A document with one warning that starts a quarter of a second after
    23:59:59 on 2 January 2024. *)
Definition late_warning : element :=
  Element "warning" None
    [Element "startTime" (Some "2024-01-02T23:59:59.250000+00:00") [];
     Element "endTime" (Some "2024-01-03T06:00:00+00:00") [];
     Element "awarenessLevel" (Some "yellow") [];
     Element "phenomenon" (Some "WIND") []].

Definition late_xml : string :=
  "<data><warning><startTime>2024-01-02T23:59:59.250000+00:00</startTime><endTime>2024-01-03T06:00:00+00:00</endTime><awarenessLevel>yellow</awarenessLevel><phenomenon>WIND</phenomenon></warning></data>".

Definition late_runtime : Runtime :=
  runtime_with [(late_xml, Element "data" None [late_warning])].

(** A world in which [datetime.now(timezone.utc)] is [now_us]. *)
Definition world_at (now_us : Z) : World := {|
  time_time := 0;
  datetime_now := now_us;
  environ := ∅;
  forecast_reply := None;
  files_reply := fun _ => None;
  download_reply := fun _ _ => None
|}.

(** 2024-01-01T12:00:00 UTC, in microseconds. *)
Definition noon_2024_01_01 : Z := 1704110400 * usec_per_second.

(** A world whose warnings provider answers the listing call with
    [listing] and every download with the text [xml] (no answer when
    [None]); the key is in the environment and the current instant is noon
    on 1 January 2024. *)
Definition knmi_world (listing : option http_response) (xml : option string)
    : World := {|
  time_time := 1000;
  datetime_now := noon_2024_01_01;
  environ := with_key;
  forecast_reply := Some (ok_reply example_payload);
  files_reply := fun _ => listing;
  download_reply := fun _ _ =>
    match xml with
    | Some t => Some {| status := 200; text := t; json_body := None |}
    | None => None
    end
|}.

(** A warning in effect from 11:00 to 13:00, and one without a start. *)
Definition current_xml : string :=
  "<data><warning><startTime>2024-01-01T11:00:00+00:00</startTime><endTime>2024-01-01T13:00:00+00:00</endTime><awarenessLevel>orange</awarenessLevel><phenomenon>SNEEUW</phenomenon></warning></data>".

Definition current_document : element :=
  Element "data" None
    [Element "warning" None
       [Element "startTime" (Some "2024-01-01T11:00:00+00:00") [];
        Element "endTime" (Some "2024-01-01T13:00:00+00:00") [];
        Element "awarenessLevel" (Some "orange") [];
        Element "phenomenon" (Some "SNEEUW") []]].

Definition headless_xml : string :=
  "<data><warning><endTime>2024-01-01T13:00:00+00:00</endTime></warning></data>".

Definition headless_document : element :=
  Element "data" None
    [Element "warning" None
       [Element "endTime" (Some "2024-01-01T13:00:00+00:00") []]].

Definition knmi_runtime : Runtime :=
  runtime_with [(current_xml, current_document);
                (headless_xml, headless_document)].

(** ** Replies, calls and malformed input *)

(** The twelve keys of the dict that [to_dict] returns. *)
Definition output_names : list string :=
  ["min_temp"; "max_temp"; "rain"; "showers"; "snow"; "sunrise"; "sunset";
   "min_visibility"; "max_visibility"; "wind_speed"; "wind_gusts"; "warnings"].

(** The upstream series read by [from_api], each with the key of
    [to_dict] under which its value is returned. *)
Definition series_and_keys : list (string * string) :=
  [("temperature_2m_min", "min_temp"); ("temperature_2m_max", "max_temp");
   ("rain_sum", "rain"); ("showers_sum", "showers"); ("snowfall_sum", "snow");
   ("sunrise", "sunrise"); ("sunset", "sunset");
   ("visibility_min", "min_visibility"); ("visibility_max", "max_visibility");
   ("wind_speed_10m_max", "wind_speed"); ("wind_gusts_10m_max", "wind_gusts")].

(** The calls of one run of the warnings path with the key [k]: the
    listing, then at most one download. *)
Definition listing_then_download (k : string) (calls : list upstream_call) : Prop :=
  calls = [GetFiles k] \/ exists url, calls = [GetFiles k; GetDownload url k].

(** The floats [inf] and [-inf], on which [int] raises [OverflowError]. *)
Definition is_infinite (v : json) : bool :=
  match v with
  | JNonFinite PosInf | JNonFinite NegInf => true
  | _ => false
  end.

(** A value on which [len] raises [TypeError]: [None], a [bool] or a
    number. *)
Definition is_scalar (v : json) : bool :=
  match v with
  | JNull | JBool _ | JInt _ | JFloat _ | JNonFinite _ => true
  | _ => false
  end.

(** The element that the negative subscript [index] reads in [seq]. *)
Definition from_the_end (seq : list json) (index : Z) : option json :=
  seq !! Z.to_nat (Z.of_nat (List.length seq) + index).

(** The exception [from_api] raises before it reads any field: the
    payload is not a dict, has no ["daily"], or its ["daily"] is not a
    dict. *)
Definition daily_defect (payload : json) : option exn :=
  match payload with
  | JObj m =>
      match m !! "daily" with
      | None => Some KeyError
      | Some (JObj _) => None
      | Some _ => Some AttributeError
      end
  | _ => Some TypeError
  end.

(** The exception [fetch_knmi_warnings] raises on an answer to the
    listing call that names no file: no answer, a body that is not JSON,
    JSON that is not an object, an object without ["files"], an empty
    list of files. *)
Definition listing_defect (reply : option http_response) : option exn :=
  match reply with
  | None => Some RequestException
  | Some r =>
      match json_body r with
      | None => Some JSONDecodeError
      | Some (JObj m) =>
          match m !! "files" with
          | None => Some KeyError
          | Some (JArr []) => Some IndexError
          | Some _ => None
          end
      | Some _ => Some TypeError
      end
  end.

(** [h] is the first of the entries of [l] that carry the greatest key:
    the keys before it are smaller, the keys after it are not greater. *)
Definition first_of_the_greatest (h : json * json) (l : list (json * json)) : Prop :=
  exists c pre post,
    l = pre ++ h :: post /\ fst h = JStr c /\
    (forall y c', In y pre -> fst y = JStr c' -> String.ltb c' c = true) /\
    (forall y c', In y post -> fst y = JStr c' -> String.leb c' c = true).

Section TimedWarnings.

Context (rt : Runtime).

(** Both times of a warning element are read, and the start is
    timezone-aware. *)
Definition well_timed (warning : element) : Prop :=
  exists start end_,
    fromisoformat rt (findtext warning "startTime") = Ok start /\
    fromisoformat rt (findtext warning "endTime") = Ok end_ /\
    utcoffset start <> None.

End TimedWarnings.

(** The forecast provider's answer to a request it rejects, a payload
    with a null series, and an event whose query parameters are a string. *)
Definition error_reply : http_response :=
  {| status := 400; text := EmptyString;
     json_body := Some (dict [("error", JBool true); ("reason", JStr "Invalid model")]) |}.

Definition null_series_payload : json :=
  dict [("daily", dict [("sunrise", JNull)])].

Definition odd_event : json := dict [("queryStringParameters", JStr "day=1")].

(** * Properties *)

(** ** The response mapper *)

Lemma list_getitem_in_range {A : Type} (l : list A) (i : Z) :
  0 <= i -> i < Z.of_nat (List.length l) ->
  exists x, l !! Z.to_nat i = Some x /\ list_getitem l i = Ok x.
Proof.
  intros Hi Hlt. unfold list_getitem, normalize_index.
  assert (Hneg : (i <? 0) = false) by (apply Z.ltb_ge; lia).
  assert (H0 : (0 <=? i) = true) by (apply Z.leb_le; lia).
  assert (H1 : (i <? Z.of_nat (List.length l)) = true) by (apply Z.ltb_lt; lia).
  rewrite Hneg, H0, H1. simpl.
  destruct (l !! Z.to_nat i) as [x|] eqn:Hl.
  - exists x. split; reflexivity.
  - apply lookup_ge_None in Hl. lia.
Qed.

(** With a non-negative index the guard [index < len(values)] makes the
    subscript safe: [get_val] cannot raise [IndexError]. *)
Lemma get_val_no_IndexError (daily : json) (index : Z) (key : string) :
  0 <= index -> get_val daily index key <> Raise IndexError.
Proof.
  intros Hi. unfold get_val.
  destruct daily; simpl; try discriminate.
  destruct (m !! key) as [values|]; simpl.
  - destruct values; simpl; try discriminate.
    + destruct (index <? Z.of_nat (List.length (characters s))) eqn:Hlt;
        [|discriminate].
      apply Z.ltb_lt in Hlt.
      destruct (list_getitem_in_range (characters s) index Hi Hlt) as (x & _ & Hx).
      rewrite Hx. discriminate.
    + destruct (index <? Z.of_nat (List.length l)) eqn:Hlt; [|discriminate].
      apply Z.ltb_lt in Hlt.
      destruct (list_getitem_in_range l index Hi Hlt) as (x & _ & Hx).
      rewrite Hx. discriminate.
    + destruct (index <? Z.of_nat (size m0)); discriminate.
  - change (Z.of_nat 0) with 0.
    destruct (index <? 0) eqn:Hlt; [|discriminate].
    apply Z.ltb_lt in Hlt. lia.
Qed.

Lemma result_bind_Raise {A B : Type} (r : result A) (f : A -> result B) (e : exn) :
  r ≫= f = Raise e ->
  r = Raise e \/ exists a, r = Ok a /\ f a = Raise e.
Proof.
  destruct r as [a|e']; simpl; intros H.
  - right. exists a. split; [reflexivity|exact H].
  - left. congruence.
Qed.

Lemma from_api_no_IndexError (response : json) (index : Z) :
  0 <= index -> from_api response index <> Raise IndexError.
Proof.
  intros Hi H. unfold from_api in H.
  apply result_bind_Raise in H.
  destruct H as [H|(daily & _ & H)].
  { revert H. destruct response; simpl; try discriminate.
    destruct (m !! "daily"); discriminate. }
  repeat (apply result_bind_Raise in H;
          destruct H as [H|(? & _ & H)];
          [exact (get_val_no_IndexError _ _ _ Hi H)|]).
  discriminate.
Qed.

Lemma weather_response_mapper_no_IndexError (response : json) (index : Z)
    (ws : option (list json)) :
  0 <= index -> weather_response_mapper response index ws <> Raise IndexError.
Proof.
  intros Hi H. unfold weather_response_mapper in H.
  apply result_bind_Raise in H.
  destruct H as [H|(? & _ & H)]; [|discriminate].
  exact (from_api_no_IndexError _ _ Hi H).
Qed.

Lemma get_val_sequence (daily : gmap string json) (index : Z) (key : string)
    (seq : list json) :
  0 <= index ->
  field_sequence daily key = Some seq ->
  get_val (JObj daily) index key =
    Ok (match seq !! Z.to_nat index with Some v => v | None => JNull end).
Proof.
  intros Hi Hseq. unfold field_sequence in Hseq. unfold get_val. simpl.
  assert (Hval : (match daily !! key with Some v => v | None => JArr [] end)
                 = JArr seq).
  { destruct (daily !! key) as [[]|]; congruence. }
  rewrite Hval. simpl.
  destruct (index <? Z.of_nat (List.length seq)) eqn:Hlt.
  - apply Z.ltb_lt in Hlt.
    destruct (list_getitem_in_range seq index Hi Hlt) as (x & Hx & Hget).
    rewrite Hget, Hx. reflexivity.
  - apply Z.ltb_ge in Hlt.
    rewrite (proj2 (lookup_ge_None seq (Z.to_nat index))) by lia.
    reflexivity.
Qed.

(** The mapper on a payload whose tracked fields are lists or absent: it
    succeeds, and each output attribute is the element of the field's
    sequence at the index, or null when the index is past its end. *)
Lemma mapper_on_sequences
    (response : json) (daily : gmap string json) (index : Z)
    (ws : option (list json)) :
  0 <= index ->
  getitem_str response "daily" = Ok (JObj daily) ->
  (forall key, In key tracked_fields ->
     exists seq, field_sequence daily key = Some seq) ->
  exists api,
    weather_response_mapper response index ws = Ok api /\
    forall key seq,
      In key tracked_fields ->
      field_sequence daily key = Some seq ->
      (exists v, get_val (JObj daily) index key = Ok v /\
                 output_of key api = Some v) /\
      (forall v, seq !! Z.to_nat index = Some v -> output_of key api = Some v) /\
      (Z.of_nat (List.length seq) <= index -> output_of key api = Some JNull).
Proof.
  intros Hi Hdaily Hwf.
  unfold weather_response_mapper, from_api. rewrite Hdaily. simpl.
  assert (Hget : forall key, In key tracked_fields ->
            exists v, get_val (JObj daily) index key = Ok v).
  { intros key Hk. destruct (Hwf key Hk) as [seq Hseq].
    rewrite (get_val_sequence _ _ _ _ Hi Hseq). eexists. reflexivity. }
  destruct (Hget "temperature_2m_min") as [v1 E1]; [simpl; tauto|].
  destruct (Hget "temperature_2m_max") as [v2 E2]; [simpl; tauto|].
  destruct (Hget "rain_sum") as [v3 E3]; [simpl; tauto|].
  destruct (Hget "showers_sum") as [v4 E4]; [simpl; tauto|].
  destruct (Hget "snowfall_sum") as [v5 E5]; [simpl; tauto|].
  destruct (Hget "sunrise") as [v6 E6]; [simpl; tauto|].
  destruct (Hget "sunset") as [v7 E7]; [simpl; tauto|].
  destruct (Hget "visibility_min") as [v8 E8]; [simpl; tauto|].
  destruct (Hget "visibility_max") as [v9 E9]; [simpl; tauto|].
  destruct (Hget "wind_speed_10m_max") as [v10 E10]; [simpl; tauto|].
  destruct (Hget "wind_gusts_10m_max") as [v11 E11]; [simpl; tauto|].
  rewrite E1, E2, E3, E4, E5, E6, E7, E8, E9, E10, E11. simpl.
  eexists. split; [reflexivity|].
  intros key seq Hk Hseq.
  assert (Hout : exists v, get_val (JObj daily) index key = Ok v /\
            output_of key
              {| min_temp := v1; max_temp := v2; rain := v3; showers := v4;
                 snow := v5; sunrise := v6; sunset := v7;
                 min_visibility := v8; max_visibility := v9;
                 wind_speed := v10; wind_gusts := v11;
                 warnings := or_empty ws |} = Some v).
  { simpl in Hk.
    repeat (destruct Hk as [<-|Hk];
            [eexists; split; [eassumption|reflexivity]|]).
    contradiction. }
  destruct Hout as (v & Hv & Ho).
  split; [exists v; split; assumption|].
  rewrite (get_val_sequence _ _ _ _ Hi Hseq) in Hv.
  injection Hv as Hv. rewrite Ho, <- Hv.
  split.
  - intros v' Hv'. rewrite Hv'. reflexivity.
  - intros Hge.
    rewrite (proj2 (lookup_ge_None seq (Z.to_nat index))) by lia.
    reflexivity.
Qed.

(** Why the index must not be negative: Python counts a negative
    subscript from the end, so [-1] reads the last day, and one past the
    start raises [IndexError]. *)
Lemma get_val_negative_index :
  get_val (dict [("sunrise", JArr [JStr "07:10"; JStr "07:12"])]) (-1) "sunrise"
    = Ok (JStr "07:12") /\
  get_val (dict [("sunrise", JArr [JStr "07:10"; JStr "07:12"])]) (-3) "sunrise"
    = Raise IndexError.
Proof. split; vm_compute; reflexivity. Qed.

(** C2.  For a payload whose [daily] object holds, under each of the
    eleven tracked names, either nothing or a list, and for a day index
    that is not negative (both shells guarantee it), the response mapper
    succeeds; per-field extraction [get_val] returns without raising; the
    output attribute of a field is the element at the day index when the
    index is within the field's sequence (an absent field counting as the
    empty sequence) and null otherwise. *)
Theorem mapper_extracts_each_field
    (response : json) (daily : gmap string json) (index : Z)
    (ws : option (list json)) :
  0 <= index ->
  getitem_str response "daily" = Ok (JObj daily) ->
  (forall key, In key tracked_fields ->
     exists seq, field_sequence daily key = Some seq) ->
  exists api,
    weather_response_mapper response index ws = Ok api /\
    forall key seq,
      In key tracked_fields ->
      field_sequence daily key = Some seq ->
      (exists v, get_val (JObj daily) index key = Ok v /\
                 output_of key api = Some v) /\
      (forall v, seq !! Z.to_nat index = Some v -> output_of key api = Some v) /\
      (Z.of_nat (List.length seq) <= index -> output_of key api = Some JNull).
Proof.
  exact (mapper_on_sequences response daily index ws).
Qed.

(** The specification's example: [temperature_2m_min: [2.1, 3.4]] at day
    index 1 gives [min_temp = 3.4]. *)
Lemma mapper_extracts_each_field_witness :
  exists api,
    weather_response_mapper example_payload 1 (Some []) = Ok api /\
    output_of "temperature_2m_min" api = Some (JFloat 3.4) /\
    output_of "sunrise" api = Some JNull.
Proof.
  destruct (mapper_extracts_each_field example_payload
              (list_to_map [("temperature_2m_min", JArr [JFloat 2.1; JFloat 3.4])])
              1 (Some [])) as (api & Hapi & Hfields).
  - lia.
  - reflexivity.
  - intros key Hk. simpl in Hk.
    repeat (destruct Hk as [<-|Hk]; [eexists; vm_compute; reflexivity|]).
    contradiction.
  - exists api. split; [exact Hapi|]. split.
    + apply (Hfields "temperature_2m_min" [JFloat 2.1; JFloat 3.4]).
      * simpl; tauto.
      * vm_compute; reflexivity.
      * reflexivity.
    + apply (Hfields "sunrise" []).
      * simpl; tauto.
      * vm_compute; reflexivity.
      * simpl. lia.
Defined.

(** ** Statements that only talk to the warnings provider *)

Lemma store_eta (s : store) :
  Store (data_cache s) (last_loaded s) (trace s ++ []) = s.
Proof. destruct s. simpl. rewrite app_nil_r. reflexivity. Qed.

Section AppendsOnly.

Context (P : upstream_call -> Prop).

Lemma appends_only_lift {A : Type} (r : result A) : appends_only P (lift r).
Proof.
  exists r, []. split; [constructor|].
  intros s. unfold lift. rewrite store_eta. reflexivity.
Qed.

Lemma appends_only_ret {A : Type} (a : A) : appends_only P (mret a).
Proof. exact (appends_only_lift (Ok a)). Qed.

Lemma appends_only_raise {A : Type} (e : exn) : appends_only P (raise (A := A) e).
Proof. exact (appends_only_lift (Raise e)). Qed.

Lemma appends_only_record (c : upstream_call) : P c -> appends_only P (record_call c).
Proof.
  intros Hc. exists (Ok tt), [c]. split; [repeat constructor; exact Hc|].
  intros s. reflexivity.
Qed.

Lemma appends_only_bind {A B : Type} (m : M A) (f : A -> M B) :
  appends_only P m -> (forall a, appends_only P (f a)) ->
  appends_only P (m ≫= f).
Proof.
  intros (r & calls & Hcalls & Hm) Hf.
  destruct r as [a|e].
  - destruct (Hf a) as (r' & calls' & Hcalls' & Hfa).
    exists r', (calls ++ calls'). split; [apply Forall_app; split; assumption|].
    intros s. unfold mbind, M_bind. rewrite Hm, Hfa. simpl.
    rewrite app_assoc. reflexivity.
  - exists (Raise e), calls. split; [assumption|].
    intros s. unfold mbind, M_bind. rewrite Hm. reflexivity.
Qed.

Lemma appends_only_try {A : Type} (m : M A) (h : exn -> M A) :
  appends_only P m -> (forall e, appends_only P (h e)) ->
  appends_only P (try_except m h).
Proof.
  intros (r & calls & Hcalls & Hm) Hh.
  destruct r as [a|e].
  - exists (Ok a), calls. split; [assumption|].
    intros s. unfold try_except. rewrite Hm. reflexivity.
  - destruct (Hh e) as (r' & calls' & Hcalls' & Hhe).
    exists r', (calls ++ calls'). split; [apply Forall_app; split; assumption|].
    intros s. unfold try_except. rewrite Hm, Hhe. simpl.
    rewrite app_assoc. reflexivity.
Qed.

End AppendsOnly.

Section WarningsPath.

Context (rt : Runtime) (w : World).

(** A statement that opens with the call [c] and goes on with statements
    that only append calls: the calls it makes are [c] and then calls
    satisfying [P]. *)
Lemma opens_with_call {A B : Type} (P : upstream_call -> Prop)
    (c : upstream_call) (g : unit -> M A) (k : A -> M B) :
  (forall u, appends_only P (g u)) -> (forall a, appends_only P (k a)) ->
  exists (r : result B) (calls : list upstream_call),
    Forall P calls /\
    forall s, ((record_call c ≫= g) ≫= k) s = (r, with_calls s (c :: calls)).
Proof.
  intros Hg Hk.
  destruct (appends_only_bind P (g tt) k (Hg tt) Hk) as (r & calls & Hcalls & Hrun).
  exists r, calls. split; [exact Hcalls|].
  intros s.
  change (((record_call c ≫= g) ≫= k) s)
    with ((g tt ≫= k) (Store (data_cache s) (last_loaded s) (trace s ++ [c]))).
  rewrite Hrun. unfold with_calls. cbn. rewrite <- app_assoc. reflexivity.
Qed.

(** [fetch_knmi_warnings] first lists the files, with the key it was
    given, and afterwards only talks to the warnings provider. *)
Lemma fetch_knmi_warnings_calls (api_key : string) :
  exists (r : result string) (calls : list upstream_call),
    Forall warnings_call calls /\
    forall s, fetch_knmi_warnings w api_key s =
              (r, with_calls s (GetFiles api_key :: calls)).
Proof.
  unfold fetch_knmi_warnings, requests_get_files.
  apply opens_with_call.
  - intros _. destruct (files_reply w api_key).
    + apply appends_only_ret.
    + apply appends_only_raise.
  - intros response.
    repeat (apply appends_only_bind; [apply appends_only_lift|intros ?]).
    apply appends_only_bind; [|intros ?; apply appends_only_ret].
    unfold requests_get_download. apply appends_only_bind.
    + apply appends_only_record. discriminate.
    + intros _. destruct (download_reply w _ api_key).
      * apply appends_only_ret.
      * apply appends_only_raise.
Qed.

Lemma fetch_knmi_warnings_appends (api_key : string) :
  appends_only warnings_call (fetch_knmi_warnings w api_key).
Proof.
  destruct (fetch_knmi_warnings_calls api_key) as (r & calls & Hcalls & Hrun).
  exists r, (GetFiles api_key :: calls). split; [|exact Hrun].
  apply Forall_cons_2; [discriminate|exact Hcalls].
Qed.

(** So does the sequence inside the [try]. *)
Lemma warnings_sequence_calls (api_key : string) :
  exists (r : result (list json)) (calls : list upstream_call),
    Forall warnings_call calls /\
    forall s, warnings_sequence rt w api_key s =
              (r, with_calls s (GetFiles api_key :: calls)).
Proof.
  destruct (fetch_knmi_warnings_calls api_key) as (r & calls & Hcalls & Hrun).
  destruct r as [xml|e].
  - exists (parse_knmi_warnings rt w xml), calls. split; [exact Hcalls|].
    intros s. unfold warnings_sequence, mbind, M_bind. rewrite Hrun. reflexivity.
  - exists (Raise e), calls. split; [exact Hcalls|].
    intros s. unfold warnings_sequence, mbind, M_bind. rewrite Hrun. reflexivity.
Qed.

Lemma warnings_sequence_appends (api_key : string) :
  appends_only warnings_call (warnings_sequence rt w api_key).
Proof.
  apply appends_only_bind.
  - apply fetch_knmi_warnings_appends.
  - intros xml. apply appends_only_lift.
Qed.

(** The [try] block of the warnings path always completes with a list:
    the one parsed, or the empty one when the sequence raised. *)
Lemma try_warnings_completes (api_key : string) :
  exists (ws : list json) (calls : list upstream_call),
    Forall warnings_call calls /\
    (forall s, try_warnings rt w api_key s =
               (Ok ws, Store (data_cache s) (last_loaded s) (trace s ++ calls))) /\
    (forall s, fst (warnings_sequence rt w api_key s) = Ok ws \/
               (exists e, fst (warnings_sequence rt w api_key s) = Raise e) /\ ws = []).
Proof.
  destruct (warnings_sequence_appends api_key) as (r & calls & Hcalls & Hrun).
  change (try_warnings rt w api_key)
    with (try_except (warnings_sequence rt w api_key) (fun _ => mret [])).
  destruct r as [ws|e].
  - exists ws, calls. split; [assumption|]. split.
    + intros s. unfold try_except. rewrite Hrun. reflexivity.
    + intros s. left. rewrite Hrun. reflexivity.
  - exists [], calls. split; [assumption|]. split.
    + intros s. unfold try_except. rewrite Hrun. reflexivity.
    + intros s. right. split; [|reflexivity]. exists e. rewrite Hrun. reflexivity.
Qed.

Lemma web_warnings_completes :
  exists (ws : list json) (calls : list upstream_call),
    Forall warnings_call calls /\
    forall s, web_warnings rt w s =
              (Ok ws, Store (data_cache s) (last_loaded s) (trace s ++ calls)).
Proof.
  unfold web_warnings.
  destruct (negb (String.eqb (getenv w "KNMI_API_KEY" EmptyString) EmptyString)).
  - destruct (try_warnings_completes (getenv w "KNMI_API_KEY" EmptyString))
      as (ws & calls & Hcalls & Hrun & _).
    exists ws, calls. split; assumption.
  - exists [], []. split; [constructor|].
    intros s. rewrite store_eta. reflexivity.
Qed.

Lemma lambda_warnings_completes :
  exists (ws : list json) (calls : list upstream_call),
    Forall warnings_call calls /\
    forall s, lambda_warnings rt w s =
              (Ok ws, Store (data_cache s) (last_loaded s) (trace s ++ calls)).
Proof.
  destruct (try_warnings_completes "KNMI_API_KEY_HIER")
    as (ws & calls & Hcalls & Hrun & _).
  exists ws, calls. split; assumption.
Qed.

(** In [main.py] the warnings path is entered on every request that
    reaches it, and opens by listing the files with the literal of the
    source as the credential. *)
Lemma lambda_warnings_lists_files :
  exists (ws : list json) (calls : list upstream_call),
    forall s, lambda_warnings rt w s =
              (Ok ws, with_calls s (GetFiles "KNMI_API_KEY_HIER" :: calls)).
Proof.
  destruct (warnings_sequence_calls "KNMI_API_KEY_HIER")
    as (r & calls & _ & Hrun).
  change (lambda_warnings rt w)
    with (try_except (warnings_sequence rt w "KNMI_API_KEY_HIER")
            (fun _ => mret [])).
  destruct r as [ws|e].
  - exists ws, calls. intros s. unfold try_except. rewrite Hrun. reflexivity.
  - exists [], calls. intros s. unfold try_except. rewrite Hrun. reflexivity.
Qed.

End WarningsPath.

(** ** One request through each shell *)

(** Steps shared by the two handlers: reading the globals at the top,
    running the download inside its [try], the [except] branch of the
    download, and the final [try] once the warnings are known. *)
Ltac enter_handler :=
  unfold mbind at 1 2 3; unfold M_bind at 1 2 3; unfold gets at 1 2;
  cbn beta iota.

Ltac run_download :=
  unfold try_except at 1, requests_get_forecast, record_call;
  unfold mbind, M_bind.

Ltac after_failure s :=
  destruct (is_None (data_cache s)); cbn; [reflexivity|].

Ltac map_reply Hw :=
  rewrite Hw; unfold try_except, gets, lift, with_calls, refreshed; cbn;
  rewrite <- ?app_assoc; cbn;
  match goal with
  | |- context [weather_response_mapper ?p ?d ?ws] =>
      destruct (weather_response_mapper p d ws) as [api|exc];
      [reflexivity|destruct (is_IndexError exc); reflexivity]
  end.

Section Handlers.

Context (rt : Runtime) (w : World).

(** Every run of [get_weather], by cases on the guard and on the outcome
    of the download.  [ws] and [calls] are the warnings obtained and the
    calls made to the warnings provider. *)
Lemma get_weather_run (day : Z) :
  exists (ws : list json) (calls : list upstream_call),
    Forall warnings_call calls /\
    (forall s, web_warnings rt w s = (Ok ws, with_calls s calls)) /\
    forall s,
      get_weather rt w day s =
        if refetch_due w s then
          match web_fetch w with
          | Ok payload =>
              (web_response rt payload day ws,
               refreshed w payload s (GetForecast :: calls))
          | Raise _ =>
              if is_None (data_cache s)
              then (Raise (HTTPException 500 "Weather fetch failed"),
                    with_calls s [GetForecast])
              else (web_response rt (data_cache s) day ws,
                    with_calls s (GetForecast :: calls))
          end
        else (web_response rt (data_cache s) day ws, with_calls s calls).
Proof.
  destruct (web_warnings_completes rt w) as (ws & calls & Hcalls & Hw).
  exists ws, calls. split; [assumption|]. split; [exact Hw|].
  intros s. unfold get_weather, refetch_due, web_fetch, web_response.
  enter_handler.
  destruct (is_None (data_cache s) || Qlt_bool CACHE_TTL (time_time w - last_loaded s)%Q).
  2:{ unfold mret at 1, M_ret at 1. unfold mbind, M_bind. map_reply Hw. }
  run_download.
  destruct (forecast_reply w) as [r|]; cbn.
  - destruct (raise_for_status r) as [[]|e]; cbn.
    + destruct (response_json r) as [payload|e]; cbn.
      * map_reply Hw.
      * after_failure s; map_reply Hw.
    + after_failure s; map_reply Hw.
  - after_failure s; map_reply Hw.
Qed.

(** Every run of the body of [lambda_handler], by the same cases. *)
Lemma handle_day_run (day_index : Z) :
  exists (ws : list json) (calls : list upstream_call),
    Forall warnings_call calls /\
    (forall s, lambda_warnings rt w s = (Ok ws, with_calls s calls)) /\
    forall s,
      handle_day rt w day_index s =
        if refetch_due w s then
          match lambda_fetch w with
          | Ok payload =>
              (Ok (lambda_reply rt payload day_index ws),
               refreshed w payload s (GetForecast :: calls))
          | Raise _ =>
              if is_None (data_cache s)
              then (Ok {| statusCode := 500;
                          body := error_body "Weather fetch failed" |},
                    with_calls s [GetForecast])
              else (Ok (lambda_reply rt (data_cache s) day_index ws),
                    with_calls s (GetForecast :: calls))
          end
        else (Ok (lambda_reply rt (data_cache s) day_index ws), with_calls s calls).
Proof.
  destruct (lambda_warnings_completes rt w) as (ws & calls & Hcalls & Hw).
  exists ws, calls. split; [assumption|]. split; [exact Hw|].
  intros s. unfold handle_day, refetch_due, lambda_fetch, lambda_reply.
  enter_handler.
  destruct (is_None (data_cache s) || Qlt_bool CACHE_TTL (time_time w - last_loaded s)%Q).
  2:{ unfold mret at 1, M_ret at 1. unfold mbind, M_bind. map_reply Hw. }
  run_download.
  destruct (forecast_reply w) as [r|]; cbn.
  - destruct (response_json r) as [payload|e]; cbn.
    + map_reply Hw.
    + after_failure s; map_reply Hw.
  - after_failure s; map_reply Hw.
Qed.

(** [lambda_handler] is its body run at the day index of the event. *)
Lemma lambda_handler_run (event : json) (day_index : Z) (s : store) :
  day_index_of rt event = Ok day_index ->
  lambda_handler rt w event s = handle_day rt w day_index s.
Proof.
  intros Hd. unfold lambda_handler, mbind, M_bind, lift. rewrite Hd. reflexivity.
Qed.

(** What [int] raises is caught by [except (ValueError, TypeError)],
    but for the [OverflowError] of an infinite float; and the day index
    that comes out of lines 20-27 is never negative. *)
Lemma py_int_raises (v : json) (e : exn) :
  py_int rt v = Raise e ->
  (is_infinite v = false /\ is_ValueError_or_TypeError e = true) \/
  (is_infinite v = true /\ e = OverflowError).
Proof.
  destruct v as [| | | |[| |]|s| |]; simpl; try discriminate;
    try (intros [= <-]; left; split; reflexivity);
    try (intros [= <-]; right; split; reflexivity).
  destruct (int_of_str rt s); [discriminate|].
  intros [= <-]. left. split; reflexivity.
Qed.

Lemma py_int_infinite (v : json) :
  is_infinite v = true -> py_int rt v = Raise OverflowError.
Proof.
  destruct v as [| | | |[| |]| | |]; simpl; try discriminate; reflexivity.
Qed.

Lemma day_index_of_nonneg (event : json) (day_index : Z) :
  day_index_of rt event = Ok day_index -> 0 <= day_index.
Proof.
  unfold day_index_of. intros Hd.
  destruct (query_params_of event) as [qp|]; [|discriminate]. simpl in Hd.
  destruct (match _ ≫= _ with Ok z => Ok z | Raise e => _ end) as [z|];
    [|discriminate].
  simpl in Hd. injection Hd as <-.
  destruct (z <? 0) eqn:Hz; [lia|]. apply Z.ltb_ge in Hz. exact Hz.
Qed.

End Handlers.

Section CachePolicy.

Context (rt : Runtime) (w : World).

Lemma warnings_calls_exclude_forecast (calls : list upstream_call) :
  Forall warnings_call calls -> ~ In GetForecast calls.
Proof.
  intros Hall Hin. rewrite Forall_forall in Hall.
  apply list_elem_of_In in Hin. exact (Hall _ Hin eq_refl).
Qed.

Lemma refetch_due_cached (s : store) :
  is_None (data_cache s) = false ->
  refetch_due w s = true <-> ~ (time_time w - last_loaded s <= CACHE_TTL)%Q.
Proof.
  intros Hc. unfold refetch_due, Qlt_bool. rewrite Hc. simpl.
  rewrite negb_true_iff, <- not_true_iff_false, Qle_bool_iff. reflexivity.
Qed.

(** C6.  With a payload in the cache: when the age of the cache is at
    most 120 seconds, neither shell calls the forecast provider, the
    globals stay as they are and the reply is the one mapped from the
    cached payload; when the age is 121 seconds or more, the first call
    either shell makes is the forecast download. *)
Theorem cache_window_is_120_seconds
    (day : Z) (event : json) (day_index : Z) (s : store) :
  is_None (data_cache s) = false ->
  day_index_of rt event = Ok day_index ->
  ((time_time w - last_loaded s <= 120)%Q ->
     (exists ws calls,
        ~ In GetForecast calls /\
        get_weather rt w day s =
          (web_response rt (data_cache s) day ws, with_calls s calls)) /\
     (exists ws calls,
        ~ In GetForecast calls /\
        lambda_handler rt w event s =
          (Ok (lambda_reply rt (data_cache s) day_index ws), with_calls s calls)))
  /\
  ((121 <= time_time w - last_loaded s)%Q ->
     (exists calls,
        trace (snd (get_weather rt w day s)) = trace s ++ GetForecast :: calls) /\
     (exists calls,
        trace (snd (lambda_handler rt w event s)) = trace s ++ GetForecast :: calls)).
Proof.
  intros Hcache Hday.
  destruct (get_weather_run rt w day) as (ws & calls & Hcalls & _ & Hweb).
  destruct (handle_day_run rt w day_index) as (ws' & calls' & Hcalls' & _ & Hlam).
  pose proof (refetch_due_cached s Hcache) as Hdue.
  rewrite (lambda_handler_run rt w event day_index s Hday), Hweb, Hlam.
  split.
  - intros Hage.
    assert (Hno : refetch_due w s = false).
    { apply not_true_iff_false. rewrite Hdue. intros Hn. apply Hn. exact Hage. }
    rewrite Hno. split.
    + exists ws, calls. split; [|reflexivity].
      apply warnings_calls_exclude_forecast; assumption.
    + exists ws', calls'. split; [|reflexivity].
      apply warnings_calls_exclude_forecast; assumption.
  - intros Hage.
    assert (Hyes : refetch_due w s = true).
    { apply Hdue. unfold CACHE_TTL. intros Hle.
      assert (121 <= 120)%Q as Habs by (eapply Qle_trans; eassumption).
      revert Habs. apply Qlt_not_le. reflexivity. }
    rewrite Hyes, Hcache. split.
    + destruct (web_fetch w); eexists; reflexivity.
    + destruct (lambda_fetch w); eexists; reflexivity.
Qed.

Lemma lambda_handler_no_day (event : json) (e : exn) (s : store) :
  day_index_of rt event = Raise e ->
  lambda_handler rt w event s = (Raise e, s).
Proof.
  intros Hd. unfold lambda_handler, mbind, M_bind, lift. rewrite Hd. reflexivity.
Qed.

(** The globals after a request: untouched, or both replaced after a
    download that was due and succeeded. *)
Lemma get_weather_globals (day : Z) (s : store) :
  (data_cache (snd (get_weather rt w day s)) = data_cache s /\
   last_loaded (snd (get_weather rt w day s)) = last_loaded s) \/
  (web_fetch w = Ok (data_cache (snd (get_weather rt w day s))) /\
   last_loaded (snd (get_weather rt w day s)) = time_time w).
Proof.
  destruct (get_weather_run rt w day) as (ws & calls & _ & _ & Hrun).
  rewrite Hrun.
  destruct (refetch_due w s); [|left; split; reflexivity].
  destruct (web_fetch w) as [payload|e].
  - right. split; reflexivity.
  - left. destruct (is_None (data_cache s)); split; reflexivity.
Qed.

Lemma lambda_handler_globals (event : json) (s : store) :
  (data_cache (snd (lambda_handler rt w event s)) = data_cache s /\
   last_loaded (snd (lambda_handler rt w event s)) = last_loaded s) \/
  (lambda_fetch w = Ok (data_cache (snd (lambda_handler rt w event s))) /\
   last_loaded (snd (lambda_handler rt w event s)) = time_time w).
Proof.
  destruct (day_index_of rt event) as [d|e] eqn:Hd.
  - rewrite (lambda_handler_run rt w event d s Hd).
    destruct (handle_day_run rt w d) as (ws & calls & _ & _ & Hrun).
    rewrite Hrun.
    destruct (refetch_due w s); [|left; split; reflexivity].
    destruct (lambda_fetch w) as [payload|e].
    + right. split; reflexivity.
    + left. destruct (is_None (data_cache s)); split; reflexivity.
  - rewrite (lambda_handler_no_day event e s Hd). left. split; reflexivity.
Qed.

(** C10.  In both shells a request during which the forecast download
    raises leaves [data_cache] and [last_loaded] as they were; and after
    any request the two globals are either both unchanged or both
    replaced, by the downloaded payload and the clock reading of the
    request. *)
Theorem failed_fetch_leaves_cache_untouched (day : Z) (event : json) (s : store) :
  (forall e, web_fetch w = Raise e ->
     data_cache (snd (get_weather rt w day s)) = data_cache s /\
     last_loaded (snd (get_weather rt w day s)) = last_loaded s) /\
  (forall e, lambda_fetch w = Raise e ->
     data_cache (snd (lambda_handler rt w event s)) = data_cache s /\
     last_loaded (snd (lambda_handler rt w event s)) = last_loaded s) /\
  ((data_cache (snd (get_weather rt w day s)) = data_cache s /\
    last_loaded (snd (get_weather rt w day s)) = last_loaded s) \/
   (web_fetch w = Ok (data_cache (snd (get_weather rt w day s))) /\
    last_loaded (snd (get_weather rt w day s)) = time_time w)) /\
  ((data_cache (snd (lambda_handler rt w event s)) = data_cache s /\
    last_loaded (snd (lambda_handler rt w event s)) = last_loaded s) \/
   (lambda_fetch w = Ok (data_cache (snd (lambda_handler rt w event s))) /\
    last_loaded (snd (lambda_handler rt w event s)) = time_time w)).
Proof.
  pose proof (get_weather_globals day s) as Hweb.
  pose proof (lambda_handler_globals event s) as Hlam.
  split; [|split; [|split; assumption]].
  - intros e Hfail. destruct Hweb as [Hsame|[Hok _]]; [exact Hsame|].
    rewrite Hfail in Hok. discriminate.
  - intros e Hfail. destruct Hlam as [Hsame|[Hok _]]; [exact Hsame|].
    rewrite Hfail in Hok. discriminate.
Qed.

End CachePolicy.

Lemma cache_window_is_120_seconds_witness :
  (exists ws calls,
     ~ In GetForecast calls /\
     get_weather (runtime_with []) (outage_at 1120) 1 cached_store =
       (web_response (runtime_with []) example_payload 1 ws,
        with_calls cached_store calls)) /\
  (exists calls,
     trace (snd (lambda_handler (runtime_with []) (outage_at 1121)
                   (event_with_day (JStr "1")) cached_store))
     = [] ++ GetForecast :: calls).
Proof.
  split.
  - apply (cache_window_is_120_seconds (runtime_with []) (outage_at 1120) 1
             (event_with_day (JStr "1")) 1 cached_store).
    + reflexivity.
    + vm_compute. reflexivity.
    + vm_compute. discriminate.
  - apply (cache_window_is_120_seconds (runtime_with []) (outage_at 1121) 1
             (event_with_day (JStr "1")) 1 cached_store).
    + reflexivity.
    + vm_compute. reflexivity.
    + vm_compute. discriminate.
Defined.

Lemma failed_fetch_leaves_cache_untouched_witness :
  data_cache (snd (get_weather (runtime_with []) (outage_at 5000) 0 cached_store))
    = example_payload /\
  last_loaded (snd (lambda_handler (runtime_with []) (outage_at 5000)
                      (event_with_day (JStr "0")) cached_store))
    = 1000%Q.
Proof.
  split.
  - apply (proj1 (failed_fetch_leaves_cache_untouched (runtime_with [])
                    (outage_at 5000) 0 (event_with_day (JStr "0")) cached_store)
             RequestException).
    reflexivity.
  - apply (proj1 (proj2 (failed_fetch_leaves_cache_untouched (runtime_with [])
                    (outage_at 5000) 0 (event_with_day (JStr "0")) cached_store))
             RequestException).
    reflexivity.
Defined.

Section FailurePolicy.

Context (rt : Runtime) (w : World).

Lemma well_formed_payload_maps (payload : json) (day : Z) (ws : list json) :
  0 <= day -> well_formed_payload payload ->
  exists api,
    weather_response_mapper payload day (Some ws) = Ok api /\
    web_response rt payload day ws = Ok (to_dict api) /\
    lambda_reply rt payload day ws = {| statusCode := 200; body := to_dict api |}.
Proof.
  intros Hday (daily & Hdaily & Hfields).
  destruct (mapper_on_sequences payload daily day (Some ws)
              Hday Hdaily Hfields) as (api & Hapi & _).
  exists api. unfold web_response, lambda_reply. rewrite Hapi. repeat split.
Qed.

(** What counts as a failed download differs between the shells on one
    point: an answer with an error status and a JSON body raises in
    [api/index.py] ([raise_for_status]) and is a payload for [main.py]. *)
Lemma error_status_with_json_body (r : http_response) (j : json) :
  forecast_reply w = Some r ->
  (400 <=? status r) && (status r <? 600) = true ->
  json_body r = Some j ->
  web_fetch w = Raise HTTPError /\ lambda_fetch w = Ok j.
Proof.
  intros Hr Hstatus Hj. unfold web_fetch, lambda_fetch, raise_for_status,
    response_json.
  rewrite Hr, Hstatus, Hj. split; reflexivity.
Qed.

(** A first request to the FastAPI shell while the forecast provider is
    unreachable is answered 500 with the body [{"detail": "Weather fetch
    failed"}]: the message is under [detail], and there is no [error] in
    the body. *)
Lemma web_500_body_has_no_error_field :
  web_fetch (outage_at 5000) = Raise RequestException /\
  web_status (fst (get_weather (runtime_with []) (outage_at 5000) 0 initial_store))
    = 500 /\
  web_body (fst (get_weather (runtime_with []) (outage_at 5000) 0 initial_store))
    = dict [("detail", JStr "Weather fetch failed")] /\
  getitem_str
    (web_body (fst (get_weather (runtime_with []) (outage_at 5000) 0 initial_store)))
    "error" = Raise KeyError.
Proof.
  repeat split; vm_compute; reflexivity.
Qed.

(** On a request whose forecast download is attempted and raises: with
    a payload in the cache that the mapper accepts, both shells answer 200
    with the body mapped from that stale payload, as on a cache hit; with
    no payload both answer 500 with the message "Weather fetch failed",
    which [lambda_handler] puts under the key [error] of the body and
    [get_weather] in the [detail] of an [HTTPException], so under the key
    [detail] of the body. *)
Lemma fetch_failure_serves_stale_or_500
    (day : Z) (event : json) (day_index : Z) (s : store) :
  0 <= day ->
  day_index_of rt event = Ok day_index ->
  refetch_due w s = true ->
  (forall e, web_fetch w = Raise e ->
     (is_None (data_cache s) = false -> well_formed_payload (data_cache s) ->
        exists ws calls api,
          weather_response_mapper (data_cache s) day (Some ws) = Ok api /\
          get_weather rt w day s =
            (Ok (to_dict api), with_calls s (GetForecast :: calls)) /\
          web_status (fst (get_weather rt w day s)) = 200) /\
     (is_None (data_cache s) = true ->
        fst (get_weather rt w day s) =
          Raise (HTTPException 500 "Weather fetch failed") /\
        web_status (fst (get_weather rt w day s)) = 500 /\
        getitem_str (web_body (fst (get_weather rt w day s))) "detail" =
          Ok (JStr "Weather fetch failed"))) /\
  (forall e, lambda_fetch w = Raise e ->
     (is_None (data_cache s) = false -> well_formed_payload (data_cache s) ->
        exists ws calls api,
          weather_response_mapper (data_cache s) day_index (Some ws) = Ok api /\
          lambda_handler rt w event s =
            (Ok {| statusCode := 200; body := to_dict api |},
             with_calls s (GetForecast :: calls))) /\
     (is_None (data_cache s) = true ->
        fst (lambda_handler rt w event s) =
          Ok {| statusCode := 500; body := error_body "Weather fetch failed" |} /\
        getitem_str (error_body "Weather fetch failed") "error" =
          Ok (JStr "Weather fetch failed"))).
Proof.
  intros Hday Hd Hdue.
  pose proof (day_index_of_nonneg rt event day_index Hd) as Hidx.
  destruct (get_weather_run rt w day) as (ws & calls & _ & _ & Hweb).
  destruct (handle_day_run rt w day_index) as (ws' & calls' & _ & _ & Hlam).
  rewrite (lambda_handler_run rt w event day_index s Hd), Hweb, Hlam, Hdue.
  split; intros e He; rewrite He; (split; intros Hcache; rewrite Hcache).
  - intros Hwf.
    destruct (well_formed_payload_maps (data_cache s) day ws Hday Hwf)
      as (api & Hapi & Hresp & _).
    exists ws, calls, api. rewrite Hresp. repeat split. exact Hapi.
  - repeat split; reflexivity.
  - intros Hwf.
    destruct (well_formed_payload_maps (data_cache s) day_index ws' Hidx Hwf)
      as (api & Hapi & _ & Hresp).
    exists ws', calls', api. rewrite Hresp. repeat split. exact Hapi.
  - split; reflexivity.
Qed.

End FailurePolicy.

Lemma example_payload_well_formed : well_formed_payload example_payload.
Proof.
  exists (list_to_map [("temperature_2m_min", JArr [JFloat 2.1; JFloat 3.4])]).
  split; [reflexivity|].
  intros key Hk. simpl in Hk.
  repeat (destruct Hk as [<-|Hk]; [eexists; vm_compute; reflexivity|]).
  contradiction.
Qed.

Lemma fetch_failure_serves_stale_or_500_example :
  web_status (fst (get_weather (runtime_with []) (outage_at 5000) 1 cached_store))
    = 200 /\
  fst (lambda_handler (runtime_with []) (outage_at 5000)
         (event_with_day (JStr "1")) initial_store)
    = Ok {| statusCode := 500; body := error_body "Weather fetch failed" |} /\
  getitem_str
    (web_body (fst (get_weather (runtime_with []) (outage_at 5000) 1 initial_store)))
    "detail" = Ok (JStr "Weather fetch failed").
Proof.
  split; [|split].
  - destruct (proj1 (proj1 (fetch_failure_serves_stale_or_500 (runtime_with [])
                (outage_at 5000) 1 (event_with_day (JStr "1")) 1 cached_store
                ltac:(lia) ltac:(vm_compute; reflexivity)
                ltac:(vm_compute; reflexivity))
              RequestException eq_refl) eq_refl example_payload_well_formed)
      as (ws & calls & api & _ & _ & Hstatus).
    exact Hstatus.
  - apply (proj2 (proj2 (fetch_failure_serves_stale_or_500 (runtime_with [])
                (outage_at 5000) 1 (event_with_day (JStr "1")) 1 initial_store
                ltac:(lia) ltac:(vm_compute; reflexivity)
                ltac:(vm_compute; reflexivity))
              RequestException eq_refl) eq_refl).
  - apply (proj2 (proj1 (fetch_failure_serves_stale_or_500 (runtime_with [])
                (outage_at 5000) 1 (event_with_day (JStr "1")) 1 initial_store
                ltac:(lia) ltac:(vm_compute; reflexivity)
                ltac:(vm_compute; reflexivity))
              RequestException eq_refl) eq_refl).
Qed.

(** C4.  A payload is cached, its age is past the window, and the
    forecast provider answers the download with status 400 and a JSON
    body (its way of rejecting a request): the fetch has failed, and
    [api/index.py], whose [raise_for_status] raises, answers 200 from the
    stale payload and keeps it.  [main.py] has no [raise_for_status]: it
    takes the error body for the payload, stores it in place of the good
    one and answers 500.  The claim asks for 200 from the stale
    payload. *)
Theorem error_reply_replaces_a_good_payload :
  is_None (data_cache cached_store) = false /\
  refetch_due (forecast_world 5000 (Some error_reply)) cached_store = true /\
  raise_for_status error_reply = Raise HTTPError /\
  lambda_status
    (fst (lambda_handler (runtime_with []) (forecast_world 5000 (Some error_reply))
            (dict []) cached_store)) = Some 500 /\
  data_cache
    (snd (lambda_handler (runtime_with []) (forecast_world 5000 (Some error_reply))
            (dict []) cached_store))
    = dict [("error", JBool true); ("reason", JStr "Invalid model")] /\
  fst (get_weather (runtime_with []) (forecast_world 5000 (Some error_reply)) 0
         cached_store)
    = Ok (to_dict (init (JFloat 2.1) JNull JNull JNull JNull JNull JNull JNull JNull
                     JNull JNull None)) /\
  data_cache
    (snd (get_weather (runtime_with []) (forecast_world 5000 (Some error_reply)) 0
            cached_store))
    = example_payload.
Proof.
  repeat split; vm_compute; reflexivity.
Qed.

(** ** Warnings never decide the status *)

Lemma web_response_status (rt : Runtime) (payload : json) (day : Z)
    (ws : list json) :
  web_status (web_response rt payload day ws) = mapping_status payload day.
Proof.
  unfold web_response, weather_response_mapper, mapping_status.
  destruct (from_api payload day) as [api|e]; simpl; [reflexivity|].
  destruct (is_IndexError e); reflexivity.
Qed.

Lemma lambda_reply_status (rt : Runtime) (payload : json) (day : Z)
    (ws : list json) :
  statusCode (lambda_reply rt payload day ws) = mapping_status payload day.
Proof.
  unfold lambda_reply, weather_response_mapper, mapping_status.
  destruct (from_api payload day) as [api|e]; simpl; [reflexivity|].
  destruct (is_IndexError e); reflexivity.
Qed.

Lemma get_weather_status (rt : Runtime) (w : World) (day : Z) (s : store) :
  web_status (fst (get_weather rt w day s)) =
    status_of_request (web_fetch w) (refetch_due w s) s day.
Proof.
  destruct (get_weather_run rt w day) as (ws & calls & _ & _ & Hrun).
  rewrite Hrun. unfold status_of_request.
  destruct (refetch_due w s); simpl; [|apply web_response_status].
  destruct (web_fetch w); simpl; [apply web_response_status|].
  destruct (is_None (data_cache s)); simpl; [reflexivity|].
  apply web_response_status.
Qed.

Lemma handle_day_status (rt : Runtime) (w : World) (day_index : Z) (s : store) :
  lambda_status (fst (handle_day rt w day_index s)) =
    Some (status_of_request (lambda_fetch w) (refetch_due w s) s day_index).
Proof.
  destruct (handle_day_run rt w day_index) as (ws & calls & _ & _ & Hrun).
  rewrite Hrun. unfold status_of_request.
  destruct (refetch_due w s); simpl; [|f_equal; apply lambda_reply_status].
  destruct (lambda_fetch w); simpl; [f_equal; apply lambda_reply_status|].
  destruct (is_None (data_cache s)); simpl; [reflexivity|].
  f_equal; apply lambda_reply_status.
Qed.

(** C7.  In both shells the [try] around the warnings path always
    completes with a list, and with the empty list whenever the
    fetch-and-parse sequence raised, whatever the exception; the block
    that computes [warnings] therefore never raises into the handler; and
    the status of the reply is the same in any world that differs only in
    the credential, the warnings provider, the XML and timestamp parsers
    and the current instant. *)
Theorem warnings_failures_never_surface
    (rt : Runtime) (w : World) (api_key : string) (day : Z) (s : store) :
  (exists ws s', try_warnings rt w api_key s = (Ok ws, s')) /\
  (forall e s1, warnings_sequence rt w api_key s = (Raise e, s1) ->
     try_warnings rt w api_key s = (Ok [], s1)) /\
  (exists ws s', web_warnings rt w s = (Ok ws, s')) /\
  (exists ws s', lambda_warnings rt w s = (Ok ws, s')) /\
  (forall (rt' : Runtime) (w' : World),
     time_time w' = time_time w ->
     forecast_reply w' = forecast_reply w ->
     web_status (fst (get_weather rt' w' day s)) =
       web_status (fst (get_weather rt w day s)) /\
     lambda_status (fst (handle_day rt' w' day s)) =
       lambda_status (fst (handle_day rt w day s))).
Proof.
  split; [|split; [|split; [|split]]].
  - destruct (try_warnings_completes rt w api_key) as (ws & calls & _ & Hrun & _).
    exists ws. eexists. apply Hrun.
  - intros e s1 Hraise.
    change (try_warnings rt w api_key)
      with (try_except (warnings_sequence rt w api_key) (fun _ => mret [])).
    unfold try_except. rewrite Hraise. reflexivity.
  - destruct (web_warnings_completes rt w) as (ws & calls & _ & Hrun).
    exists ws. eexists. apply Hrun.
  - destruct (lambda_warnings_completes rt w) as (ws & calls & _ & Hrun).
    exists ws. eexists. apply Hrun.
  - intros rt' w' Htime Hreply.
    rewrite !get_weather_status, !handle_day_status.
    unfold refetch_due, web_fetch, lambda_fetch. rewrite Htime, Hreply.
    split; reflexivity.
Qed.

(** The failures the specification lists, each on a world that produces
    it, and a world on which the path succeeds. *)
Lemma warnings_failure_modes :
  let run := fun w => fst (warnings_sequence knmi_runtime w "secret" initial_store) in
  let got := fun w => fst (web_warnings knmi_runtime w initial_store) in
  (* credential rejected: the answer has no "files" *)
  (run (knmi_world (Some forbidden) None) = Raise KeyError /\
   got (knmi_world (Some forbidden) None) = Ok []) /\
  (* network error on the listing, and on the download *)
  (run (knmi_world None None) = Raise RequestException /\
   got (knmi_world None None) = Ok []) /\
  (run (knmi_world (Some example_listing) None) = Raise RequestException /\
   got (knmi_world (Some example_listing) None) = Ok []) /\
  (* an empty listing *)
  (run (knmi_world (Some (ok_reply (dict [("files", JArr [])]))) None)
     = Raise IndexError /\
   got (knmi_world (Some (ok_reply (dict [("files", JArr [])]))) None) = Ok []) /\
  (* malformed XML *)
  (run (knmi_world (Some example_listing) (Some "<data><warning>"))
     = Raise ParseError /\
   got (knmi_world (Some example_listing) (Some "<data><warning>")) = Ok []) /\
  (* a warning without startTime *)
  (run (knmi_world (Some example_listing) (Some headless_xml)) = Raise TypeError /\
   got (knmi_world (Some example_listing) (Some headless_xml)) = Ok []) /\
  (* and a warning currently in effect *)
  got (knmi_world (Some example_listing) (Some current_xml))
    = Ok [dict [("color", JStr "orange"); ("type", JStr "SNEEUW")]].
Proof.
  repeat split; vm_compute; reflexivity.
Qed.

Lemma warnings_failures_never_surface_witness :
  try_warnings (runtime_with []) (listing_world with_key None) "secret"
    initial_store
    = (Ok [], Store JNull 0 [GetFiles "secret"]) /\
  web_status (fst (get_weather (runtime_with []) (listing_world with_key None)
                     0 initial_store)) = 200.
Proof.
  pose proof (warnings_failures_never_surface (runtime_with [])
                (listing_world ∅ None) "secret" 0 initial_store) as H.
  split.
  - apply (proj1 (proj2 (warnings_failures_never_surface (runtime_with [])
                (listing_world with_key None) "secret" 0 initial_store))
             RequestException).
    reflexivity.
  - rewrite (proj1 (proj2 (proj2 (proj2 (proj2 H))) (runtime_with [])
                      (listing_world with_key None) eq_refl eq_refl)).
    vm_compute. reflexivity.
Defined.

(** ** Choosing the file to download *)

Lemma string_compare_le_trans (a b c : string) :
  String.compare a b <> Gt -> String.compare b c <> Gt ->
  String.compare a c <> Gt.
Proof.
  revert b c. induction a as [|x a IH]; intros [|y b] [|z c]; simpl;
    try congruence.
  unfold Ascii.compare.
  destruct (N.compare_spec (N_of_ascii x) (N_of_ascii y)) as [Hxy|Hxy|Hxy];
    destruct (N.compare_spec (N_of_ascii y) (N_of_ascii z)) as [Hyz|Hyz|Hyz];
    destruct (N.compare_spec (N_of_ascii x) (N_of_ascii z)) as [Hxz|Hxz|Hxz];
    try congruence; try lia.
  apply IH.
Qed.

Lemma string_leb_trans (a b c : string) :
  String.leb a b = true -> String.leb b c = true -> String.leb a c = true.
Proof.
  unfold String.leb. intros Hab Hbc.
  pose proof (string_compare_le_trans a b c) as H.
  destruct (String.compare a b); destruct (String.compare b c);
    destruct (String.compare a c); try reflexivity; try discriminate;
    exfalso; apply H; congruence.
Qed.

Lemma string_ltb_false_leb (a b : string) :
  String.ltb a b = false -> String.leb b a = true.
Proof.
  unfold String.ltb, String.leb. rewrite (String.compare_antisym a b).
  destruct (String.compare b a); simpl; congruence.
Qed.

Lemma string_ltb_true_leb (a b : string) :
  String.ltb a b = true -> String.leb a b = true.
Proof.
  unfold String.ltb, String.leb. destruct (String.compare a b); congruence.
Qed.

Lemma string_leb_refl (a : string) : String.leb a a = true.
Proof.
  unfold String.leb. pose proof (String.compare_antisym a a) as H.
  destruct (String.compare a a); simpl in H; congruence.
Qed.

Lemma insert_desc_str (kx : json * json) (l : list (json * json)) :
  str_keyed kx -> Forall str_keyed l ->
  exists l',
    insert_desc kx l = Ok l' /\
    (forall y, In y l' <-> y = kx \/ In y l) /\
    (forall h t, l' = h :: t ->
       h = kx /\ (forall h0 t0, l = h0 :: t0 ->
                    exists c c0, fst kx = JStr c /\ fst h0 = JStr c0 /\
                                 String.leb c0 c = true)
       \/ (exists t0 c c0, l = h :: t0 /\ fst kx = JStr c /\ fst h = JStr c0 /\
                            String.leb c c0 = true)).
Proof.
  intros [c Hc] Hl. induction l as [|ky r IH].
  - exists [kx]. split; [reflexivity|]. split.
    + intros y. simpl. intuition congruence.
    + intros h t Heq. injection Heq as <- <-. left. split; [reflexivity|].
      intros h0 t0 Hnil. discriminate.
  - inversion Hl as [|? ? [c0 Hc0] Hr]; subst.
    simpl. rewrite Hc, Hc0. simpl.
    destruct (String.ltb c c0) eqn:Hlt.
    + destruct (IH Hr) as (r' & Hins & Hin & _).
      rewrite Hins. simpl. exists (ky :: r'). split; [reflexivity|]. split.
      * intros y. simpl. rewrite Hin. intuition congruence.
      * intros h t Heq. injection Heq as <- <-. right.
        exists r, c, c0. repeat split; try assumption.
        apply string_ltb_true_leb. exact Hlt.
    + exists (kx :: ky :: r). split; [reflexivity|]. split.
      * intros y. simpl. intuition congruence.
      * intros h t Heq. injection Heq as <- <-. left. split; [reflexivity|].
        intros h0 t0 Heq. injection Heq as <- <-.
        exists c, c0. repeat split; try assumption.
        apply string_ltb_false_leb. exact Hlt.
Qed.

Lemma sort_desc_str (l : list (json * json)) :
  Forall str_keyed l ->
  exists s,
    sort_desc l = Ok s /\
    (forall y, In y s <-> In y l) /\
    Forall str_keyed s /\
    (forall h t, s = h :: t -> key_max h l).
Proof.
  induction l as [|kx r IH]; intros Hl.
  - exists []. split; [reflexivity|]. split; [tauto|]. split; [constructor|].
    discriminate.
  - inversion Hl as [|? ? Hkx Hr]; subst.
    destruct (IH Hr) as (s & Hs & Hin & Hstr & Hmax).
    destruct (insert_desc_str kx s Hkx Hstr) as (s' & Hins & Hin' & Hhead).
    exists s'. simpl. rewrite Hs. simpl. split; [exact Hins|]. split.
    + intros y. rewrite Hin'. simpl. rewrite Hin. intuition congruence.
    + split.
      * apply Forall_forall. intros y Hy. apply list_elem_of_In in Hy.
        apply Hin' in Hy. destruct Hy as [->|Hy]; [exact Hkx|].
        rewrite Forall_forall in Hstr. apply Hstr. apply list_elem_of_In. exact Hy.
      * intros h t Heq y c c' Hy Hyc Hhc.
        destruct (Hhead h t Heq) as [[-> Hfirst]|(t0 & ck & ch & Hs0 & Hck & Hch & Hle)].
        -- destruct Hy as [<-|Hy].
           ++ assert (c' = c) as -> by congruence. apply string_leb_refl.
           ++ destruct s as [|h0 t0].
              ** apply Hin in Hy. contradiction.
              ** destruct (Hfirst h0 t0 eq_refl) as (ck & c0 & Hck & Hc0 & Hle).
                 assert (ck = c) as -> by congruence.
                 apply (string_leb_trans c' c0 c); [|exact Hle].
                 apply (Hmax h0 t0 eq_refl y c0 c' Hy Hyc Hc0).
        -- assert (ch = c) as -> by congruence.
           destruct Hy as [<-|Hy].
           ++ assert (ck = c') as -> by congruence. exact Hle.
           ++ apply (Hmax h t0 Hs0 y c c' Hy Hyc Hhc).
Qed.

Lemma keyed_created (items : list json) :
  (forall f, In f items -> exists c, getitem_str f "created" = Ok (JStr c)) ->
  exists ks,
    keyed (fun f => getitem_str f "created") items = Ok ks /\
    map snd ks = items /\
    Forall str_keyed ks /\
    (forall y, In y ks -> getitem_str (snd y) "created" = Ok (fst y)).
Proof.
  induction items as [|f r IH]; intros Hall.
  - exists []. repeat split; [constructor|]. intros y [].
  - destruct (Hall f (or_introl eq_refl)) as [c Hc].
    destruct IH as (ks & Hks & Hmap & Hstr & Hkey).
    { intros g Hg. apply Hall. right. exact Hg. }
    exists ((JStr c, f) :: ks). simpl. rewrite Hc, Hks. simpl.
    split; [reflexivity|]. split; [rewrite Hmap; reflexivity|]. split.
    + constructor; [exists c; reflexivity|exact Hstr].
    + intros y [<-|Hy]; [exact Hc|apply Hkey; exact Hy].
Qed.

(** [sorted(files, key=created, reverse=True)[0]] on a non-empty list of
    files with string timestamps: an element of the list whose timestamp
    no other timestamp exceeds. *)
Lemma latest_is_max (items : list json) :
  items <> [] ->
  (forall f, In f items -> exists c, getitem_str f "created" = Ok (JStr c)) ->
  exists ordered latest c,
    sorted_reverse (fun f => getitem_str f "created") items = Ok ordered /\
    list_getitem ordered 0 = Ok latest /\
    In latest items /\
    getitem_str latest "created" = Ok (JStr c) /\
    forall f c', In f items -> getitem_str f "created" = Ok (JStr c') ->
                 String.leb c' c = true.
Proof.
  intros Hne Hall.
  destruct (keyed_created items Hall) as (ks & Hks & Hmap & Hstr & Hkey).
  destruct (sort_desc_str ks Hstr) as (s & Hs & Hin & Hstr' & Hmax).
  unfold sorted_reverse. rewrite Hks. simpl. rewrite Hs. simpl.
  subst items.
  destruct s as [|h t].
  { destruct ks as [|k ks']; [simpl in Hne; congruence|].
    exfalso. apply (proj2 (Hin k)). left. reflexivity. }
  assert (Hh : In h ks) by (apply Hin; left; reflexivity).
  assert (Hc : str_keyed h).
  { rewrite Forall_forall in Hstr'. apply Hstr'. apply list_elem_of_In.
    left. reflexivity. }
  destruct Hc as [c Hc].
  exists (map snd (h :: t)), (snd h), c.
  split; [reflexivity|]. split; [reflexivity|]. split.
  { apply in_map. exact Hh. }
  split.
  { rewrite (Hkey h Hh), Hc. reflexivity. }
  intros f c' Hf Hfc.
  apply in_map_iff in Hf. destruct Hf as (y & <- & Hy).
  apply (Hmax h t eq_refl y c c' Hy); [|exact Hc].
  pose proof (Hkey y Hy) as Hyk. congruence.
Qed.

(** ** The order on the provider's timestamps is the order in time *)

(** The day count starts at the epoch of [time.time()]. *)
Lemma days_from_civil_epoch :
  days_from_civil 1970 1 1 = 0 /\ days_from_civil 2024 1 1 = 19723.
Proof. split; vm_compute; reflexivity. Qed.

Lemma ascii_compare_refl (c : ascii) : Ascii.compare c c = Eq.
Proof. unfold Ascii.compare. apply N.compare_refl. Qed.

Lemma digit_char_compare (x y : Z) :
  is_digit x -> is_digit y ->
  Ascii.compare (digit_char x) (digit_char y) = (x ?= y).
Proof.
  unfold is_digit, digit_char, Ascii.compare. intros Hx Hy.
  rewrite !N_ascii_embedding by lia.
  rewrite Z2N.inj_compare by lia.
  rewrite Z.add_compare_mono_l. reflexivity.
Qed.

Lemma compare_render (pattern : list (option ascii)) (a b : list Z) :
  Forall is_digit a -> Forall is_digit b ->
  List.length a = digits_in pattern -> List.length b = digits_in pattern ->
  String.compare (render pattern a) (render pattern b) = lex_compare a b.
Proof.
  revert a b. induction pattern as [|[c|] p IH]; intros a b Ha Hb Hla Hlb.
  - destruct a; [|discriminate]. destruct b; [|discriminate]. reflexivity.
  - simpl. rewrite ascii_compare_refl. apply IH; assumption.
  - destruct a as [|x a]; [discriminate|]. destruct b as [|y b]; [discriminate|].
    inversion Ha; subst. inversion Hb; subst.
    simpl. rewrite digit_char_compare by assumption.
    destruct (x ?= y); try reflexivity.
    apply IH; try assumption.
    + simpl in Hla. unfold digits_in in *. simpl in Hla. lia.
    + simpl in Hlb. unfold digits_in in *. simpl in Hlb. lia.
Qed.

Lemma digits_number_bounds (ds : list Z) (acc : Z) :
  Forall is_digit ds ->
  acc * 10 ^ Z.of_nat (List.length ds) <= digits_number acc ds
  < (acc + 1) * 10 ^ Z.of_nat (List.length ds).
Proof.
  revert acc. induction ds as [|d r IH]; intros acc Hds.
  - simpl. lia.
  - inversion Hds as [|? ? Hd Hr]; subst.
    specialize (IH (10 * acc + d) Hr).
    cbn [digits_number List.length].
    rewrite Nat2Z.inj_succ, Z.pow_succ_r by lia.
    unfold is_digit in Hd.
    assert (0 < 10 ^ Z.of_nat (List.length r)) by (apply Z.pow_pos_nonneg; lia).
    nia.
Qed.

Lemma lex_compare_number (a b : list Z) (acc acc' : Z) :
  Forall is_digit a -> Forall is_digit b -> List.length a = List.length b ->
  (digits_number acc a ?= digits_number acc' b) =
    match acc ?= acc' with
    | Eq => lex_compare a b
    | c => c
    end.
Proof.
  revert b acc acc'. induction a as [|x a IH]; intros [|y b] acc acc' Ha Hb Hlen;
    try discriminate.
  - simpl. destruct (acc ?= acc'); reflexivity.
  - inversion Ha as [|? ? Hx Ha']; subst. inversion Hb as [|? ? Hy Hb']; subst.
    injection Hlen as Hlen.
    cbn [digits_number lex_compare].
    rewrite (IH b (10 * acc + x) (10 * acc' + y) Ha' Hb' Hlen).
    unfold is_digit in *.
    destruct (Z.compare_spec acc acc') as [->|Hlt|Hgt].
    + rewrite Z.add_compare_mono_l. destruct (x ?= y); reflexivity.
    + assert ((10 * acc + x ?= 10 * acc' + y) = Lt) as -> by (apply Z.compare_lt_iff; lia).
      reflexivity.
    + assert ((10 * acc + x ?= 10 * acc' + y) = Gt) as -> by (apply Z.compare_gt_iff; lia).
      reflexivity.
Qed.

Lemma valid_civil_day (c : civil) : valid_civil c -> 1 <= c_day c <= 31.
Proof.
  intros (_ & _ & Hd & _). unfold days_in_month in Hd.
  destruct (c_month c =? 2); [destruct (is_leap (c_year c)); lia|].
  destruct ((c_month c =? 4) || (c_month c =? 6) || (c_month c =? 9)
            || (c_month c =? 11)); lia.
Qed.

Lemma civil_digits_are_digits (c : civil) :
  valid_civil c -> Forall is_digit (civil_digits c).
Proof.
  intros Hc. pose proof (valid_civil_day c Hc) as Hd'.
  destruct Hc as (Hy & Hmo & Hd & Hh & Hmi & Hs).
  unfold civil_digits, two_digits, is_digit. simpl.
  repeat constructor; Z.to_euclidean_division_equations; lia.
Qed.

Lemma civil_digits_number (c : civil) :
  valid_civil c -> digits_number 0 (civil_digits c) = civil_key c.
Proof.
  intros (Hy & Hmo & Hd & Hh & Hmi & Hs).
  unfold civil_digits, two_digits, civil_key. simpl.
  Z.to_euclidean_division_equations; lia.
Qed.

Lemma utc_timestamp_compare (a b : civil) :
  valid_civil a -> valid_civil b ->
  String.compare (utc_timestamp a) (utc_timestamp b) = (civil_key a ?= civil_key b).
Proof.
  intros Ha Hb. unfold utc_timestamp.
  rewrite compare_render;
    try (apply civil_digits_are_digits; assumption); try reflexivity.
  rewrite <- (civil_digits_number a Ha), <- (civil_digits_number b Hb).
  rewrite (lex_compare_number (civil_digits a) (civil_digits b) 0 0);
    try (apply civil_digits_are_digits; assumption); reflexivity.
Qed.

Lemma days_from_civil_march (y m d : Z) :
  days_from_civil y m d =
    march_first (if m <=? 2 then y - 1 else y)
    + (153 * ((m + 9) mod 12) + 2) / 5 + d - 1 - 719468.
Proof.
  unfold days_from_civil, march_first.
  destruct (m <=? 2); Z.to_euclidean_division_equations; lia.
Qed.

Lemma march_first_step (y : Z) :
  march_first (y + 1) - march_first y = if is_leap (y + 1) then 366 else 365.
Proof.
  unfold march_first, is_leap.
  destruct ((y + 1) mod 4 =? 0) eqn:H4; destruct ((y + 1) mod 100 =? 0) eqn:H100;
    destruct ((y + 1) mod 400 =? 0) eqn:H400; simpl;
    rewrite ?Z.eqb_eq, ?Z.eqb_neq in *;
    Z.to_euclidean_division_equations; lia.
Qed.

Lemma march_first_mono (y y' : Z) :
  y < y' -> march_first y + 365 * (y' - y) <= march_first y'.
Proof.
  unfold march_first. intros H. Z.to_euclidean_division_equations. lia.
Qed.

Lemma march_first_year (y : Z) :
  march_first y = march_first (y - 1) + 365 + (if is_leap y then 1 else 0).
Proof.
  pose proof (march_first_step (y - 1)) as H.
  replace (y - 1 + 1) with y in H by lia.
  destruct (is_leap y); lia.
Qed.

Lemma days_from_civil_in_year (y m d : Z) :
  1 <= m <= 12 ->
  days_from_civil y m d =
    march_first (y - 1) + 306 + days_before_month y m + d - 1 - 719468.
Proof.
  intros Hm. rewrite days_from_civil_march. unfold days_before_month.
  destruct (m =? 1) eqn:H1.
  { apply Z.eqb_eq in H1. subst. cbn [Z.leb Z.compare Pos.compare Pos.compare_cont].
    Z.to_euclidean_division_equations. lia. }
  destruct (m =? 2) eqn:H2.
  { apply Z.eqb_eq in H2. subst. cbn [Z.leb Z.compare Pos.compare Pos.compare_cont].
    Z.to_euclidean_division_equations. lia. }
  apply Z.eqb_neq in H1, H2.
  assert ((m <=? 2) = false) as -> by (apply Z.leb_gt; lia).
  rewrite (march_first_year y).
  assert ((m + 9) mod 12 = m - 3) as -> by (Z.to_euclidean_division_equations; lia).
  lia.
Qed.

Ltac case_eqb :=
  repeat match goal with
         | |- context [?a =? ?b] => destruct (Z.eqb_spec a b); try lia
         | H : context [?a =? ?b] |- _ => destruct (Z.eqb_spec a b); try lia
         end.

Lemma month_cases (m : Z) :
  1 <= m <= 12 ->
  m = 1 \/ m = 2 \/ m = 3 \/ m = 4 \/ m = 5 \/ m = 6 \/
  m = 7 \/ m = 8 \/ m = 9 \/ m = 10 \/ m = 11 \/ m = 12.
Proof. lia. Qed.

(** Position of a valid day within its year, and the first of the next
    month. *)
Lemma days_before_month_bounds (y m d : Z) :
  1 <= m <= 12 -> 1 <= d <= days_in_month y m ->
  0 <= days_before_month y m + d - 1 /\
  days_before_month y m + d <=
    (if m =? 12 then 365 + (if is_leap y then 1 else 0)
     else days_before_month y (m + 1)).
Proof.
  intros Hm Hd. unfold days_in_month in Hd. unfold days_before_month.
  destruct (month_cases m Hm) as [->|[->|[->|[->|[->|[->|[->|[->|[->|[->|[->| ->]]]]]]]]]]];
    destruct (is_leap y); case_eqb; simpl in Hd;
    Z.to_euclidean_division_equations; lia.
Qed.

Lemma days_before_month_mono (y m m' : Z) :
  1 <= m -> m <= m' -> m' <= 12 ->
  days_before_month y m <= days_before_month y m'.
Proof.
  intros H1 Hle H12. unfold days_before_month.
  destruct (month_cases m ltac:(lia)) as [->|[->|[->|[->|[->|[->|[->|[->|[->|[->|[->| ->]]]]]]]]]]];
    destruct (month_cases m' ltac:(lia)) as [->|[->|[->|[->|[->|[->|[->|[->|[->|[->|[->| ->]]]]]]]]]]];
    try lia; destruct (is_leap y); case_eqb;
    Z.to_euclidean_division_equations; lia.
Qed.

Lemma days_before_december (y : Z) :
  days_before_month y 12 + 31 = 365 + (if is_leap y then 1 else 0).
Proof.
  unfold days_before_month. case_eqb.
  destruct (is_leap y); Z.to_euclidean_division_equations; lia.
Qed.

Lemma days_from_civil_lex (y1 m1 d1 y2 m2 d2 : Z) :
  1 <= m1 <= 12 -> 1 <= d1 <= days_in_month y1 m1 ->
  1 <= m2 <= 12 -> 1 <= d2 <= days_in_month y2 m2 ->
  y1 < y2 \/ (y1 = y2 /\ (m1 < m2 \/ (m1 = m2 /\ d1 < d2))) ->
  days_from_civil y1 m1 d1 < days_from_civil y2 m2 d2.
Proof.
  intros Hm1 Hd1 Hm2 Hd2 Hlex.
  rewrite (days_from_civil_in_year y1 m1 d1 Hm1),
          (days_from_civil_in_year y2 m2 d2 Hm2).
  pose proof (days_before_month_bounds y1 m1 d1 Hm1 Hd1) as [Hlo1 Hhi1].
  pose proof (days_before_month_bounds y2 m2 d2 Hm2 Hd2) as [Hlo2 Hhi2].
  destruct Hlex as [Hy|[-> [Hm| [-> Hd]]]].
  - assert (Hend : days_before_month y1 m1 + d1
                   <= 365 + (if is_leap y1 then 1 else 0)).
    { destruct (m1 =? 12) eqn:H12; [exact Hhi1|].
      apply Z.eqb_neq in H12.
      pose proof (days_before_december y1) as Hdec.
      pose proof (days_before_month_mono y1 (m1 + 1) 12 ltac:(lia) ltac:(lia)
                    ltac:(lia)).
      lia. }
    pose proof (march_first_year y1) as Hy1.
    assert (march_first y1 <= march_first (y2 - 1)).
    { destruct (Z.eq_dec y1 (y2 - 1)) as [->|Hne]; [lia|].
      pose proof (march_first_mono y1 (y2 - 1) ltac:(lia)). lia. }
    lia.
  - assert ((m1 =? 12) = false) as H12 by (apply Z.eqb_neq; lia).
    rewrite H12 in Hhi1.
    pose proof (days_before_month_mono y2 (m1 + 1) m2 ltac:(lia) ltac:(lia)
                  ltac:(lia)).
    lia.
  - lia.
Qed.

(** On valid civil times the order of the fourteen digits is the order
    of the instants. *)
Lemma civil_key_lt_instant (a b : civil) :
  valid_civil a -> valid_civil b ->
  civil_key a < civil_key b -> civil_instant a < civil_instant b.
Proof.
  intros Ha Hb Hkey.
  pose proof (valid_civil_day a Ha) as Hda'.
  pose proof (valid_civil_day b Hb) as Hdb'.
  destruct Ha as (Hya & Hma & Hda & Hha & Hmia & Hsa).
  destruct Hb as (Hyb & Hmb & Hdb & Hhb & Hmib & Hsb).
  unfold civil_key in Hkey. unfold civil_instant.
  assert (Hcases :
    (c_year a < c_year b \/
     (c_year a = c_year b /\
      (c_month a < c_month b \/ (c_month a = c_month b /\ c_day a < c_day b))))
    \/ (c_year a = c_year b /\ c_month a = c_month b /\ c_day a = c_day b))
    by lia.
  destruct Hcases as [Hlex|(Hy & Hm & Hd)].
  - pose proof (days_from_civil_lex _ _ _ _ _ _ Hma Hda Hmb Hdb Hlex). lia.
  - rewrite Hy, Hm, Hd in *. lia.
Qed.

(** Between timestamps of the provider's format, the order [sorted]
    applies to the texts is the order of the instants they denote. *)
Lemma created_order_is_chronological (a b : civil) :
  valid_civil a -> valid_civil b ->
  String.leb (utc_timestamp a) (utc_timestamp b) = true <->
  civil_instant a <= civil_instant b.
Proof.
  intros Ha Hb. unfold String.leb. rewrite (utc_timestamp_compare a b Ha Hb).
  pose proof (civil_key_lt_instant a b Ha Hb) as Hab.
  pose proof (civil_key_lt_instant b a Hb Ha) as Hba.
  destruct (Z.compare_spec (civil_key a) (civil_key b)) as [Heq|Hlt|Hgt].
  - split; [intros _|reflexivity].
    assert (a = b) as ->; [|lia].
    pose proof (valid_civil_day a Ha) as Hda'.
    pose proof (valid_civil_day b Hb) as Hdb'.
    destruct Ha as (Hya & Hma & Hda & Hha & Hmia & Hsa).
    destruct Hb as (Hyb & Hmb & Hdb & Hhb & Hmib & Hsb).
    destruct a, b; unfold civil_key in Heq; simpl in *.
    f_equal; lia.
  - split; [intros _; specialize (Hab Hlt); lia|reflexivity].
  - split; [discriminate|]. intros Hle. specialize (Hba Hgt). lia.
Qed.

Lemma digit_of_digit_char (d : Z) : is_digit d -> digit_of (digit_char d) = Some d.
Proof.
  unfold is_digit, digit_of, digit_char. intros Hd.
  rewrite N_ascii_embedding by lia. rewrite Z2N.id by lia.
  assert ((48 <=? 48 + d) = true) as -> by (apply Z.leb_le; lia).
  assert ((48 + d <=? 57) = true) as -> by (apply Z.leb_le; lia).
  simpl. f_equal. lia.
Qed.

Lemma digit_char_not_underscore (d : Z) :
  is_digit d -> Ascii.eqb (digit_char d) "_"%char = false.
Proof.
  unfold is_digit. intros Hd. apply Ascii.eqb_neq. intros Heq.
  apply (f_equal N_of_ascii) in Heq. unfold digit_char in Heq.
  rewrite N_ascii_embedding in Heq by lia. simpl in Heq. lia.
Qed.

Lemma digits_value_digits (ds : list Z) (acc : Z) (after_digit : bool) :
  Forall is_digit ds -> ds <> [] ->
  digits_value (map digit_char ds) acc after_digit = Some (digits_number acc ds).
Proof.
  revert acc after_digit. induction ds as [|d r IH]; intros acc after Hds Hne;
    [congruence|].
  inversion Hds as [|? ? Hd Hr]; subst.
  cbn [map digits_value].
  rewrite (digit_char_not_underscore d Hd), (digit_of_digit_char d Hd).
  cbn [mbind option_bind].
  destruct r as [|d' r'].
  - reflexivity.
  - apply IH; [exact Hr|discriminate].
Qed.

Lemma number_digits (n : nat) (ds : list Z) :
  List.length ds = n -> ds <> [] -> Forall is_digit ds ->
  number n (map digit_char ds) = Some (digits_number 0 ds).
Proof.
  intros Hlen Hne Hds. unfold number.
  rewrite length_map, Hlen. rewrite bool_decide_eq_true_2 by reflexivity.
  apply digits_value_digits; assumption.
Qed.

Lemma four_digits_number (v : Z) :
  0 <= v <= 9999 ->
  digits_number 0 [v / 1000; v / 100 mod 10; v / 10 mod 10; v mod 10] = v.
Proof. intros Hv. simpl. Z.to_euclidean_division_equations. lia. Qed.

Lemma two_digits_number (v : Z) :
  0 <= v <= 99 -> digits_number 0 [v / 10; v mod 10] = v.
Proof. intros Hv. simpl. Z.to_euclidean_division_equations. lia. Qed.

Ltac read_field n ds :=
  let chars := eval cbn [map] in (map digit_char ds) in
  change chars with (map digit_char ds);
  rewrite (number_digits n ds)
    by first [reflexivity | discriminate
             | repeat first [apply Forall_nil_2 | apply Forall_cons_2; [assumption|]]].

(** The reader of the warnings parser assigns to a timestamp of the
    provider's format the instant of its civil time. *)
Lemma iso_datetime_utc_timestamp (c : civil) :
  valid_civil c ->
  iso_datetime (utc_timestamp c) =
    Some (Datetime (civil_instant c * usec_per_second) (Some 0)).
Proof.
  intros Hc.
  pose proof (civil_digits_are_digits c Hc) as Hdig.
  pose proof (valid_civil_day c Hc) as Hday.
  destruct Hc as (Hy & Hmo & Hd & Hh & Hmi & Hs).
  unfold civil_digits, two_digits in Hdig. cbn [app] in Hdig.
  repeat match goal with
         | H : Forall is_digit (_ :: _) |- _ =>
             let Hx := fresh "Hx" in
             inversion H as [|? ? Hx ?]; subst; clear H
         end.
  unfold utc_timestamp, utc_pattern, civil_digits, two_digits.
  cbn [app render].
  unfold iso_datetime. cbn [list_ascii_of_string take drop firstn skipn].
  read_field 4%nat [c_year c / 1000; c_year c / 100 mod 10;
                    c_year c / 10 mod 10; c_year c mod 10].
  read_field 2%nat [c_month c / 10; c_month c mod 10].
  read_field 2%nat [c_day c / 10; c_day c mod 10].
  read_field 2%nat [c_hour c / 10; c_hour c mod 10].
  read_field 2%nat [c_minute c / 10; c_minute c mod 10].
  read_field 2%nat [c_second c / 10; c_second c mod 10].
  rewrite four_digits_number by lia.
  rewrite !two_digits_number by lia.
  cbn [mbind option_bind].
  assert (fields_in_range (c_year c) (c_month c) (c_day c) (c_hour c)
            (c_minute c) (c_second c) = true) as ->.
  { unfold fields_in_range. rewrite !andb_true_iff, !Z.leb_le. lia. }
  cbn.
  assert (number 2 ["0"%char; "0"%char] = Some 0) as -> by (vm_compute; reflexivity).
  cbn. unfold civil_instant, usec_per_second. f_equal. f_equal. lia.
Qed.

(** The listing of the witness is in the provider's format. *)
Lemma utc_timestamp_example :
  utc_timestamp (Civil 2024 1 1 12 0 0) = "2024-01-01T12:00:00+00:00".
Proof. vm_compute. reflexivity. Qed.

Section LatestFile.

Context (w : World).

(** [fetch_knmi_warnings] once the listing has been read and ordered:
    one listing call, one download, of the URL of [latest]. *)
Lemma fetch_knmi_warnings_run
    (api_key : string) (r : http_response) (listing files : json)
    (items ordered : list json) (latest url : json) (s : store) :
  files_reply w api_key = Some r ->
  response_json r = Ok listing ->
  getitem_str listing "files" = Ok files ->
  py_iter files = Ok items ->
  sorted_reverse (fun f => getitem_str f "created") items = Ok ordered ->
  list_getitem ordered 0 = Ok latest ->
  getitem_str latest "downloadUrl" = Ok url ->
  fetch_knmi_warnings w api_key s =
    (match download_reply w url api_key with
     | Some xml => Ok (text xml)
     | None => Raise RequestException
     end,
     Store (data_cache s) (last_loaded s)
           (trace s ++ [GetFiles api_key; GetDownload url api_key])).
Proof.
  intros Hr Hjson Hfiles Hiter Hsorted Hlatest Hurl.
  unfold fetch_knmi_warnings, requests_get_files, requests_get_download,
    record_call, lift, mbind, M_bind.
  rewrite Hr. cbn. rewrite Hjson, Hfiles, Hiter, Hsorted, Hlatest, Hurl. cbn.
  rewrite <- app_assoc.
  destruct (download_reply w url api_key); reflexivity.
Qed.

(** C8.  When the provider answers the listing call with a non-empty
    list of files, each carrying a string [created] and a [downloadUrl],
    [fetch_knmi_warnings] makes exactly one download, of the
    [downloadUrl] of a listed file whose [created] no other file's
    [created] exceeds in the order [sorted] applies to them, the order on
    strings, and returns the text of that download.  When the [created]
    texts are timestamps [YYYY-MM-DDTHH:MM:SS+00:00] of valid civil
    times, that file was made at the latest instant of the listing. *)
Theorem latest_file_is_downloaded
    (api_key : string) (r : http_response) (listing : gmap string json)
    (items : list json) (s : store) :
  files_reply w api_key = Some r ->
  json_body r = Some (JObj listing) ->
  listing !! "files" = Some (JArr items) ->
  items <> [] ->
  (forall f, In f items ->
     exists c url, getitem_str f "created" = Ok (JStr c) /\
                   getitem_str f "downloadUrl" = Ok url) ->
  exists latest c url,
    In latest items /\
    getitem_str latest "created" = Ok (JStr c) /\
    getitem_str latest "downloadUrl" = Ok url /\
    (forall f c', In f items -> getitem_str f "created" = Ok (JStr c') ->
                  String.leb c' c = true) /\
    trace (snd (fetch_knmi_warnings w api_key s)) =
      trace s ++ [GetFiles api_key; GetDownload url api_key] /\
    fst (fetch_knmi_warnings w api_key s) =
      match download_reply w url api_key with
      | Some xml => Ok (text xml)
      | None => Raise RequestException
      end /\
    forall made : json -> civil,
      (forall f, In f items ->
         valid_civil (made f) /\
         getitem_str f "created" = Ok (JStr (utc_timestamp (made f)))) ->
      forall f, In f items -> civil_instant (made f) <= civil_instant (made latest).
Proof.
  intros Hr Hbody Hfiles Hne Hshape.
  destruct (latest_is_max items Hne) as (ordered & latest & c & Hsorted & Hhead & Hin & Hc & Hmax).
  { intros f Hf. destruct (Hshape f Hf) as (c & _ & Hc & _). exists c. exact Hc. }
  destruct (Hshape latest Hin) as (_ & url & _ & Hurl).
  exists latest, c, url.
  rewrite (fetch_knmi_warnings_run api_key r (JObj listing) (JArr items)
             items ordered latest url s Hr).
  - repeat split; try assumption.
    intros made Hmade f Hf.
    destruct (Hmade f Hf) as (Hvf & Hcf).
    destruct (Hmade latest Hin) as (Hvl & Hcl).
    apply (created_order_is_chronological (made f) (made latest) Hvf Hvl).
    assert (c = utc_timestamp (made latest)) as -> by congruence.
    exact (Hmax f _ Hf Hcf).
  - unfold response_json. rewrite Hbody. reflexivity.
  - simpl. rewrite Hfiles. reflexivity.
  - reflexivity.
  - exact Hsorted.
  - exact Hhead.
  - exact Hurl.
Qed.

End LatestFile.

(** On the example listing the order is b, c, a: among the two bundles
    with the latest timestamp the one listed first comes first, as with
    Python's stable sort, and it is the one downloaded. *)
Lemma ties_keep_listing_order :
  sorted_reverse (fun f => getitem_str f "created") example_files
    = Ok [file_entry "2024-01-01T12:00:00+00:00" "https://knmi.example/b";
          file_entry "2024-01-01T12:00:00+00:00" "https://knmi.example/c";
          file_entry "2024-01-01T06:00:00+00:00" "https://knmi.example/a"] /\
  trace (snd (fetch_knmi_warnings (listing_world with_key (Some example_listing))
                "secret" initial_store))
    = [GetFiles "secret"; GetDownload (JStr "https://knmi.example/b") "secret"].
Proof. split; vm_compute; reflexivity. Qed.

Lemma latest_file_is_downloaded_witness :
  exists latest url,
    In latest example_files /\
    getitem_str latest "created" = Ok (JStr "2024-01-01T12:00:00+00:00") /\
    getitem_str latest "downloadUrl" = Ok url /\
    trace (snd (fetch_knmi_warnings (listing_world with_key (Some example_listing))
                  "secret" initial_store))
      = [] ++ [GetFiles "secret"; GetDownload url "secret"] /\
    forall f, In f example_files ->
              civil_instant (example_made f) <= civil_instant (example_made latest).
Proof.
  destruct (latest_file_is_downloaded
              (listing_world with_key (Some example_listing)) "secret"
              example_listing (list_to_map [("files", JArr example_files)])
              example_files initial_store)
    as (latest & c & url & Hin & Hc & Hurl & Hmax & Htrace & _ & Hrecent).
  - reflexivity.
  - reflexivity.
  - vm_compute. reflexivity.
  - discriminate.
  - intros f Hf. simpl in Hf.
    repeat (destruct Hf as [<-|Hf];
            [eexists; eexists; split; vm_compute; reflexivity|]).
    contradiction.
  - exists latest, url. repeat split; try assumption.
    + rewrite Hc. f_equal. f_equal.
      apply String.leb_antisym.
      * simpl in Hin.
        destruct Hin as [<-|[<-|[<-|[]]]]; vm_compute in Hc;
          injection Hc as <-; reflexivity.
      * apply (Hmax (file_entry "2024-01-01T12:00:00+00:00" "https://knmi.example/b")).
        -- simpl. tauto.
        -- vm_compute. reflexivity.
    + apply Hrecent. intros f Hf. simpl in Hf.
      repeat (destruct Hf as [<-|Hf];
              [split; [unfold valid_civil; vm_compute; intuition discriminate
                      |vm_compute; reflexivity]|]).
      contradiction.
Defined.

(** ** The day index *)

Section DayIndex.

Context (rt : Runtime) (w : World).

(** In the Lambda shell, when the query parameters of the event hold no
    [day], or a [day] on which [int] raises a [ValueError] or a
    [TypeError], or a [day] that [int] reads as a negative number, the
    day index is 0 and the handler does whatever it does for day 0: no
    error is returned for the parameter. *)
Lemma bad_day_means_today
    (event : json) (params : gmap string json) (s : store) :
  query_params_of event = Ok (JObj params) ->
  (params !! "day" = None \/
   exists v, params !! "day" = Some v /\
             ((exists e, py_int rt v = Raise e /\
                         is_ValueError_or_TypeError e = true) \/
              (exists z, py_int rt v = Ok z /\ z < 0))) ->
  day_index_of rt event = Ok 0 /\
  lambda_handler rt w event s = handle_day rt w 0 s.
Proof.
  intros Hqp Hday.
  assert (Hd : day_index_of rt event = Ok 0).
  { unfold day_index_of. rewrite Hqp. simpl.
    destruct Hday as [Habsent|(v & Hv & [(e & He & Hcaught)|(z & Hz & Hneg)])].
    - rewrite Habsent. reflexivity.
    - rewrite Hv, He, Hcaught. reflexivity.
    - rewrite Hv, Hz. simpl.
      assert ((z <? 0) = true) as -> by (apply Z.ltb_lt; exact Hneg).
      reflexivity. }
  split; [exact Hd|].
  apply lambda_handler_run. exact Hd.
Qed.

(** An infinite [day] is not among them: the [OverflowError] of [int]
    leaves the handler, whatever else the event, the world and the
    globals are. *)
Lemma infinite_day_raises
    (event : json) (params : gmap string json) (v : json) (s : store) :
  query_params_of event = Ok (JObj params) ->
  params !! "day" = Some v ->
  is_infinite v = true ->
  lambda_handler rt w event s = (Raise OverflowError, s).
Proof.
  intros Hqp Hv Hinf.
  apply lambda_handler_no_day.
  unfold day_index_of. rewrite Hqp. simpl.
  rewrite Hv, (py_int_infinite rt v Hinf). reflexivity.
Qed.

(** With a day index that is not negative no request is answered 400:
    the [except IndexError] branches of both shells are never taken. *)
Lemma mapping_status_not_400 (payload : json) (day : Z) :
  0 <= day -> mapping_status payload day <> 400.
Proof.
  intros Hday. unfold mapping_status.
  pose proof (from_api_no_IndexError payload day Hday) as Hno.
  destruct (from_api payload day) as [api|e]; [discriminate|].
  destruct e; simpl; try discriminate. congruence.
Qed.

Lemma day_index_is_never_rejected (day : Z) (event : json) (s : store) :
  0 <= day ->
  web_status (fst (get_weather rt w day s)) <> 400 /\
  lambda_status (fst (lambda_handler rt w event s)) <> Some 400.
Proof.
  intros Hday. split.
  - rewrite get_weather_status. unfold status_of_request.
    destruct (refetch_due w s); [|apply mapping_status_not_400; exact Hday].
    destruct (web_fetch w); [apply mapping_status_not_400; exact Hday|].
    destruct (is_None (data_cache s)); [discriminate|].
    apply mapping_status_not_400; exact Hday.
  - destruct (day_index_of rt event) as [d|e] eqn:Hd.
    + rewrite (lambda_handler_run rt w event d s Hd), handle_day_status.
      pose proof (day_index_of_nonneg rt event d Hd) as Hd0.
      unfold status_of_request. intros [= H]. revert H.
      destruct (refetch_due w s); [|apply mapping_status_not_400; exact Hd0].
      destruct (lambda_fetch w); [apply mapping_status_not_400; exact Hd0|].
      destruct (is_None (data_cache s)); [discriminate|].
      apply mapping_status_not_400; exact Hd0.
    + rewrite (lambda_handler_no_day rt w event e s Hd). discriminate.
Qed.

End DayIndex.

Lemma bad_day_means_today_examples :
  day_index_of (runtime_with []) (dict []) = Ok 0 /\
  day_index_of (runtime_with []) (event_with_day (JStr "tomorrow")) = Ok 0 /\
  lambda_handler (runtime_with []) (outage_at 5000) (event_with_day (JStr "-3"))
    cached_store
    = handle_day (runtime_with []) (outage_at 5000) 0 cached_store.
Proof.
  split; [|split].
  - apply (bad_day_means_today (runtime_with []) (outage_at 5000) (dict []) ∅
             cached_store).
    + reflexivity.
    + left. reflexivity.
  - apply (bad_day_means_today (runtime_with []) (outage_at 5000)
             (event_with_day (JStr "tomorrow"))
             (list_to_map [("day", JStr "tomorrow")]) cached_store).
    + reflexivity.
    + right. exists (JStr "tomorrow"). split; [reflexivity|].
      left. exists ValueError. split; reflexivity.
  - apply (bad_day_means_today (runtime_with []) (outage_at 5000)
             (event_with_day (JStr "-3"))
             (list_to_map [("day", JStr "-3")]) cached_store).
    + reflexivity.
    + right. exists (JStr "-3"). split; [reflexivity|].
      right. exists (-3). split; [reflexivity|lia].
Qed.

(** C9.  A [day] that is the float [inf], which is how the event's JSON
    [1e999] is decoded: [int] raises [OverflowError], which
    [except (ValueError, TypeError)] does not catch, so the handler raises
    instead of going on with day 0, before it has made any call.  The
    claim asks that a [day] that cannot be read as an integer be taken
    for 0, as the handler does take the string ["1e999"] and [nan]. *)
Theorem infinite_day_escapes_the_handler :
  py_int (runtime_with []) (JNonFinite PosInf) = Raise OverflowError /\
  is_ValueError_or_TypeError OverflowError = false /\
  lambda_handler (runtime_with [])
    (forecast_world 1000 (Some (ok_reply example_payload)))
    (event_with_day (JNonFinite PosInf)) initial_store
    = (Raise OverflowError, initial_store) /\
  day_index_of (runtime_with []) (event_with_day (JStr "1e999")) = Ok 0 /\
  day_index_of (runtime_with []) (event_with_day (JNonFinite NaN)) = Ok 0.
Proof.
  repeat split; vm_compute; reflexivity.
Qed.

(** ** A day index beyond the forecast *)

(** C1.  The request of the specification's example, [day = 5] against a
    payload with two forecast days, on a freshly started process: the
    route function returns a body (status 200) and the Lambda handler
    returns status 200; in both the eleven fields are null.  The claim
    asks for status 400. *)
Theorem day_beyond_forecast_is_answered_200 :
  fst (get_weather (runtime_with [])
         (forecast_world 1000 (Some (ok_reply example_payload))) 5 initial_store)
    = Ok (to_dict all_null) /\
  web_status
    (fst (get_weather (runtime_with [])
            (forecast_world 1000 (Some (ok_reply example_payload))) 5
            initial_store)) = 200 /\
  fst (lambda_handler (runtime_with [])
         (forecast_world 1000 (Some (ok_reply example_payload)))
         (event_with_day (JStr "5")) initial_store)
    = Ok {| statusCode := 200; body := to_dict all_null |}.
Proof.
  repeat split; vm_compute; reflexivity.
Qed.

(** ** The credential *)

(** In [api/index.py] an absent (or empty) [KNMI_API_KEY] skips the
    warnings path: no call is made and [warnings] stays empty. *)
Lemma web_without_key_skips_warnings (rt : Runtime) (w : World) (s : store) :
  getenv w "KNMI_API_KEY" EmptyString = EmptyString ->
  web_warnings rt w s = (Ok [], s).
Proof.
  intros Hkey. unfold web_warnings. rewrite Hkey. reflexivity.
Qed.

(** Without a key in the environment, a request to the FastAPI shell
    makes no call but, possibly, the forecast download. *)
Lemma web_without_key_calls_forecast_only
    (rt : Runtime) (w : World) (day : Z) (s : store) (c : upstream_call) :
  getenv w "KNMI_API_KEY" EmptyString = EmptyString ->
  In c (trace (snd (get_weather rt w day s))) ->
  In c (trace s) \/ c = GetForecast.
Proof.
  intros Hkey.
  destruct (get_weather_run rt w day) as (ws & calls & _ & Hw & Hrun).
  assert (calls = []) as ->.
  { specialize (Hw initial_store).
    rewrite (web_without_key_skips_warnings rt w initial_store Hkey) in Hw.
    injection Hw as _ Hc. exact (eq_sym Hc). }
  rewrite Hrun.
  destruct (refetch_due w s); [|cbn; rewrite app_nil_r; tauto].
  destruct (web_fetch w); [|destruct (is_None (data_cache s))]; cbn;
    rewrite in_app_iff; cbn; intuition congruence.
Qed.

(** Whatever the environment, a request to the Lambda shell lists the
    files with the literal credential, unless it is answered 500 for a
    failed download with nothing cached. *)
Lemma lambda_always_lists_files
    (rt : Runtime) (w : World) (day_index : Z) (s : store) :
  (forall e, lambda_fetch w = Raise e -> is_None (data_cache s) = false) ->
  In (GetFiles "KNMI_API_KEY_HIER") (trace (snd (handle_day rt w day_index s))).
Proof.
  intros Hserved.
  destruct (handle_day_run rt w day_index) as (ws & calls & _ & Hw & Hrun).
  destruct (lambda_warnings_lists_files rt w) as (ws' & calls' & Hw').
  assert (calls = GetFiles "KNMI_API_KEY_HIER" :: calls') as ->.
  { specialize (Hw initial_store). rewrite (Hw' initial_store) in Hw.
    injection Hw as _ Hc. exact (eq_sym Hc). }
  rewrite Hrun.
  destruct (refetch_due w s); [|cbn; rewrite in_app_iff; cbn; tauto].
  destruct (lambda_fetch w) as [payload|e] eqn:Hfetch.
  - cbn. rewrite in_app_iff. cbn. tauto.
  - rewrite (Hserved e eq_refl). cbn. rewrite in_app_iff. cbn. tauto.
Qed.

(** C5.  A request on a process whose environment holds no
    [KNMI_API_KEY]: the FastAPI shell calls only the forecast provider,
    but the Lambda shell lists the files of the warnings provider, sending
    the literal ["KNMI_API_KEY_HIER"] of the source as the credential.
    The claim asks that the credential come from the environment and that
    the warnings path be skipped in both shells. *)
Theorem lambda_sends_literal_credential :
  getenv (listing_world ∅ (Some forbidden)) "KNMI_API_KEY" EmptyString = EmptyString /\
  trace (snd (get_weather (runtime_with []) (listing_world ∅ (Some forbidden))
                0 initial_store))
    = [GetForecast] /\
  trace (snd (lambda_handler (runtime_with []) (listing_world ∅ (Some forbidden))
                (dict []) initial_store))
    = [GetForecast; GetFiles "KNMI_API_KEY_HIER"].
Proof.
  repeat split; vm_compute; reflexivity.
Qed.

(** ** The filter on warnings *)

(** The bound of the code is 23:59:59 of tomorrow plus the sub-second
    part of the current instant: [replace] leaves [microsecond] alone. *)
Lemma end_of_tomorrow_wall (now_us : Z) :
  wall (end_of_tomorrow now_us) =
    tomorrow_235959 now_us + now_us mod usec_per_second.
Proof.
  unfold end_of_tomorrow, replace_hms, add_days, tomorrow_235959. simpl.
  unfold usec_per_day, usec_per_second.
  rewrite (Z.div_add now_us 1 (86400 * 1000000)) by lia.
  replace (now_us + 1 * (86400 * 1000000))
    with (now_us + 86400 * 1000000) by lia.
  rewrite (Z.mod_add now_us 86400 1000000) by lia.
  lia.
Qed.

Section WarningFilter.

Context (rt : Runtime) (w : World).

Lemma warnings_loop_filters (now_us : Z) (ws : list element) (results : list json) :
  (forall x, In x ws -> aware_times rt x <> None) ->
  warnings_loop rt (Datetime now_us (Some 0)) (end_of_tomorrow now_us) ws results
  = Ok (results ++ map warning_entry (List.filter (is_active rt now_us) ws)).
Proof.
  revert results. induction ws as [|x ws IH]; intros results Haware.
  - simpl. rewrite app_nil_r. reflexivity.
  - assert (Hx : aware_times rt x <> None) by (apply Haware; left; reflexivity).
    assert (Hws : forall y, In y ws -> aware_times rt y <> None)
      by (intros y Hy; apply Haware; right; exact Hy).
    simpl. unfold is_active. unfold aware_times in *.
    destruct (fromisoformat rt (findtext x "startTime")) as [[s [os|]]|];
      try congruence.
    destruct (fromisoformat rt (findtext x "endTime")) as [[e [oe|]]|];
      try congruence.
    simpl. unfold datetime_le, datetime_ge, datetime_cmp. simpl.
    rewrite !Z.sub_0_r.
    unfold Z.leb at 1.
    destruct (s - os ?= _) eqn:Hs; simpl;
      try (unfold Z.leb; rewrite (Z.compare_antisym (e - oe) now_us);
           destruct (e - oe ?= now_us); simpl; rewrite IH by exact Hws;
           try rewrite <- app_assoc; reflexivity).
    rewrite IH by exact Hws. reflexivity.
Qed.

(** What [parse_knmi_warnings] returns on a document all of whose
    warnings carry timezone-aware times: the entries of the warnings that
    pass the test, in document order. *)
Lemma parse_knmi_warnings_filters (xml_text : string) (root : element) :
  ET_fromstring rt xml_text = Some root ->
  (forall x, In x (findall_descendant root "warning") -> aware_times rt x <> None) ->
  parse_knmi_warnings rt w xml_text =
    Ok (map warning_entry
          (List.filter (is_active rt (datetime_now w))
             (findall_descendant root "warning"))).
Proof.
  intros Hroot Haware. unfold parse_knmi_warnings. rewrite Hroot. simpl.
  exact (warnings_loop_filters (datetime_now w) _ [] Haware).
Qed.

(** When the current instant is a whole second, the test is the one of
    the specification: start at or before 23:59:59 of tomorrow, end at or
    after now. *)
Lemma is_active_at_whole_second (now_us : Z) (warning : element) (s e : Z) :
  now_us mod usec_per_second = 0 ->
  aware_times rt warning = Some (s, e) ->
  is_active rt now_us warning = true <-> s <= tomorrow_235959 now_us /\ now_us <= e.
Proof.
  intros Hwhole Htimes. unfold is_active. rewrite Htimes.
  rewrite end_of_tomorrow_wall, Hwhole, Z.add_0_r.
  rewrite andb_true_iff, !Z.leb_le. reflexivity.
Qed.

(** The examples of the specification, at any current instant: a start
    at exactly 23:59:59 of tomorrow passes (with an end not in the past),
    an end one minute ago fails, a start three days ahead fails. *)
Lemma is_active_examples (now_us : Z) (warning : element) (s e : Z) :
  aware_times rt warning = Some (s, e) ->
  (s = tomorrow_235959 now_us -> now_us <= e -> is_active rt now_us warning = true) /\
  (e = now_us - 60 * usec_per_second -> is_active rt now_us warning = false) /\
  (s = now_us + 3 * usec_per_day -> is_active rt now_us warning = false).
Proof.
  intros Htimes. unfold is_active. rewrite Htimes.
  rewrite end_of_tomorrow_wall.
  pose proof (Z.mod_pos_bound now_us usec_per_second ltac:(reflexivity)) as Hus.
  pose proof (Z.mod_pos_bound now_us usec_per_day ltac:(reflexivity)) as Hday.
  pose proof (Z.div_mod now_us usec_per_day ltac:(discriminate)) as Hdm.
  unfold tomorrow_235959, usec_per_day, usec_per_second in *.
  repeat split.
  - intros -> He. apply andb_true_iff. split; apply Z.leb_le; lia.
  - intros ->. apply andb_false_iff. right. apply Z.leb_gt. lia.
  - intros ->. apply andb_false_iff. left. apply Z.leb_gt. lia.
Qed.

End WarningFilter.

(** C3.  At 12:00:00.500000 UTC on 1 January 2024 the parser keeps a
    warning whose start, 23:59:59.250000 UTC on 2 January, is after
    23:59:59 UTC of the day after today; at 12:00:00.000000 it drops the
    same warning.  The bound the code compares with carries the
    microseconds of the current instant. *)
Theorem warning_past_end_of_tomorrow_is_kept :
  iso_datetime "2024-01-02T23:59:59.250000+00:00"
    = Some (Datetime (tomorrow_235959 (noon_2024_01_01 + 500000) + 250000) (Some 0)) /\
  parse_knmi_warnings late_runtime (world_at (noon_2024_01_01 + 500000)) late_xml
    = Ok [dict [("color", JStr "yellow"); ("type", JStr "WIND")]] /\
  parse_knmi_warnings late_runtime (world_at noon_2024_01_01) late_xml = Ok [].
Proof.
  repeat split; vm_compute; reflexivity.
Qed.

(** * Further properties of the handlers and their helpers *)

(** ** The shape of a reply *)

Lemma to_dict_keys (api : RoadCastApiResponse) :
  exists m, to_dict api = JObj m /\ dom m = list_to_set output_names /\
            m !! "warnings" = Some (JArr (warnings api)).
Proof.
  eexists. split; [reflexivity|]. split.
  - rewrite dom_list_to_map_L. reflexivity.
  - vm_compute. reflexivity.
Qed.

Section Outcomes.

Context (rt : Runtime) (w : World).

(** The outcome of a request is the abort of a first download that
    failed, or the reply mapped from some payload. *)
Lemma get_weather_result (day : Z) (s : store) :
  fst (get_weather rt w day s) = Raise (HTTPException 500 "Weather fetch failed")
  \/ exists payload ws, fst (get_weather rt w day s) = web_response rt payload day ws.
Proof.
  destruct (get_weather_run rt w day) as (ws & calls & _ & _ & Hrun).
  rewrite Hrun.
  destruct (refetch_due w s); [|right; eexists; eexists; reflexivity].
  destruct (web_fetch w); [right; eexists; eexists; reflexivity|].
  destruct (is_None (data_cache s)); [left; reflexivity|].
  right; eexists; eexists; reflexivity.
Qed.

Lemma handle_day_result (day_index : Z) (s : store) :
  fst (handle_day rt w day_index s) =
    Ok {| statusCode := 500; body := error_body "Weather fetch failed" |}
  \/ exists payload ws,
       fst (handle_day rt w day_index s) = Ok (lambda_reply rt payload day_index ws).
Proof.
  destruct (handle_day_run rt w day_index) as (ws & calls & _ & _ & Hrun).
  rewrite Hrun.
  destruct (refetch_due w s); [|right; eexists; eexists; reflexivity].
  destruct (lambda_fetch w); [right; eexists; eexists; reflexivity|].
  destruct (is_None (data_cache s)); [left; reflexivity|].
  right; eexists; eexists; reflexivity.
Qed.

(** The last [try] of each handler: a body, the 400 of a negative index,
    or a 500. *)
Lemma web_response_cases (payload : json) (day : Z) (ws : list json) :
  (exists api, web_response rt payload day ws = Ok (to_dict api) /\ warnings api = ws)
  \/ (web_response rt payload day ws = Raise (HTTPException 400 "Day index out of range")
      /\ day < 0)
  \/ exists detail, web_response rt payload day ws = Raise (HTTPException 500 detail).
Proof.
  unfold web_response.
  destruct (weather_response_mapper payload day (Some ws)) as [api|exc] eqn:Hm.
  - left. exists api. split; [reflexivity|].
    unfold weather_response_mapper in Hm.
    destruct (from_api payload day); [|discriminate].
    simpl in Hm. injection Hm as <-. reflexivity.
  - destruct (is_IndexError exc) eqn:Hexc.
    + right. left. split; [reflexivity|].
      destruct exc; try discriminate.
      destruct (Z.lt_ge_cases day 0) as [Hneg|Hpos]; [exact Hneg|].
      exfalso. exact (weather_response_mapper_no_IndexError _ _ _ Hpos Hm).
    + right. right. eexists. reflexivity.
Qed.

Lemma lambda_reply_cases (payload : json) (day_index : Z) (ws : list json) :
  (exists api, lambda_reply rt payload day_index ws =
                 {| statusCode := 200; body := to_dict api |} /\ warnings api = ws)
  \/ (lambda_reply rt payload day_index ws =
        {| statusCode := 400; body := error_body "Day index out of range" |}
      /\ day_index < 0)
  \/ exists msg, lambda_reply rt payload day_index ws =
                   {| statusCode := 500; body := error_body msg |}.
Proof.
  unfold lambda_reply.
  destruct (weather_response_mapper payload day_index (Some ws)) as [api|exc] eqn:Hm.
  - left. exists api. split; [reflexivity|].
    unfold weather_response_mapper in Hm.
    destruct (from_api payload day_index); [|discriminate].
    simpl in Hm. injection Hm as <-. reflexivity.
  - destruct (is_IndexError exc) eqn:Hexc.
    + right. left. split; [reflexivity|].
      destruct exc; try discriminate.
      destruct (Z.lt_ge_cases day_index 0) as [Hneg|Hpos]; [exact Hneg|].
      exfalso. exact (weather_response_mapper_no_IndexError _ _ _ Hpos Hm).
    + right. right. eexists. reflexivity.
Qed.

(** A mapper exception other than [IndexError] becomes a 500 that carries
    its text. *)
Lemma lambda_reply_raise (payload : json) (day : Z) (ws : list json) (e : exn) :
  from_api payload day = Raise e -> is_IndexError e = false ->
  lambda_reply rt payload day ws =
    {| statusCode := 500; body := error_body (str_of_exn rt e) |}.
Proof.
  intros He Hidx. unfold lambda_reply, weather_response_mapper.
  rewrite He. simpl. rewrite Hidx. reflexivity.
Qed.

Lemma web_response_raise (payload : json) (day : Z) (ws : list json) (e : exn) :
  from_api payload day = Raise e -> is_IndexError e = false ->
  web_response rt payload day ws = Raise (HTTPException 500 (str_of_exn rt e)).
Proof.
  intros He Hidx. unfold web_response, weather_response_mapper.
  rewrite He. simpl. rewrite Hidx. reflexivity.
Qed.

(** Lines 20-27 of [main.py] raise nothing but the [AttributeError] of a
    [.get] on something that is not a dict and the [OverflowError] of
    [int] on an infinite float. *)
Lemma day_index_of_cases (event : json) :
  (exists params d, query_params_of event = Ok (JObj params) /\
                    day_index_of rt event = Ok d /\ 0 <= d /\
                    forall v, params !! "day" = Some v -> is_infinite v = false)
  \/ (day_index_of rt event = Raise AttributeError /\
      forall params, query_params_of event <> Ok (JObj params))
  \/ (day_index_of rt event = Raise OverflowError /\
      exists params v, query_params_of event = Ok (JObj params) /\
                       params !! "day" = Some v /\ is_infinite v = true).
Proof.
  assert (Hparams : forall params,
            query_params_of event = Ok (JObj params) ->
            (exists d, day_index_of rt event = Ok d /\ 0 <= d /\
                       forall v, params !! "day" = Some v -> is_infinite v = false)
            \/ (day_index_of rt event = Raise OverflowError /\
                exists v, params !! "day" = Some v /\ is_infinite v = true)).
  { intros params Hqp. unfold day_index_of. rewrite Hqp. simpl.
    destruct (params !! "day") as [v|] eqn:Hv.
    - destruct (py_int rt v) as [z|e] eqn:Hint; simpl.
      + left. eexists. split; [reflexivity|]. split.
        * destruct (z <? 0) eqn:Hz; [lia|]. apply Z.ltb_ge in Hz. exact Hz.
        * intros v' [= <-]. destruct (is_infinite v) eqn:Hinf; [|reflexivity].
          rewrite (py_int_infinite rt v Hinf) in Hint. discriminate.
      + destruct (py_int_raises rt v e Hint) as [[Hfin Hcaught]|[Hinf ->]].
        * rewrite Hcaught. simpl. left. exists 0.
          split; [reflexivity|]. split; [lia|]. intros v' [= <-]. exact Hfin.
        * simpl. right. split; [reflexivity|]. exists v. split; [reflexivity|exact Hinf].
    - simpl. left. exists 0. split; [reflexivity|]. split; [lia|]. discriminate. }
  destruct (query_params_of event) as [qp|e] eqn:Hqp.
  - destruct qp as [| | | | | | |params];
      try (right; left; split; [|intros params; discriminate];
           unfold day_index_of; rewrite Hqp; reflexivity).
    destruct (Hparams params eq_refl) as [(d & Hd & Hd0 & Hfin)|(Hd & v & Hv & Hinf)].
    + left. exists params, d. repeat split; assumption.
    + right. right. split; [exact Hd|]. exists params, v. repeat split; assumption.
  - right. left. split; [|intros params; discriminate].
    unfold day_index_of. rewrite Hqp. simpl.
    unfold query_params_of in Hqp. destruct event; simpl in Hqp; congruence.
Qed.

End Outcomes.

(** X1.  Whenever [get_weather] returns a body, and whenever
    [lambda_handler] returns status 200, the body is a dict with exactly
    the twelve keys of [to_dict], and its ["warnings"] is a list (never
    null).  Every other reply of [lambda_handler] has status 500 and a
    body [{"error": msg}]. *)
Theorem ok_body_has_the_twelve_fields
    (rt : Runtime) (w : World) (day : Z) (event : json) (s : store) :
  (forall b, fst (get_weather rt w day s) = Ok b ->
     exists m ws, b = JObj m /\ dom m = list_to_set output_names /\
                  m !! "warnings" = Some (JArr ws)) /\
  (forall reply, fst (lambda_handler rt w event s) = Ok reply ->
     (statusCode reply = 200 /\
      exists m ws, body reply = JObj m /\ dom m = list_to_set output_names /\
                   m !! "warnings" = Some (JArr ws))
     \/ (statusCode reply = 500 /\ exists msg, body reply = error_body msg)).
Proof.
  split.
  - intros b Hb.
    destruct (get_weather_result rt w day s) as [Habort|(payload & ws & Hres)];
      [congruence|].
    rewrite Hres in Hb.
    destruct (web_response_cases rt payload day ws)
      as [(api & Hok & Hws)|[[H400 _]|[detail H500]]]; try congruence.
    rewrite Hok in Hb. injection Hb as <-.
    destruct (to_dict_keys api) as (m & Hm & Hdom & Hwarn).
    exists m, (warnings api). repeat split; assumption.
  - intros reply Hreply.
    destruct (day_index_of_cases rt event)
      as [(params & d & _ & Hd & Hd0 & _)|[[Hd _]|[Hd _]]].
    2,3: rewrite (lambda_handler_no_day rt w event _ s Hd) in Hreply; discriminate.
    rewrite (lambda_handler_run rt w event d s Hd) in Hreply.
    destruct (handle_day_result rt w d s) as [Habort|(payload & ws & Hres)].
    + rewrite Habort in Hreply. injection Hreply as <-.
      right. split; [reflexivity|]. eexists. reflexivity.
    + rewrite Hres in Hreply. injection Hreply as <-.
      destruct (lambda_reply_cases rt payload d ws)
        as [(api & Hok & Hws)|[[H400 Hneg]|[msg H500]]]; [| lia |].
      * rewrite Hok. left. split; [reflexivity|].
        destruct (to_dict_keys api) as (m & Hm & Hdom & Hwarn).
        exists m, (warnings api). repeat split; assumption.
      * rewrite H500. right. split; [reflexivity|]. exists msg. reflexivity.
Qed.

Lemma ok_body_has_the_twelve_fields_witness :
  exists m ws, to_dict all_null = JObj m /\ dom m = list_to_set output_names /\
               m !! "warnings" = Some (JArr ws).
Proof.
  apply (proj1 (ok_body_has_the_twelve_fields (runtime_with [])
           (forecast_world 1000 (Some (ok_reply example_payload))) 5
           (event_with_day (JStr "5")) initial_store)).
  vm_compute. reflexivity.
Defined.

(** X2.  [get_weather] returns a body or raises an [HTTPException],
    never another exception: with status 500, or, only when it is called
    with a negative day, with status 400 and the detail "Day index out of
    range". *)
Theorem get_weather_returns_or_raises_HTTPException
    (rt : Runtime) (w : World) (day : Z) (s : store) :
  (exists b, fst (get_weather rt w day s) = Ok b) \/
  (exists detail, fst (get_weather rt w day s) = Raise (HTTPException 500 detail)) \/
  (day < 0 /\
   fst (get_weather rt w day s) = Raise (HTTPException 400 "Day index out of range")).
Proof.
  destruct (get_weather_result rt w day s) as [Habort|(payload & ws & Hres)].
  - right. left. exists "Weather fetch failed". exact Habort.
  - rewrite Hres.
    destruct (web_response_cases rt payload day ws)
      as [(api & Hok & Hws)|[[H400 Hneg]|[detail H500]]].
    + left. eexists. exact Hok.
    + right. right. split; assumption.
    + right. left. exists detail. exact H500.
Qed.

(** X3.  When the event's query parameters are a dict, or are absent,
    null or otherwise false, and [day] is not an infinite float,
    [lambda_handler] returns a reply, with status 200 or 500.  It raises
    in two cases only, each time before any call is made and before the
    globals are touched: the [AttributeError] of [.get] when the event is
    not a dict or its [queryStringParameters] is a true value that is not
    a dict, and the [OverflowError] of [int] when [day] is the float
    [inf] or [-inf]; neither is caught by
    [except (ValueError, TypeError)]. *)
Theorem lambda_handler_raises_only_on_odd_events
    (rt : Runtime) (w : World) (event : json) (s : store) :
  (forall params, query_params_of event = Ok (JObj params) ->
     (forall v, params !! "day" = Some v -> is_infinite v = false) ->
     exists reply, fst (lambda_handler rt w event s) = Ok reply /\
                   (statusCode reply = 200 \/ statusCode reply = 500)) /\
  (forall e, fst (lambda_handler rt w event s) = Raise e ->
     lambda_handler rt w event s = (Raise e, s) /\
     ((e = AttributeError /\
       forall params, query_params_of event <> Ok (JObj params)) \/
      (e = OverflowError /\
       exists params v, query_params_of event = Ok (JObj params) /\
                        params !! "day" = Some v /\ is_infinite v = true))).
Proof.
  destruct (day_index_of_cases rt event)
    as [(params & d & Hqp & Hd & Hd0 & Hfin)|[[Hd Hno]|(Hd & params & v & Hqp & Hv & Hinf)]].
  - rewrite (lambda_handler_run rt w event d s Hd).
    assert (Hok : exists reply, fst (handle_day rt w d s) = Ok reply /\
                    (statusCode reply = 200 \/ statusCode reply = 500)).
    { destruct (handle_day_result rt w d s) as [Habort|(payload & ws & Hres)].
      - eexists. split; [exact Habort|]. right. reflexivity.
      - rewrite Hres.
        destruct (lambda_reply_cases rt payload d ws)
          as [(api & Hok & Hws)|[[H400 Hneg]|[msg H500]]]; [| lia |].
        + rewrite Hok. eexists. split; [reflexivity|]. left. reflexivity.
        + rewrite H500. eexists. split; [reflexivity|]. right. reflexivity. }
    split.
    + intros _ _ _. exact Hok.
    + intros e He. destruct Hok as (reply & Hreply & _). congruence.
  - rewrite (lambda_handler_no_day rt w event _ s Hd). split.
    + intros params Hqp. exfalso. exact (Hno params Hqp).
    + intros e He. simpl in He. injection He as <-.
      split; [reflexivity|]. left. split; [reflexivity|exact Hno].
  - rewrite (lambda_handler_no_day rt w event _ s Hd). split.
    + intros params' Hqp' Hfin. exfalso.
      assert (params' = params) as -> by congruence.
      rewrite (Hfin v Hv) in Hinf. discriminate.
    + intros e He. simpl in He. injection He as <-.
      split; [reflexivity|]. right. split; [reflexivity|].
      exists params, v. repeat split; assumption.
Qed.

Lemma lambda_handler_raises_only_on_odd_events_witness :
  (exists reply,
     fst (lambda_handler (runtime_with []) (outage_at 5000)
            (event_with_day (JStr "1")) cached_store) = Ok reply /\
     (statusCode reply = 200 \/ statusCode reply = 500)) /\
  lambda_handler (runtime_with []) (outage_at 5000) odd_event cached_store
    = (Raise AttributeError, cached_store) /\
  lambda_handler (runtime_with []) (outage_at 5000)
    (event_with_day (JNonFinite NegInf)) cached_store
    = (Raise OverflowError, cached_store).
Proof.
  split; [|split].
  - apply (proj1 (lambda_handler_raises_only_on_odd_events (runtime_with [])
                    (outage_at 5000) (event_with_day (JStr "1")) cached_store)
             (list_to_map [("day", JStr "1")])).
    + reflexivity.
    + intros v Hv. vm_compute in Hv. injection Hv as <-. reflexivity.
  - apply (proj2 (lambda_handler_raises_only_on_odd_events (runtime_with [])
                    (outage_at 5000) odd_event cached_store) AttributeError).
    vm_compute. reflexivity.
  - apply (proj2 (lambda_handler_raises_only_on_odd_events (runtime_with [])
                    (outage_at 5000) (event_with_day (JNonFinite NegInf))
                    cached_store) OverflowError).
    vm_compute. reflexivity.
Defined.

(** ** Calls to the providers *)

Section Calls.

Context (rt : Runtime) (w : World).

(** [fetch_knmi_warnings] stops after the listing call with an exception,
    or goes on to one download and returns its text. *)
Lemma fetch_knmi_warnings_cases (api_key : string) :
  (exists e, forall s, fetch_knmi_warnings w api_key s =
                         (Raise e, with_calls s [GetFiles api_key]))
  \/ exists url,
       forall s, fetch_knmi_warnings w api_key s =
         (match download_reply w url api_key with
          | Some xml => Ok (text xml)
          | None => Raise RequestException
          end,
          with_calls s [GetFiles api_key; GetDownload url api_key]).
Proof.
  unfold fetch_knmi_warnings, requests_get_files, requests_get_download,
    record_call, lift, raise, mbind, M_bind, mret, M_ret, with_calls.
  destruct (files_reply w api_key) as [r|]; cbn;
    [|left; eexists; intros s; reflexivity].
  destruct (response_json r) as [listing|]; cbn;
    [|left; eexists; intros s; reflexivity].
  destruct (getitem_str listing "files") as [files|]; cbn;
    [|left; eexists; intros s; reflexivity].
  destruct (py_iter files) as [items|]; cbn;
    [|left; eexists; intros s; reflexivity].
  destruct (sorted_reverse _ items) as [ordered|]; cbn;
    [|left; eexists; intros s; reflexivity].
  destruct (list_getitem ordered 0) as [latest|]; cbn;
    [|left; eexists; intros s; reflexivity].
  destruct (getitem_str latest "downloadUrl") as [url|]; cbn;
    [|left; eexists; intros s; reflexivity].
  right. exists url. intros s. rewrite <- app_assoc. cbn.
  destruct (download_reply w url api_key); reflexivity.
Qed.

Lemma try_warnings_cases (api_key : string) :
  exists ws calls,
    listing_then_download api_key calls /\
    forall s, try_warnings rt w api_key s = (Ok ws, with_calls s calls).
Proof.
  unfold try_warnings, try_except, mbind, M_bind.
  destruct (fetch_knmi_warnings_cases api_key) as [(e & Hrun)|(url & Hrun)].
  - exists [], [GetFiles api_key]. split; [left; reflexivity|].
    intros s. rewrite Hrun. reflexivity.
  - destruct (download_reply w url api_key) as [xml|].
    + destruct (parse_knmi_warnings rt w (text xml)) as [ws|e] eqn:Hparse.
      * exists ws, [GetFiles api_key; GetDownload url api_key].
        split; [right; exists url; reflexivity|].
        intros s. rewrite Hrun. unfold lift. rewrite Hparse. reflexivity.
      * exists [], [GetFiles api_key; GetDownload url api_key].
        split; [right; exists url; reflexivity|].
        intros s. rewrite Hrun. unfold lift. rewrite Hparse. reflexivity.
    + exists [], [GetFiles api_key; GetDownload url api_key].
      split; [right; exists url; reflexivity|].
      intros s. rewrite Hrun. reflexivity.
Qed.

(** The calls that [get_weather_run] and [handle_day_run] speak of. *)
Lemma web_warnings_calls (ws : list json) (calls : list upstream_call) :
  (forall s, web_warnings rt w s = (Ok ws, with_calls s calls)) ->
  (getenv w "KNMI_API_KEY" EmptyString = EmptyString /\ calls = [] /\ ws = [])
  \/ (getenv w "KNMI_API_KEY" EmptyString <> EmptyString /\
      listing_then_download (getenv w "KNMI_API_KEY" EmptyString) calls).
Proof.
  intros Hw. specialize (Hw initial_store). unfold web_warnings in Hw.
  destruct (String.eqb_spec (getenv w "KNMI_API_KEY" EmptyString) EmptyString)
    as [Hkey|Hkey]; simpl in Hw.
  - left. split; [exact Hkey|].
    injection Hw as Hws Hc. split; [|exact (eq_sym Hws)].
    destruct calls; [reflexivity|discriminate].
  - right. split; [exact Hkey|].
    destruct (try_warnings_cases (getenv w "KNMI_API_KEY" EmptyString))
      as (ws' & calls' & Hshape & Hrun).
    rewrite Hrun in Hw. injection Hw as _ Hc.
    apply (app_inv_head []) in Hc. subst calls'. exact Hshape.
Qed.

Lemma lambda_warnings_calls (ws : list json) (calls : list upstream_call) :
  (forall s, lambda_warnings rt w s = (Ok ws, with_calls s calls)) ->
  listing_then_download "KNMI_API_KEY_HIER" calls.
Proof.
  intros Hw. specialize (Hw initial_store). unfold lambda_warnings in Hw.
  destruct (try_warnings_cases "KNMI_API_KEY_HIER") as (ws' & calls' & Hshape & Hrun).
  rewrite Hrun in Hw. injection Hw as _ Hc.
  apply (app_inv_head []) in Hc. subst calls'. exact Hshape.
Qed.

(** X4.  A request that finds no cached payload and whose forecast
    download raises is over at that point: the only call it has made is
    the forecast download, the warnings provider is not contacted, and
    the globals are as they were.  [get_weather] raises
    [HTTPException(500, "Weather fetch failed")]; [lambda_handler] returns
    status 500 with [{"error": "Weather fetch failed"}]. *)
Theorem first_download_failure_stops_the_request
    (day : Z) (event : json) (day_index : Z) (s : store) :
  is_None (data_cache s) = true ->
  day_index_of rt event = Ok day_index ->
  (forall e, web_fetch w = Raise e ->
     get_weather rt w day s =
       (Raise (HTTPException 500 "Weather fetch failed"),
        Store (data_cache s) (last_loaded s) (trace s ++ [GetForecast]))) /\
  (forall e, lambda_fetch w = Raise e ->
     lambda_handler rt w event s =
       (Ok {| statusCode := 500; body := error_body "Weather fetch failed" |},
        Store (data_cache s) (last_loaded s) (trace s ++ [GetForecast]))).
Proof.
  intros Hnone Hd.
  destruct (get_weather_run rt w day) as (ws & calls & _ & _ & Hweb).
  destruct (handle_day_run rt w day_index) as (ws' & calls' & _ & _ & Hlam).
  rewrite (lambda_handler_run rt w event day_index s Hd), Hweb, Hlam.
  unfold refetch_due. rewrite Hnone. simpl.
  split; intros e He; rewrite He; reflexivity.
Qed.

(** X5.  The calls one request adds to those made before: at most one
    forecast download, first; then at most one run of the warnings path,
    which is the listing call followed by at most one download, both
    carrying the same credential (the value of [KNMI_API_KEY] in
    [api/index.py], the literal of the source in [main.py]).  No request
    makes more than three calls, and none downloads a file it has not
    listed. *)
Theorem calls_of_a_request (day : Z) (event : json) (s : store) :
  (exists forecast warnings_,
     trace (snd (get_weather rt w day s)) = trace s ++ forecast ++ warnings_ /\
     (forecast = [] \/ forecast = [GetForecast]) /\
     (warnings_ = [] \/
      getenv w "KNMI_API_KEY" EmptyString <> EmptyString /\
      listing_then_download (getenv w "KNMI_API_KEY" EmptyString) warnings_)) /\
  (exists forecast warnings_,
     trace (snd (lambda_handler rt w event s)) = trace s ++ forecast ++ warnings_ /\
     (forecast = [] \/ forecast = [GetForecast]) /\
     (warnings_ = [] \/ listing_then_download "KNMI_API_KEY_HIER" warnings_)).
Proof.
  split.
  - destruct (get_weather_run rt w day) as (ws & calls & _ & Hw & Hrun).
    rewrite Hrun.
    assert (Hcalls : calls = [] \/
              getenv w "KNMI_API_KEY" EmptyString <> EmptyString /\
              listing_then_download (getenv w "KNMI_API_KEY" EmptyString) calls).
    { destruct (web_warnings_calls ws calls Hw) as [(_ & -> & _)|H];
        [left; reflexivity|right; exact H]. }
    destruct (refetch_due w s).
    + destruct (web_fetch w).
      * exists [GetForecast], calls. cbn. repeat split; [right; reflexivity|exact Hcalls].
      * destruct (is_None (data_cache s)).
        -- exists [GetForecast], []. cbn. repeat split; [right|left]; reflexivity.
        -- exists [GetForecast], calls. cbn.
           repeat split; [right; reflexivity|exact Hcalls].
    + exists [], calls. cbn. repeat split; [left; reflexivity|exact Hcalls].
  - destruct (day_index_of rt event) as [d|e] eqn:Hd.
    2:{ rewrite (lambda_handler_no_day rt w event e s Hd).
        exists [], []. cbn. rewrite app_nil_r. repeat split; left; reflexivity. }
    rewrite (lambda_handler_run rt w event d s Hd).
    destruct (handle_day_run rt w d) as (ws & calls & _ & Hw & Hrun).
    rewrite Hrun.
    pose proof (lambda_warnings_calls ws calls Hw) as Hcalls.
    destruct (refetch_due w s).
    + destruct (lambda_fetch w).
      * exists [GetForecast], calls. cbn.
        repeat split; [right; reflexivity|right; exact Hcalls].
      * destruct (is_None (data_cache s)).
        -- exists [GetForecast], []. cbn. repeat split; [right|left]; reflexivity.
        -- exists [GetForecast], calls. cbn.
           repeat split; [right; reflexivity|right; exact Hcalls].
    + exists [], calls. cbn. repeat split; [left; reflexivity|right; exact Hcalls].
Qed.

(** X6.  The cache holds the forecast only.  A request that is served
    from the cached payload still runs the warnings path: in
    [api/index.py], when [KNMI_API_KEY] is set, its first call is the
    listing with that key; in [main.py] its first call is the listing with
    the literal of the source. *)
Theorem cache_hit_still_fetches_warnings
    (day : Z) (event : json) (day_index : Z) (s : store) :
  refetch_due w s = false ->
  day_index_of rt event = Ok day_index ->
  (getenv w "KNMI_API_KEY" EmptyString <> EmptyString ->
   exists rest,
     trace (snd (get_weather rt w day s)) =
       trace s ++ GetFiles (getenv w "KNMI_API_KEY" EmptyString) :: rest) /\
  (exists rest,
     trace (snd (lambda_handler rt w event s)) =
       trace s ++ GetFiles "KNMI_API_KEY_HIER" :: rest).
Proof.
  intros Hdue Hd. split.
  - intros Hkey.
    destruct (get_weather_run rt w day) as (ws & calls & _ & Hw & Hrun).
    rewrite Hrun, Hdue. cbn.
    destruct (web_warnings_calls ws calls Hw) as [(Hk & _)|(_ & [->|(url & ->)])];
      [contradiction| |]; eexists; reflexivity.
  - rewrite (lambda_handler_run rt w event day_index s Hd).
    destruct (handle_day_run rt w day_index) as (ws & calls & _ & Hw & Hrun).
    rewrite Hrun, Hdue. cbn.
    destruct (lambda_warnings_calls ws calls Hw) as [->|(url & ->)];
      eexists; reflexivity.
Qed.

End Calls.

Lemma first_download_failure_stops_the_request_witness :
  get_weather (runtime_with []) (outage_at 5000) 0 initial_store
    = (Raise (HTTPException 500 "Weather fetch failed"),
       Store JNull 0 ([] ++ [GetForecast])) /\
  lambda_handler (runtime_with []) (outage_at 5000) (dict []) initial_store
    = (Ok {| statusCode := 500; body := error_body "Weather fetch failed" |},
       Store JNull 0 ([] ++ [GetForecast])).
Proof.
  split.
  - apply (proj1 (first_download_failure_stops_the_request (runtime_with [])
                    (outage_at 5000) 0 (dict []) 0 initial_store eq_refl
                    ltac:(vm_compute; reflexivity))
             RequestException).
    reflexivity.
  - apply (proj2 (first_download_failure_stops_the_request (runtime_with [])
                    (outage_at 5000) 0 (dict []) 0 initial_store eq_refl
                    ltac:(vm_compute; reflexivity))
             RequestException).
    reflexivity.
Defined.

Lemma cache_hit_still_fetches_warnings_witness :
  (exists rest,
     trace (snd (get_weather (runtime_with []) (listing_world with_key None) 0
                   cached_store))
     = [] ++ GetFiles (getenv (listing_world with_key None) "KNMI_API_KEY" EmptyString)
               :: rest) /\
  (exists rest,
     trace (snd (lambda_handler (runtime_with []) (listing_world with_key None)
                   (dict []) cached_store))
     = [] ++ GetFiles "KNMI_API_KEY_HIER" :: rest).
Proof.
  split.
  - apply (proj1 (cache_hit_still_fetches_warnings (runtime_with [])
                    (listing_world with_key None) 0 (dict []) 0 cached_store
                    ltac:(vm_compute; reflexivity) ltac:(vm_compute; reflexivity))).
    vm_compute. discriminate.
  - apply (proj2 (cache_hit_still_fetches_warnings (runtime_with [])
                    (listing_world with_key None) 0 (dict []) 0 cached_store
                    ltac:(vm_compute; reflexivity) ltac:(vm_compute; reflexivity))).
Defined.

(** ** The cache across requests *)

Section TwoRequests.

Context (rt : Runtime) (w w' : World).

Lemma refetch_not_due (payload : json) (t : list upstream_call) :
  is_None payload = false ->
  (time_time w' - time_time w <= 120)%Q ->
  refetch_due w' (Store payload (time_time w) t) = false.
Proof.
  intros Hp Hage. unfold refetch_due, Qlt_bool, CACHE_TTL. simpl. rewrite Hp. simpl.
  apply negb_false_iff. apply Qle_bool_iff. exact Hage.
Qed.

(** X7.  After a request that downloaded a payload (anything but
    [None]), a second request whose clock reads at most 120 seconds more
    makes no forecast call and is answered from that same payload,
    whatever the state of the forecast provider by then.  The payload is
    stored before it is mapped, so this holds whether or not the mapper
    accepts it. *)
Theorem second_request_is_served_from_cache
    (day day' : Z) (event event' : json) (d d' : Z) (payload : json) (s : store) :
  refetch_due w s = true ->
  is_None payload = false ->
  (time_time w' - time_time w <= 120)%Q ->
  day_index_of rt event = Ok d ->
  day_index_of rt event' = Ok d' ->
  (web_fetch w = Ok payload ->
     exists ws' calls',
       ~ In GetForecast calls' /\
       get_weather rt w' day' (snd (get_weather rt w day s)) =
         (web_response rt payload day' ws',
          with_calls (snd (get_weather rt w day s)) calls')) /\
  (lambda_fetch w = Ok payload ->
     exists ws' calls',
       ~ In GetForecast calls' /\
       lambda_handler rt w' event' (snd (lambda_handler rt w event s)) =
         (Ok (lambda_reply rt payload d' ws'),
          with_calls (snd (lambda_handler rt w event s)) calls')).
Proof.
  intros Hdue Hp Hage Hd Hd'. split; intros Hfetch.
  - destruct (get_weather_run rt w day) as (ws & calls & _ & _ & Hrun).
    destruct (get_weather_run rt w' day') as (ws' & calls' & Hcalls' & _ & Hrun').
    rewrite Hrun, Hdue, Hfetch. cbn [snd]. rewrite Hrun'. unfold refreshed.
    rewrite (refetch_not_due payload _ Hp Hage).
    exists ws', calls'. split; [|reflexivity].
    apply warnings_calls_exclude_forecast. exact Hcalls'.
  - rewrite (lambda_handler_run rt w event d s Hd).
    destruct (handle_day_run rt w d) as (ws & calls & _ & _ & Hrun).
    destruct (handle_day_run rt w' d') as (ws' & calls' & Hcalls' & _ & Hrun').
    rewrite Hrun, Hdue, Hfetch. cbn [snd].
    rewrite (lambda_handler_run rt w' event' d' _ Hd'), Hrun'. unfold refreshed.
    rewrite (refetch_not_due payload _ Hp Hage).
    exists ws', calls'. split; [|reflexivity].
    apply warnings_calls_exclude_forecast. exact Hcalls'.
Qed.

(** X8.  [main.py] does not look at the status of the forecast reply.
    When the provider answers with an error status (400 to 599) and a JSON
    object without ["daily"], [lambda_handler] stores that object as the
    cached payload, answers 500 with the text of the [KeyError], and
    answers every request of the next 120 seconds with the same 500
    without calling the provider again.  On the same reply
    [api/index.py], which calls [raise_for_status], leaves the globals as
    they were. *)
Theorem lambda_caches_an_error_reply
    (r : http_response) (m : gmap string json)
    (day : Z) (event event' : json) (d d' : Z) (s : store) :
  forecast_reply w = Some r ->
  (400 <=? status r) && (status r <? 600) = true ->
  json_body r = Some (JObj m) ->
  m !! "daily" = None ->
  refetch_due w s = true ->
  (time_time w' - time_time w <= 120)%Q ->
  day_index_of rt event = Ok d ->
  day_index_of rt event' = Ok d' ->
  (fst (lambda_handler rt w event s) =
     Ok {| statusCode := 500; body := error_body (str_of_exn rt KeyError) |} /\
   data_cache (snd (lambda_handler rt w event s)) = JObj m /\
   last_loaded (snd (lambda_handler rt w event s)) = time_time w /\
   exists calls',
     ~ In GetForecast calls' /\
     lambda_handler rt w' event' (snd (lambda_handler rt w event s)) =
       (Ok {| statusCode := 500; body := error_body (str_of_exn rt KeyError) |},
        with_calls (snd (lambda_handler rt w event s)) calls')) /\
  (data_cache (snd (get_weather rt w day s)) = data_cache s /\
   last_loaded (snd (get_weather rt w day s)) = last_loaded s).
Proof.
  intros Hr Hstatus Hbody Hdaily Hdue Hage Hd Hd'.
  assert (Hfrom : forall i, from_api (JObj m) i = Raise KeyError).
  { intros i. unfold from_api. simpl. rewrite Hdaily. reflexivity. }
  assert (Hlam : lambda_fetch w = Ok (JObj m)).
  { unfold lambda_fetch, response_json. rewrite Hr, Hbody. reflexivity. }
  assert (Hweb : web_fetch w = Raise HTTPError).
  { unfold web_fetch, raise_for_status. rewrite Hr, Hstatus. reflexivity. }
  split.
  - rewrite (lambda_handler_run rt w event d s Hd).
    destruct (handle_day_run rt w d) as (ws & calls & _ & _ & Hrun).
    destruct (handle_day_run rt w' d') as (ws' & calls' & Hcalls' & _ & Hrun').
    rewrite Hrun, Hdue, Hlam. cbn [fst snd].
    rewrite (lambda_reply_raise rt _ _ _ _ (Hfrom d) eq_refl).
    repeat split.
    exists calls'. split; [apply warnings_calls_exclude_forecast; exact Hcalls'|].
    rewrite (lambda_handler_run rt w' event' d' _ Hd'), Hrun'. unfold refreshed.
    rewrite (refetch_not_due (JObj m) _ eq_refl Hage).
    rewrite (lambda_reply_raise rt _ _ _ _ (Hfrom d') eq_refl). reflexivity.
  - destruct (get_weather_run rt w day) as (ws & calls & _ & _ & Hrun).
    rewrite Hrun, Hdue, Hweb.
    destruct (is_None (data_cache s)); split; reflexivity.
Qed.

(** X9.  When the forecast provider answers with the JSON value [null],
    the download counts as a success: [None] replaces whatever payload
    was cached, the request is answered 500 with the text of the
    [TypeError] of [None["daily"]], and, [None] being the mark of an
    empty cache, the next request calls the provider again however soon
    it comes. *)
Theorem null_payload_is_never_a_cache_hit
    (day day' : Z) (event event' : json) (d d' : Z) (s : store) :
  refetch_due w s = true ->
  day_index_of rt event = Ok d ->
  day_index_of rt event' = Ok d' ->
  (web_fetch w = Ok JNull ->
     fst (get_weather rt w day s) =
       Raise (HTTPException 500 (str_of_exn rt TypeError)) /\
     data_cache (snd (get_weather rt w day s)) = JNull /\
     exists calls',
       trace (snd (get_weather rt w' day' (snd (get_weather rt w day s)))) =
         trace (snd (get_weather rt w day s)) ++ GetForecast :: calls') /\
  (lambda_fetch w = Ok JNull ->
     fst (lambda_handler rt w event s) =
       Ok {| statusCode := 500; body := error_body (str_of_exn rt TypeError) |} /\
     data_cache (snd (lambda_handler rt w event s)) = JNull /\
     exists calls',
       trace (snd (lambda_handler rt w' event' (snd (lambda_handler rt w event s)))) =
         trace (snd (lambda_handler rt w event s)) ++ GetForecast :: calls').
Proof.
  intros Hdue Hd Hd'. split; intros Hfetch.
  - destruct (get_weather_run rt w day) as (ws & calls & _ & _ & Hrun).
    destruct (get_weather_run rt w' day') as (ws' & calls' & _ & _ & Hrun').
    rewrite Hrun, Hdue, Hfetch. cbn [fst snd].
    split; [reflexivity|]. split; [reflexivity|].
    rewrite Hrun'. unfold refreshed, refetch_due. cbn.
    destruct (web_fetch w'); eexists; reflexivity.
  - rewrite (lambda_handler_run rt w event d s Hd).
    destruct (handle_day_run rt w d) as (ws & calls & _ & _ & Hrun).
    destruct (handle_day_run rt w' d') as (ws' & calls' & _ & _ & Hrun').
    rewrite Hrun, Hdue, Hfetch. cbn [fst snd].
    split; [reflexivity|]. split; [reflexivity|].
    rewrite (lambda_handler_run rt w' event' d' _ Hd'), Hrun'.
    unfold refreshed, refetch_due. cbn.
    destruct (lambda_fetch w'); eexists; reflexivity.
Qed.

End TwoRequests.

(** X10.  A filled cache stays filled: unless the provider answers with
    the JSON value [null], a request that starts with a payload in
    [data_cache] ends with one, in both shells. *)
Theorem warm_cache_stays_warm
    (rt : Runtime) (w : World) (day : Z) (event : json) (s : store) :
  is_None (data_cache s) = false ->
  ((forall p, web_fetch w = Ok p -> is_None p = false) ->
   is_None (data_cache (snd (get_weather rt w day s))) = false) /\
  ((forall p, lambda_fetch w = Ok p -> is_None p = false) ->
   is_None (data_cache (snd (lambda_handler rt w event s))) = false).
Proof.
  intros Hwarm. split; intros Hfetch.
  - destruct (get_weather_globals rt w day s) as [[-> _]|[Hnew _]];
      [exact Hwarm|exact (Hfetch _ Hnew)].
  - destruct (lambda_handler_globals rt w event s) as [[-> _]|[Hnew _]];
      [exact Hwarm|exact (Hfetch _ Hnew)].
Qed.

Lemma second_request_is_served_from_cache_witness :
  exists ws' calls',
    ~ In GetForecast calls' /\
    get_weather (runtime_with []) (outage_at 1120) 1
      (snd (get_weather (runtime_with [])
              (forecast_world 1000 (Some (ok_reply example_payload))) 0
              initial_store)) =
      (web_response (runtime_with []) example_payload 1 ws',
       with_calls (snd (get_weather (runtime_with [])
                          (forecast_world 1000 (Some (ok_reply example_payload))) 0
                          initial_store)) calls').
Proof.
  apply (proj1 (second_request_is_served_from_cache (runtime_with [])
                  (forecast_world 1000 (Some (ok_reply example_payload)))
                  (outage_at 1120) 0 1 (dict []) (dict []) 0 0 example_payload
                  initial_store eq_refl eq_refl
                  ltac:(vm_compute; discriminate)
                  ltac:(vm_compute; reflexivity) ltac:(vm_compute; reflexivity))).
  reflexivity.
Defined.

Lemma lambda_caches_an_error_reply_witness :
  fst (lambda_handler (runtime_with []) (forecast_world 1000 (Some error_reply))
         (dict []) initial_store)
    = Ok {| statusCode := 500;
            body := error_body (str_of_exn (runtime_with []) KeyError) |} /\
  data_cache (snd (lambda_handler (runtime_with [])
                     (forecast_world 1000 (Some error_reply)) (dict [])
                     initial_store))
    = dict [("error", JBool true); ("reason", JStr "Invalid model")] /\
  data_cache (snd (get_weather (runtime_with [])
                     (forecast_world 1000 (Some error_reply)) 0 initial_store))
    = JNull.
Proof.
  destruct (lambda_caches_an_error_reply (runtime_with [])
              (forecast_world 1000 (Some error_reply)) (outage_at 1060)
              error_reply
              (list_to_map [("error", JBool true); ("reason", JStr "Invalid model")])
              0 (dict []) (dict []) 0 0 initial_store
              eq_refl eq_refl eq_refl ltac:(vm_compute; reflexivity) eq_refl
              ltac:(vm_compute; discriminate)
              ltac:(vm_compute; reflexivity) ltac:(vm_compute; reflexivity))
    as ((Hreply & Hcache & _) & (Hweb & _)).
  split; [exact Hreply|]. split; [exact Hcache|exact Hweb].
Defined.

Lemma null_payload_is_never_a_cache_hit_witness :
  fst (get_weather (runtime_with []) (forecast_world 5000 (Some (ok_reply JNull))) 0
         cached_store)
    = Raise (HTTPException 500 (str_of_exn (runtime_with []) TypeError)) /\
  data_cache (snd (get_weather (runtime_with [])
                     (forecast_world 5000 (Some (ok_reply JNull))) 0 cached_store))
    = JNull.
Proof.
  destruct (proj1 (null_payload_is_never_a_cache_hit (runtime_with [])
                     (forecast_world 5000 (Some (ok_reply JNull))) (outage_at 5001)
                     0 0 (dict []) (dict []) 0 0 cached_store
                     ltac:(vm_compute; reflexivity)
                     ltac:(vm_compute; reflexivity) ltac:(vm_compute; reflexivity))
              eq_refl)
    as (Hreply & Hcache & _).
  split; [exact Hreply|exact Hcache].
Defined.

Lemma warm_cache_stays_warm_witness :
  is_None (data_cache (snd (get_weather (runtime_with []) (outage_at 5000) 0
                              cached_store))) = false.
Proof.
  apply (proj1 (warm_cache_stays_warm (runtime_with []) (outage_at 5000) 0 (dict [])
                  cached_store eq_refl)).
  intros p Hp. vm_compute in Hp. discriminate.
Defined.


(** ** Payloads the mapper does not accept *)

Lemma result_bind_Ok {A B : Type} (r : result A) (f : A -> result B) (b : B) :
  r ≫= f = Ok b -> exists a, r = Ok a /\ f a = Ok b.
Proof.
  destruct r as [a|e]; simpl; intros H; [|discriminate].
  exists a. split; [reflexivity|exact H].
Qed.

(** When [from_api] returns, each of the eleven lookups has returned,
    with the value of the attribute it fills. *)
Lemma from_api_Ok_fields (response : json) (index : Z) (api : RoadCastApiResponse) :
  from_api response index = Ok api ->
  exists daily,
    getitem_str response "daily" = Ok daily /\
    forall key, In key tracked_fields ->
      exists v, get_val daily index key = Ok v /\ output_of key api = Some v.
Proof.
  intros H. unfold from_api in H.
  apply result_bind_Ok in H. destruct H as (daily & Hdaily & H).
  exists daily. split; [exact Hdaily|].
  repeat (apply result_bind_Ok in H; destruct H as (? & ? & H)).
  injection H as <-.
  intros key Hkey. simpl in Hkey.
  repeat (destruct Hkey as [<-|Hkey]; [eexists; split; [eassumption|reflexivity]|]).
  contradiction.
Qed.

(** [from_api] raises as soon as one of the eleven lookups does. *)
Lemma from_api_field_raises (response daily : json) (index : Z) (key : string) (e : exn) :
  getitem_str response "daily" = Ok daily ->
  In key tracked_fields ->
  get_val daily index key = Raise e ->
  exists e', from_api response index = Raise e'.
Proof.
  intros Hdaily Hkey Hraise.
  destruct (from_api response index) as [api|e'] eqn:Hfrom; [|exists e'; reflexivity].
  exfalso.
  destruct (from_api_Ok_fields response index api Hfrom) as (daily' & Hdaily' & Hall).
  assert (daily' = daily) as -> by congruence.
  destruct (Hall key Hkey) as (v & Hv & _). congruence.
Qed.

(** and returns when all of them do. *)
Lemma from_api_fields_return (response daily : json) (index : Z) :
  getitem_str response "daily" = Ok daily ->
  (forall key, In key tracked_fields -> exists v, get_val daily index key = Ok v) ->
  exists api, from_api response index = Ok api /\
    forall key v, In key tracked_fields -> get_val daily index key = Ok v ->
                  output_of key api = Some v.
Proof.
  intros Hdaily Hall.
  destruct (from_api response index) as [api|e] eqn:Hfrom.
  - exists api. split; [reflexivity|].
    destruct (from_api_Ok_fields response index api Hfrom) as (daily' & Hdaily' & Hout).
    assert (daily' = daily) as -> by congruence.
    intros key v Hkey Hv. destruct (Hout key Hkey) as (v' & Hv' & Ho). congruence.
  - exfalso. unfold from_api in Hfrom. rewrite Hdaily in Hfrom. simpl in Hfrom.
    repeat (apply result_bind_Raise in Hfrom;
            destruct Hfrom as [Hfrom|(? & _ & Hfrom)];
            [match type of Hfrom with
             | get_val _ _ ?k = _ =>
                 destruct (Hall k) as [? ?]; [simpl; tauto|congruence]
             end|]).
    discriminate.
Qed.

Lemma from_api_raises_in_a_field (response : json) (index : Z) (e : exn) :
  from_api response index = Raise e ->
  getitem_str response "daily" = Raise e \/
  exists daily key, getitem_str response "daily" = Ok daily /\
                    In key tracked_fields /\ get_val daily index key = Raise e.
Proof.
  intros H. unfold from_api in H.
  apply result_bind_Raise in H.
  destruct H as [H|(daily & Hdaily & H)]; [left; exact H|].
  right. exists daily.
  repeat (apply result_bind_Raise in H;
          destruct H as [H|(? & _ & H)];
          [eexists; split; [exact Hdaily|]; split; [|exact H]; simpl; tauto|]).
  discriminate.
Qed.

(** [get_val] at a negative index: Python counts from the end of the
    list, and an absent field is the empty list. *)
Lemma get_val_negative (daily : gmap string json) (index : Z) (key : string)
    (seq : list json) :
  index < 0 ->
  field_sequence daily key = Some seq ->
  (- index <= Z.of_nat (List.length seq) ->
     exists v, from_the_end seq index = Some v /\
               get_val (JObj daily) index key = Ok v) /\
  (Z.of_nat (List.length seq) < - index ->
     get_val (JObj daily) index key = Raise IndexError).
Proof.
  intros Hneg Hseq. unfold field_sequence in Hseq. unfold get_val. simpl.
  assert (Hval : (match daily !! key with Some v => v | None => JArr [] end)
                 = JArr seq).
  { destruct (daily !! key) as [[]|]; congruence. }
  rewrite Hval. simpl.
  assert ((index <? Z.of_nat (List.length seq)) = true) as -> by (apply Z.ltb_lt; lia).
  unfold list_getitem, normalize_index, from_the_end.
  assert ((index <? 0) = true) as -> by (apply Z.ltb_lt; lia).
  assert ((index + Z.of_nat (List.length seq) <? Z.of_nat (List.length seq)) = true)
    as -> by (apply Z.ltb_lt; lia).
  rewrite andb_true_r.
  replace (Z.of_nat (List.length seq) + index)
    with (index + Z.of_nat (List.length seq)) by lia.
  split; intros Hlen.
  - assert ((0 <=? index + Z.of_nat (List.length seq)) = true) as ->
      by (apply Z.leb_le; lia).
    destruct (seq !! Z.to_nat (index + Z.of_nat (List.length seq))) as [v|] eqn:Hv.
    + exists v. split; reflexivity.
    + apply lookup_ge_None in Hv. lia.
  - assert ((0 <=? index + Z.of_nat (List.length seq)) = false) as ->
      by (apply Z.leb_gt; lia).
    reflexivity.
Qed.

(** X11.  Which series feeds which key of the body.  Whenever the mapper
    returns, for each of the eleven pairs (upstream series, output key),
    from [("temperature_2m_min", "min_temp")] to
    [("wind_gusts_10m_max", "wind_gusts")], the body that [to_dict]
    builds holds under the output key the value [get_val] returned for
    the series; and under ["warnings"] it holds the list of warnings
    passed in, the empty list when [None] was passed. *)
Theorem body_fields_come_from_their_series
    (response : json) (index : Z) (ws : option (list json))
    (api : RoadCastApiResponse) :
  weather_response_mapper response index ws = Ok api ->
  exists daily,
    getitem_str response "daily" = Ok daily /\
    (forall series key, In (series, key) series_and_keys ->
       exists v, get_val daily index series = Ok v /\
                 getitem_str (to_dict api) key = Ok v) /\
    getitem_str (to_dict api) "warnings" = Ok (JArr (or_empty ws)).
Proof.
  unfold weather_response_mapper. intros Hmap.
  destruct (from_api response index) as [api0|] eqn:Hfrom; [|discriminate].
  simpl in Hmap. injection Hmap as <-.
  destruct (from_api_Ok_fields response index api0 Hfrom) as (daily & Hdaily & Hall).
  exists daily. split; [exact Hdaily|]. split; [|vm_compute; reflexivity].
  intros series key Hin. simpl in Hin.
  repeat (destruct Hin as [[= <- <-]|Hin];
          [match goal with
           | |- exists v, get_val _ _ ?k = _ /\ _ =>
               destruct (Hall k) as (v & Hv & Hout); [simpl; tauto|];
               exists v; split; [exact Hv|];
               vm_compute in Hout; vm_compute; congruence
           end|]).
  contradiction.
Qed.

Lemma body_fields_come_from_their_series_witness :
  exists daily,
    getitem_str example_payload "daily" = Ok daily /\
    (forall series key, In (series, key) series_and_keys ->
       exists v, get_val daily 1 series = Ok v /\
                 getitem_str
                   (to_dict (init (JFloat 3.4) JNull JNull JNull JNull JNull JNull
                               JNull JNull JNull JNull None)) key = Ok v) /\
    getitem_str
      (to_dict (init (JFloat 3.4) JNull JNull JNull JNull JNull JNull
                  JNull JNull JNull JNull None)) "warnings" = Ok (JArr (or_empty None)).
Proof.
  apply (body_fields_come_from_their_series example_payload 1 None).
  vm_compute. reflexivity.
Defined.

Section Fresh.

Context (rt : Runtime) (w : World).

(** The reply to a request that downloads [payload]. *)
Lemma get_weather_fresh (day : Z) (payload : json) (s : store) :
  refetch_due w s = true -> web_fetch w = Ok payload ->
  exists ws, fst (get_weather rt w day s) = web_response rt payload day ws.
Proof.
  intros Hdue Hfetch.
  destruct (get_weather_run rt w day) as (ws & calls & _ & _ & Hrun).
  exists ws. rewrite Hrun, Hdue, Hfetch. reflexivity.
Qed.

Lemma lambda_handler_fresh (event : json) (d : Z) (payload : json) (s : store) :
  day_index_of rt event = Ok d ->
  refetch_due w s = true -> lambda_fetch w = Ok payload ->
  exists ws, fst (lambda_handler rt w event s) = Ok (lambda_reply rt payload d ws).
Proof.
  intros Hd Hdue Hfetch.
  rewrite (lambda_handler_run rt w event d s Hd).
  destruct (handle_day_run rt w d) as (ws & calls & _ & _ & Hrun).
  exists ws. rewrite Hrun, Hdue, Hfetch. reflexivity.
Qed.

(** X12.  [get_weather] called with a negative day (the route's
    [Query(ge=0)] rejects such a request before the call; [lambda_handler]
    replaces a negative day by 0).  On a payload whose tracked series are
    lists or absent, Python's negative subscript counts from the end:
    when every series, absent ones counting as empty, has at least
    [-index] values, each output is the value [-index] places from the
    end of its series; when some series is shorter, [from_api] raises
    [IndexError] and [get_weather] raises
    [HTTPException(400, "Day index out of range")]. *)
Theorem negative_day_counts_from_the_end
    (response : json) (daily : gmap string json) (index : Z) (s : store) :
  index < 0 ->
  getitem_str response "daily" = Ok (JObj daily) ->
  (forall key, In key tracked_fields ->
     exists seq, field_sequence daily key = Some seq) ->
  ((forall key seq, In key tracked_fields -> field_sequence daily key = Some seq ->
      - index <= Z.of_nat (List.length seq)) ->
   exists api,
     from_api response index = Ok api /\
     forall key seq, In key tracked_fields -> field_sequence daily key = Some seq ->
       exists v, from_the_end seq index = Some v /\ output_of key api = Some v) /\
  (forall key seq, In key tracked_fields -> field_sequence daily key = Some seq ->
     Z.of_nat (List.length seq) < - index ->
     from_api response index = Raise IndexError /\
     (refetch_due w s = true -> web_fetch w = Ok response ->
      fst (get_weather rt w index s) =
        Raise (HTTPException 400 "Day index out of range"))).
Proof.
  intros Hneg Hdaily Hwf. split.
  - intros Hlong.
    destruct (from_api_fields_return response (JObj daily) index Hdaily)
      as (api & Hapi & Hout).
    { intros key Hkey. destruct (Hwf key Hkey) as [seq Hseq].
      destruct (proj1 (get_val_negative daily index key seq Hneg Hseq)
                  (Hlong key seq Hkey Hseq)) as (v & _ & Hv).
      exists v. exact Hv. }
    exists api. split; [exact Hapi|].
    intros key seq Hkey Hseq.
    destruct (proj1 (get_val_negative daily index key seq Hneg Hseq)
                (Hlong key seq Hkey Hseq)) as (v & Hend & Hv).
    exists v. split; [exact Hend|]. exact (Hout key v Hkey Hv).
  - intros key seq Hkey Hseq Hshort.
    pose proof (proj2 (get_val_negative daily index key seq Hneg Hseq) Hshort)
      as Hraise.
    destruct (from_api_field_raises response (JObj daily) index key IndexError
                Hdaily Hkey Hraise) as [e He].
    assert (e = IndexError) as ->.
    { destruct (from_api_raises_in_a_field response index e He)
        as [Habs|(daily' & key' & Hd' & Hkey' & He')]; [congruence|].
      assert (daily' = JObj daily) as -> by congruence.
      destruct (Hwf key' Hkey') as [seq' Hseq'].
      destruct (Z.le_gt_cases (- index) (Z.of_nat (List.length seq'))) as [Hle|Hgt].
      - destruct (proj1 (get_val_negative daily index key' seq' Hneg Hseq') Hle)
          as (v & _ & Hv). congruence.
      - pose proof (proj2 (get_val_negative daily index key' seq' Hneg Hseq') Hgt).
        congruence. }
    split; [exact He|].
    intros Hdue Hfetch.
    destruct (get_weather_fresh index response s Hdue Hfetch) as [ws ->].
    unfold web_response, weather_response_mapper. rewrite He. reflexivity.
Qed.

(** X13.  A downloaded payload that is not a dict, that has no
    ["daily"], or whose ["daily"] is not a dict makes [from_api] raise
    before any series is read ([TypeError], [KeyError], [AttributeError]
    respectively), at every day index.  The request that downloaded it is
    answered 500 with the text of that exception: as the detail of the
    [HTTPException] in [api/index.py], under ["error"] in [main.py]. *)
Theorem payload_without_daily_is_answered_500
    (day : Z) (event : json) (d : Z) (payload : json) (e : exn) (s : store) :
  daily_defect payload = Some e ->
  refetch_due w s = true ->
  day_index_of rt event = Ok d ->
  from_api payload day = Raise e /\
  (web_fetch w = Ok payload ->
     fst (get_weather rt w day s) = Raise (HTTPException 500 (str_of_exn rt e))) /\
  (lambda_fetch w = Ok payload ->
     fst (lambda_handler rt w event s) =
       Ok {| statusCode := 500; body := error_body (str_of_exn rt e) |}).
Proof.
  intros Hdefect Hdue Hd.
  assert (Hfrom : forall i, from_api payload i = Raise e /\ is_IndexError e = false).
  { intros i. unfold daily_defect in Hdefect. unfold from_api.
    destruct payload as [| | | | | | |m]; simpl;
      try (injection Hdefect as <-; split; reflexivity).
    destruct (m !! "daily") as [daily|]; simpl.
    - destruct daily; try discriminate; injection Hdefect as <-; split; reflexivity.
    - injection Hdefect as <-. split; reflexivity. }
  split; [exact (proj1 (Hfrom day))|]. split; intros Hfetch.
  - destruct (get_weather_fresh day payload s Hdue Hfetch) as [ws ->].
    apply web_response_raise; apply (Hfrom day).
  - destruct (lambda_handler_fresh event d payload s Hd Hdue Hfetch) as [ws ->].
    f_equal. apply lambda_reply_raise; apply (Hfrom d).
Qed.

(** X14.  A series that is present but holds [null], a [bool] or a
    number is not treated like an absent one: [len] raises [TypeError] in
    [get_val], so [from_api] raises and the request that downloaded the
    payload is answered 500, with the text of the exception raised, in
    both shells. *)
Theorem scalar_field_fails_the_request
    (day : Z) (event : json) (d : Z) (payload : json) (daily : gmap string json)
    (key : string) (v : json) (s : store) :
  0 <= day ->
  getitem_str payload "daily" = Ok (JObj daily) ->
  In key tracked_fields ->
  daily !! key = Some v ->
  is_scalar v = true ->
  refetch_due w s = true ->
  day_index_of rt event = Ok d ->
  get_val (JObj daily) day key = Raise TypeError /\
  (exists e, from_api payload day = Raise e /\
     (web_fetch w = Ok payload ->
        fst (get_weather rt w day s) = Raise (HTTPException 500 (str_of_exn rt e)))) /\
  (exists e, from_api payload d = Raise e /\
     (lambda_fetch w = Ok payload ->
        fst (lambda_handler rt w event s) =
          Ok {| statusCode := 500; body := error_body (str_of_exn rt e) |})).
Proof.
  intros Hday Hdaily Hkey Hv Hscalar Hdue Hd.
  assert (Hget : forall i, get_val (JObj daily) i key = Raise TypeError).
  { intros i. unfold get_val. simpl. rewrite Hv.
    destruct v; try discriminate; reflexivity. }
  assert (Hfrom : forall i, 0 <= i ->
            exists e, from_api payload i = Raise e /\ is_IndexError e = false).
  { intros i Hi.
    destruct (from_api_field_raises payload (JObj daily) i key TypeError
                Hdaily Hkey (Hget i)) as [e He].
    exists e. split; [exact He|].
    pose proof (from_api_no_IndexError payload i Hi) as Hno.
    destruct e; try reflexivity. congruence. }
  split; [apply Hget|]. split.
  - destruct (Hfrom day Hday) as (e & He & Hidx).
    exists e. split; [exact He|]. intros Hfetch.
    destruct (get_weather_fresh day payload s Hdue Hfetch) as [ws ->].
    apply web_response_raise; assumption.
  - destruct (Hfrom d (day_index_of_nonneg rt event d Hd)) as (e & He & Hidx).
    exists e. split; [exact He|]. intros Hfetch.
    destruct (lambda_handler_fresh event d payload s Hd Hdue Hfetch) as [ws ->].
    f_equal. apply lambda_reply_raise; assumption.
Qed.

End Fresh.

Lemma example_payload_sequences (key : string) :
  In key tracked_fields ->
  exists seq,
    field_sequence
      (list_to_map [("temperature_2m_min", JArr [JFloat 2.1; JFloat 3.4])]) key
    = Some seq.
Proof.
  intros Hk. simpl in Hk.
  repeat (destruct Hk as [<-|Hk]; [eexists; vm_compute; reflexivity|]).
  contradiction.
Qed.

Lemma negative_day_counts_from_the_end_witness :
  from_api example_payload (-1) = Raise IndexError /\
  fst (get_weather (runtime_with [])
         (forecast_world 1000 (Some (ok_reply example_payload))) (-1) initial_store)
    = Raise (HTTPException 400 "Day index out of range").
Proof.
  destruct (proj2 (negative_day_counts_from_the_end (runtime_with [])
                     (forecast_world 1000 (Some (ok_reply example_payload)))
                     example_payload
                     (list_to_map [("temperature_2m_min", JArr [JFloat 2.1; JFloat 3.4])])
                     (-1) initial_store ltac:(lia) eq_refl example_payload_sequences)
              "sunrise" [] ltac:(simpl; tauto) ltac:(vm_compute; reflexivity)
              ltac:(simpl; lia))
    as (Hfrom & Hweb).
  split; [exact Hfrom|]. apply Hweb; reflexivity.
Defined.

Lemma payload_without_daily_is_answered_500_witness :
  from_api (dict [("error", JBool true); ("reason", JStr "Invalid model")]) 0
    = Raise KeyError /\
  fst (lambda_handler (runtime_with []) (forecast_world 1000 (Some error_reply))
         (dict []) initial_store)
    = Ok {| statusCode := 500;
            body := error_body (str_of_exn (runtime_with []) KeyError) |}.
Proof.
  destruct (payload_without_daily_is_answered_500 (runtime_with [])
              (forecast_world 1000 (Some error_reply)) 0 (dict []) 0
              (dict [("error", JBool true); ("reason", JStr "Invalid model")])
              KeyError initial_store
              ltac:(vm_compute; reflexivity) eq_refl ltac:(vm_compute; reflexivity))
    as (Hfrom & _ & Hlam).
  split; [exact Hfrom|]. apply Hlam. reflexivity.
Defined.

Lemma scalar_field_fails_the_request_witness :
  get_val (dict [("sunrise", JNull)]) 0 "sunrise" = Raise TypeError /\
  exists e,
    from_api null_series_payload 0 = Raise e /\
    fst (get_weather (runtime_with [])
           (forecast_world 1000 (Some (ok_reply null_series_payload))) 0
           initial_store)
      = Raise (HTTPException 500 (exn_name e)).
Proof.
  destruct (scalar_field_fails_the_request (runtime_with [])
              (forecast_world 1000 (Some (ok_reply null_series_payload)))
              0 (dict []) 0 null_series_payload
              (list_to_map [("sunrise", JNull)]) "sunrise" JNull initial_store
              ltac:(lia) eq_refl ltac:(simpl; tauto) ltac:(vm_compute; reflexivity)
              eq_refl eq_refl ltac:(vm_compute; reflexivity))
    as (Hget & (e & He & Hweb) & _).
  split; [exact Hget|]. exists e. split; [exact He|]. apply Hweb. reflexivity.
Defined.

(** ** The listing of the warnings provider *)

Lemma keyed_raises (key : json -> result json) (items : list json) (f : json) (e : exn) :
  In f items -> key f = Raise e -> exists e', keyed key items = Raise e'.
Proof.
  induction items as [|x r IH]; intros Hin He; [contradiction|].
  simpl. destruct (key x) as [k|e0] eqn:Hx; simpl; [|eexists; reflexivity].
  destruct Hin as [->|Hin]; [congruence|].
  destruct (IH Hin He) as [e' ->]. simpl. eexists. reflexivity.
Qed.

Section Listing.

Context (rt : Runtime) (w : World).

(** X15.  When the listing call is not answered, or is answered with a
    body that is not JSON, with JSON that is not an object, with an
    object that has no ["files"], or with an empty list of files,
    [fetch_knmi_warnings] raises ([RequestException], [JSONDecodeError],
    [TypeError], [KeyError], [IndexError] respectively) having made the
    listing call only, and the handlers' [try] turns this into an empty
    list of warnings.  The same holds, with some exception, when a
    single listed file has no readable ["created"], whatever the other
    files are: no file is downloaded. *)
Theorem unusable_listing_means_no_download (api_key : string) (s : store) :
  (forall e, listing_defect (files_reply w api_key) = Some e ->
     fetch_knmi_warnings w api_key s =
       (Raise e, Store (data_cache s) (last_loaded s) (trace s ++ [GetFiles api_key])) /\
     try_warnings rt w api_key s =
       (Ok [], Store (data_cache s) (last_loaded s) (trace s ++ [GetFiles api_key]))) /\
  (forall r m items f e,
     files_reply w api_key = Some r -> json_body r = Some (JObj m) ->
     m !! "files" = Some (JArr items) ->
     In f items -> getitem_str f "created" = Raise e ->
     exists e',
       fetch_knmi_warnings w api_key s =
         (Raise e', Store (data_cache s) (last_loaded s) (trace s ++ [GetFiles api_key]))).
Proof.
  split.
  - intros e Hdefect.
    assert (Hfetch : fetch_knmi_warnings w api_key s =
              (Raise e, Store (data_cache s) (last_loaded s)
                          (trace s ++ [GetFiles api_key]))).
    { unfold listing_defect in Hdefect.
      unfold fetch_knmi_warnings, requests_get_files, record_call, lift, raise,
        mbind, M_bind, mret, M_ret, response_json.
      destruct (files_reply w api_key) as [r|]; cbn;
        [|injection Hdefect as <-; reflexivity].
      destruct (json_body r) as [j|]; cbn; [|injection Hdefect as <-; reflexivity].
      destruct j as [| | | | | | |m]; cbn; try (injection Hdefect as <-; reflexivity).
      destruct (m !! "files") as [files|]; cbn;
        [|injection Hdefect as <-; reflexivity].
      destruct files as [| | | | | |l|]; try discriminate.
      destruct l; [|discriminate]. injection Hdefect as <-. reflexivity. }
    split; [exact Hfetch|].
    unfold try_warnings, try_except, mbind, M_bind. rewrite Hfetch. reflexivity.
  - intros r m items f e Hr Hbody Hfiles Hin He.
    destruct (keyed_raises (fun f => getitem_str f "created") items f e Hin He)
      as [e' Hkeyed].
    exists e'.
    unfold fetch_knmi_warnings, requests_get_files, record_call, lift, raise,
      mbind, M_bind, mret, M_ret, response_json.
    rewrite Hr. cbn. rewrite Hbody. cbn. rewrite Hfiles. cbn.
    unfold sorted_reverse. rewrite Hkeyed. reflexivity.
Qed.

End Listing.

Lemma unusable_listing_means_no_download_witness :
  fetch_knmi_warnings (listing_world with_key (Some forbidden)) "secret" initial_store
    = (Raise KeyError, Store JNull 0 ([] ++ [GetFiles "secret"])) /\
  try_warnings (runtime_with []) (listing_world with_key (Some forbidden)) "secret"
    initial_store
    = (Ok [], Store JNull 0 ([] ++ [GetFiles "secret"])).
Proof.
  apply (proj1 (unusable_listing_means_no_download (runtime_with [])
                  (listing_world with_key (Some forbidden)) "secret" initial_store)
           KeyError).
  vm_compute. reflexivity.
Defined.

(** *** Files with the same timestamp *)

Lemma insert_desc_head (kx : json * json) (l l' : list (json * json)) :
  str_keyed kx -> Forall str_keyed l ->
  insert_desc kx l = Ok l' ->
  match l with
  | [] => l' = [kx]
  | h :: t =>
      exists c c0, fst kx = JStr c /\ fst h = JStr c0 /\
        ((String.ltb c c0 = true /\ exists t', l' = h :: t') \/
         (String.ltb c c0 = false /\ l' = kx :: h :: t))
  end.
Proof.
  intros [c Hc] Hl Hins. destruct l as [|h t].
  - simpl in Hins. congruence.
  - inversion Hl as [|? ? [c0 Hc0] Ht]; subst.
    exists c, c0. split; [exact Hc|]. split; [exact Hc0|].
    simpl in Hins. rewrite Hc, Hc0 in Hins. simpl in Hins.
    destruct (String.ltb c c0).
    + left. split; [reflexivity|].
      destruct (insert_desc kx t) as [t'|]; [|discriminate].
      simpl in Hins. exists t'. congruence.
    + right. split; [reflexivity|]. congruence.
Qed.

(** The head of the sorted list is the first of the entries that carry
    the greatest key. *)
Lemma sort_desc_head (l : list (json * json)) :
  Forall str_keyed l ->
  forall s h t, sort_desc l = Ok s -> s = h :: t -> first_of_the_greatest h l.
Proof.
  induction l as [|kx r IH]; intros Hl s h t Hs Heq.
  - simpl in Hs. congruence.
  - inversion Hl as [|? ? Hkx Hr]; subst.
    destruct (sort_desc_str r Hr) as (s0 & Hs0 & Hin0 & Hstr0 & _).
    simpl in Hs. rewrite Hs0 in Hs. simpl in Hs.
    pose proof (insert_desc_head kx s0 (h :: t) Hkx Hstr0 Hs) as Hhead.
    destruct s0 as [|h0 t0].
    + injection Hhead as -> ->.
      destruct r as [|y r]; [|exfalso; apply (proj2 (Hin0 y)); left; reflexivity].
      destruct Hkx as [c Hc].
      exists c, [], []. split; [reflexivity|]. split; [exact Hc|].
      split; intros y c' [].
    + destruct Hhead as (c & c0 & Hc & Hc0 & [(Hlt & t' & Ht')|(Hlt & Ht')]).
      * injection Ht' as <- _.
        destruct (IH Hr (h :: t0) h t0 Hs0 eq_refl)
          as (ch & pre & post & Hsplit & Hch & Hpre & Hpost).
        assert (ch = c0) as -> by congruence.
        exists c0, (kx :: pre), post. split; [rewrite Hsplit; reflexivity|].
        split; [exact Hc0|]. split; [|exact Hpost].
        intros y c' [<-|Hy] Hyc; [|exact (Hpre y c' Hy Hyc)].
        assert (c' = c) as -> by congruence. exact Hlt.
      * injection Ht' as -> ->.
        destruct (IH Hr (h0 :: t0) h0 t0 Hs0 eq_refl)
          as (ch & pre & post & Hsplit & Hch & Hpre & Hpost).
        assert (ch = c0) as -> by congruence.
        exists c, [], r. split; [reflexivity|]. split; [exact Hc|].
        split; [intros y c' []|].
        intros y c' Hy Hyc.
        apply (string_leb_trans c' c0 c); [|apply string_ltb_false_leb; exact Hlt].
        rewrite Hsplit in Hy. apply in_app_iff in Hy.
        destruct Hy as [Hy|[<-|Hy]].
        -- apply string_ltb_true_leb. exact (Hpre y c' Hy Hyc).
        -- assert (c' = c0) as -> by congruence. apply string_leb_refl.
        -- exact (Hpost y c' Hy Hyc).
Qed.

(** X16.  [sorted(..., reverse=True)] is stable, so among files that
    share the greatest ["created"] the one listed first is the one
    downloaded: the listing splits into the files before the chosen one,
    all with a strictly smaller ["created"], the chosen file, and the
    files after it, none with a greater ["created"]. *)
Theorem first_listed_of_the_newest_is_downloaded
    (w : World) (api_key : string) (r : http_response) (listing : gmap string json)
    (items : list json) (s : store) :
  files_reply w api_key = Some r ->
  json_body r = Some (JObj listing) ->
  listing !! "files" = Some (JArr items) ->
  items <> [] ->
  (forall f, In f items ->
     exists c url, getitem_str f "created" = Ok (JStr c) /\
                   getitem_str f "downloadUrl" = Ok url) ->
  exists before latest after c url,
    items = before ++ latest :: after /\
    getitem_str latest "created" = Ok (JStr c) /\
    getitem_str latest "downloadUrl" = Ok url /\
    (forall f c', In f before -> getitem_str f "created" = Ok (JStr c') ->
                  String.ltb c' c = true) /\
    (forall f c', In f after -> getitem_str f "created" = Ok (JStr c') ->
                  String.leb c' c = true) /\
    trace (snd (fetch_knmi_warnings w api_key s)) =
      trace s ++ [GetFiles api_key; GetDownload url api_key].
Proof.
  intros Hr Hbody Hfiles Hne Hshape.
  destruct (keyed_created items) as (ks & Hks & Hmap & Hstr & Hkey).
  { intros f Hf. destruct (Hshape f Hf) as (c & _ & Hc & _). exists c. exact Hc. }
  destruct (sort_desc_str ks Hstr) as (sorted & Hsorted & Hin & _ & _).
  destruct sorted as [|h t].
  { destruct ks as [|k ks']; [simpl in Hmap; congruence|].
    exfalso. apply (proj2 (Hin k)). left. reflexivity. }
  destruct (sort_desc_head ks Hstr (h :: t) h t Hsorted eq_refl)
    as (c & pre & post & Hsplit & Hc & Hpre & Hpost).
  assert (Hh : In h ks) by (rewrite Hsplit, in_app_iff; right; left; reflexivity).
  assert (Hlatest : In (snd h) items) by (rewrite <- Hmap; apply in_map; exact Hh).
  destruct (Hshape (snd h) Hlatest) as (_ & url & _ & Hurl).
  exists (map snd pre), (snd h), (map snd post), c, url.
  split; [rewrite <- Hmap, Hsplit, map_app; reflexivity|].
  split; [rewrite (Hkey h Hh), Hc; reflexivity|].
  split; [exact Hurl|].
  split; [|split].
  - intros f c' Hf Hfc. apply in_map_iff in Hf. destruct Hf as (y & <- & Hy).
    apply (Hpre y c' Hy).
    assert (Hyk : In y ks) by (rewrite Hsplit, in_app_iff; left; exact Hy).
    pose proof (Hkey y Hyk). congruence.
  - intros f c' Hf Hfc. apply in_map_iff in Hf. destruct Hf as (y & <- & Hy).
    apply (Hpost y c' Hy).
    assert (Hyk : In y ks) by (rewrite Hsplit, in_app_iff; right; right; exact Hy).
    pose proof (Hkey y Hyk). congruence.
  - rewrite (fetch_knmi_warnings_run w api_key r (JObj listing) (JArr items)
               items (map snd (h :: t)) (snd h) url s Hr).
    + reflexivity.
    + unfold response_json. rewrite Hbody. reflexivity.
    + simpl. rewrite Hfiles. reflexivity.
    + reflexivity.
    + unfold sorted_reverse. rewrite Hks. simpl. rewrite Hsorted. reflexivity.
    + reflexivity.
    + exact Hurl.
Qed.

Lemma first_listed_of_the_newest_is_downloaded_witness :
  exists before latest after c url,
    example_files = before ++ latest :: after /\
    getitem_str latest "created" = Ok (JStr c) /\
    getitem_str latest "downloadUrl" = Ok url /\
    (forall f c', In f before -> getitem_str f "created" = Ok (JStr c') ->
                  String.ltb c' c = true) /\
    (forall f c', In f after -> getitem_str f "created" = Ok (JStr c') ->
                  String.leb c' c = true) /\
    trace (snd (fetch_knmi_warnings (listing_world with_key (Some example_listing))
                  "secret" initial_store)) =
      [] ++ [GetFiles "secret"; GetDownload url "secret"].
Proof.
  apply (first_listed_of_the_newest_is_downloaded
           (listing_world with_key (Some example_listing)) "secret"
           example_listing (list_to_map [("files", JArr example_files)])
           example_files initial_store).
  - reflexivity.
  - reflexivity.
  - vm_compute. reflexivity.
  - discriminate.
  - intros f Hf. simpl in Hf.
    repeat (destruct Hf as [<-|Hf];
            [eexists; eexists; split; vm_compute; reflexivity|]).
    contradiction.
Defined.

(** ** What the parser returns *)

Section Parse.

Context (rt : Runtime) (w : World).

Lemma warnings_loop_cases (now_us : Z) (ws : list element) (results : list json) :
  match warnings_loop rt (Datetime now_us (Some 0)) (end_of_tomorrow now_us)
          ws results with
  | Ok l =>
      (forall x, In x ws -> well_timed rt x) /\
      l = results ++ map warning_entry (List.filter (is_active rt now_us) ws)
  | Raise _ => True
  end.
Proof.
  revert results. induction ws as [|x ws IH]; intros results.
  - simpl. split; [intros x []|]. rewrite app_nil_r. reflexivity.
  - simpl. unfold is_active, aware_times, well_timed.
    destruct (fromisoformat rt (findtext x "startTime")) as [[s os]|] eqn:Hstart;
      [|exact I].
    destruct (fromisoformat rt (findtext x "endTime")) as [[e oe]|] eqn:Hend;
      [|exact I].
    simpl. unfold datetime_le, datetime_ge, datetime_cmp. simpl.
    destruct os as [os|]; [|exact I].
    assert (Hx : exists start end_,
              Ok (Datetime s (Some os)) = Ok start /\
              Ok (Datetime e oe) = Ok end_ /\ utcoffset start <> None).
    { eexists. eexists. repeat split. discriminate. }
    assert (Hall' : (forall y, In y ws -> well_timed rt y) ->
              forall y, x = y \/ In y ws ->
              exists start end_,
                fromisoformat rt (findtext y "startTime") = Ok start /\
                fromisoformat rt (findtext y "endTime") = Ok end_ /\
                utcoffset start <> None).
    { intros Hall y [<-|Hy]; [rewrite Hstart, Hend; exact Hx|exact (Hall y Hy)]. }
    destruct oe as [oe|]; simpl; rewrite ?Z.sub_0_r.
    + unfold Z.leb at 1.
      destruct (s - os ?= _) eqn:Hs; simpl;
        try (unfold Z.leb; rewrite (Z.compare_antisym (e - oe) now_us);
             destruct (e - oe ?= now_us); simpl);
        match goal with
        | |- match warnings_loop _ _ _ ws ?r with _ => _ end =>
            specialize (IH r); destruct (warnings_loop _ _ _ ws r) as [l|]; [|exact I]
        end;
        destruct IH as [Hall ->];
        (split; [exact (Hall' Hall)|]);
        rewrite <- ?app_assoc; reflexivity.
    + destruct (s - os ?= _) eqn:Hs; simpl; try exact I.
      specialize (IH results).
      destruct (warnings_loop _ _ _ ws results) as [l|]; [|exact I].
      destruct IH as [Hall ->].
      split; [exact (Hall' Hall)|reflexivity].
Qed.

(** X17.  [parse_knmi_warnings] is all or nothing.  It returns only when
    the text is read as XML and every [warning] element of the document,
    kept or not, has a [startTime] and an [endTime] that
    [datetime.fromisoformat] reads, the start with a UTC offset; a single
    element without one of the two, with an unreadable one, or with a
    start that carries no offset makes the call raise, and the handlers
    then answer with no warning at all.  When it returns, the result is,
    in document order, one [{"color", "type"}] entry for each element
    that passes the test [start <= end_of_tomorrow and end >= now]. *)
Theorem parse_is_all_or_nothing (xml_text : string) (l : list json) :
  parse_knmi_warnings rt w xml_text = Ok l ->
  exists root,
    ET_fromstring rt xml_text = Some root /\
    (forall x, In x (findall_descendant root "warning") -> well_timed rt x) /\
    l = map warning_entry
          (List.filter (is_active rt (datetime_now w))
             (findall_descendant root "warning")).
Proof.
  unfold parse_knmi_warnings. intros Hparse.
  destruct (ET_fromstring rt xml_text) as [root|]; [|discriminate].
  exists root. split; [reflexivity|]. simpl in Hparse.
  pose proof (warnings_loop_cases (datetime_now w)
                (findall_descendant root "warning") []) as Hloop.
  change (replace_hms (add_days (Datetime (datetime_now w) (Some 0)) 1) 23 59 59)
    with (end_of_tomorrow (datetime_now w)) in Hparse.
  rewrite Hparse in Hloop. exact Hloop.
Qed.

End Parse.

Lemma parse_is_all_or_nothing_witness :
  exists root,
    ET_fromstring knmi_runtime current_xml = Some root /\
    (forall x, In x (findall_descendant root "warning") -> well_timed knmi_runtime x) /\
    [dict [("color", JStr "orange"); ("type", JStr "SNEEUW")]] =
      map warning_entry
        (List.filter
           (is_active knmi_runtime
              (datetime_now (knmi_world (Some example_listing) (Some current_xml))))
           (findall_descendant root "warning")).
Proof.
  apply (parse_is_all_or_nothing knmi_runtime
           (knmi_world (Some example_listing) (Some current_xml)) current_xml).
  vm_compute. reflexivity.
Defined.

(** ** The two shells side by side *)

Lemma mapper_forecast_fields (payload : json) (day : Z) (ws ws' : option (list json))
    (api api' : RoadCastApiResponse) (key : string) :
  weather_response_mapper payload day ws = Ok api ->
  weather_response_mapper payload day ws' = Ok api' ->
  key <> "warnings" ->
  getitem_str (to_dict api) key = getitem_str (to_dict api') key.
Proof.
  unfold weather_response_mapper. intros Hapi Hapi' Hkey.
  destruct (from_api payload day) as [api0|]; [|discriminate].
  simpl in Hapi, Hapi'. injection Hapi as <-. injection Hapi' as <-.
  unfold to_dict, getitem_str. cbn [min_temp max_temp rain showers snow sunrise sunset
    min_visibility max_visibility wind_speed wind_gusts warnings].
  rewrite !list_to_map_cons.
  repeat match goal with
         | |- context [insert ?k _ _ !! key] =>
             destruct (decide (k = key)) as [Heq|Hne];
             [try (exfalso; apply Hkey; symmetry; exact Heq);
              rewrite <- Heq, !lookup_insert_eq; reflexivity
             |rewrite !(lookup_insert_ne _ k key) by exact Hne; clear Hne]
         end.
  reflexivity.
Qed.

Section Agree.

Context (rt : Runtime) (w : World).

(** X18.  With the same globals, the same day index and a world in
    which the forecast reply, if there is one, has no error status (so
    that [raise_for_status], which only [api/index.py] calls, raises
    nothing), the two shells answer alike: when [get_weather] returns a
    body, [lambda_handler] returns status 200 with a body that agrees
    with it on every key but ["warnings"]; when [get_weather] raises
    [HTTPException(code, detail)], [lambda_handler] returns status [code]
    with the body [{"error": detail}]; and both leave the same
    [data_cache] and [last_loaded]. *)
Theorem shells_agree_on_the_forecast (day : Z) (event : json) (s : store) :
  day_index_of rt event = Ok day ->
  (forall r, forecast_reply w = Some r -> raise_for_status r = Ok tt) ->
  (forall b, fst (get_weather rt w day s) = Ok b ->
     exists reply,
       fst (lambda_handler rt w event s) = Ok reply /\ statusCode reply = 200 /\
       forall key, key <> "warnings" ->
                   getitem_str (body reply) key = getitem_str b key) /\
  (forall code detail,
     fst (get_weather rt w day s) = Raise (HTTPException code detail) ->
     fst (lambda_handler rt w event s) =
       Ok {| statusCode := code; body := error_body detail |}) /\
  data_cache (snd (lambda_handler rt w event s)) =
    data_cache (snd (get_weather rt w day s)) /\
  last_loaded (snd (lambda_handler rt w event s)) =
    last_loaded (snd (get_weather rt w day s)).
Proof.
  intros Hd Hstatus.
  assert (Hfetch : lambda_fetch w = web_fetch w).
  { unfold lambda_fetch, web_fetch. destruct (forecast_reply w) as [r|]; [|reflexivity].
    rewrite (Hstatus r eq_refl). reflexivity. }
  assert (Hreply : forall payload ws ws',
            (forall b, web_response rt payload day ws = Ok b ->
               statusCode (lambda_reply rt payload day ws') = 200 /\
               forall key, key <> "warnings" ->
                 getitem_str (body (lambda_reply rt payload day ws')) key =
                   getitem_str b key) /\
            (forall code detail,
               web_response rt payload day ws = Raise (HTTPException code detail) ->
               lambda_reply rt payload day ws' =
                 {| statusCode := code; body := error_body detail |})).
  { intros payload ws ws'. unfold web_response, lambda_reply.
    destruct (weather_response_mapper payload day (Some ws)) as [api|exc] eqn:Hweb;
      destruct (weather_response_mapper payload day (Some ws')) as [api'|exc'] eqn:Hlam;
      try (exfalso; unfold weather_response_mapper in Hweb, Hlam;
           destruct (from_api payload day); discriminate).
    - split; [|discriminate].
      intros b [= <-]. split; [reflexivity|].
      intros key Hkey. exact (mapper_forecast_fields _ _ _ _ _ _ key Hlam Hweb Hkey).
    - assert (exc' = exc) as ->.
      { unfold weather_response_mapper in Hweb, Hlam.
        destruct (from_api payload day); [discriminate|]. simpl in *. congruence. }
      split; [destruct (is_IndexError exc); discriminate|].
      intros code detail. destruct (is_IndexError exc); intros [= <- <-]; reflexivity. }
  destruct (get_weather_run rt w day) as (ws & calls & _ & _ & Hweb).
  destruct (handle_day_run rt w day) as (ws' & calls' & _ & _ & Hlam).
  rewrite (lambda_handler_run rt w event day s Hd), Hweb, Hlam, Hfetch.
  assert (Hserve : forall payload (t t' : store),
    (forall b, fst (web_response rt payload day ws, t) = Ok b ->
       exists reply,
         fst (Ok (lambda_reply rt payload day ws'), t') = Ok reply /\
         statusCode reply = 200 /\
         forall key, key <> "warnings" ->
                     getitem_str (body reply) key = getitem_str b key) /\
    (forall code detail,
       fst (web_response rt payload day ws, t) = Raise (HTTPException code detail) ->
       fst (Ok (lambda_reply rt payload day ws'), t') =
         Ok {| statusCode := code; body := error_body detail |})).
  { intros payload t t'. destruct (Hreply payload ws ws') as [Hok Herr]. split.
    - intros b Hb. eexists. split; [reflexivity|]. exact (Hok b Hb).
    - intros code detail Hraise. simpl. f_equal. exact (Herr code detail Hraise). }
  destruct (refetch_due w s).
  - destruct (web_fetch w) as [payload|e].
    + destruct (Hserve payload (refreshed w payload s (GetForecast :: calls))
                  (refreshed w payload s (GetForecast :: calls'))) as [Hok Herr].
      repeat split; assumption.
    + destruct (is_None (data_cache s)).
      * repeat split; [discriminate|].
        intros code detail [= <- <-]. reflexivity.
      * destruct (Hserve (data_cache s) (with_calls s (GetForecast :: calls))
                    (with_calls s (GetForecast :: calls'))) as [Hok Herr].
        repeat split; assumption.
  - destruct (Hserve (data_cache s) (with_calls s calls) (with_calls s calls'))
      as [Hok Herr].
    repeat split; assumption.
Qed.

End Agree.

Lemma shells_agree_on_the_forecast_witness :
  exists reply,
    fst (lambda_handler (runtime_with [])
           (forecast_world 1000 (Some (ok_reply example_payload)))
           (event_with_day (JStr "1")) initial_store) = Ok reply /\
    statusCode reply = 200 /\
    forall key, key <> "warnings" ->
      getitem_str (body reply) key =
        getitem_str (to_dict (init (JFloat 3.4) JNull JNull JNull JNull JNull JNull
                                JNull JNull JNull JNull None)) key.
Proof.
  apply (proj1 (shells_agree_on_the_forecast (runtime_with [])
                  (forecast_world 1000 (Some (ok_reply example_payload))) 1
                  (event_with_day (JStr "1")) initial_store
                  ltac:(vm_compute; reflexivity)
                  ltac:(intros r [= <-]; reflexivity))).
  vm_compute. reflexivity.
Defined.

(** ** Warnings and forecast in one body *)

Section Body.

Context (rt : Runtime) (w : World).

Lemma try_warnings_returns_parsed (api_key : string) (ws ws0 : list json)
    (s : store) (calls : list upstream_call) :
  fst (warnings_sequence rt w api_key s) = Ok ws ->
  try_warnings rt w api_key s = (Ok ws0, with_calls s calls) ->
  ws0 = ws.
Proof.
  change (try_warnings rt w api_key)
    with (try_except (warnings_sequence rt w api_key) (fun _ => mret [])).
  unfold try_except.
  destruct (warnings_sequence rt w api_key s) as [[ws1|e] s1]; simpl;
    intros Hseq Htry; congruence.
Qed.

(** X19.  When fetching and parsing the warnings raise nothing, the list
    the parser returned is what the body of a 200 reply holds under
    ["warnings"]: in [api/index.py] for the key of the environment, when
    there is one, in [main.py] for the literal of the source. *)
Theorem parsed_warnings_reach_the_body
    (day : Z) (event : json) (day_index : Z) (ws : list json) (s : store) :
  day_index_of rt event = Ok day_index ->
  (getenv w "KNMI_API_KEY" EmptyString <> EmptyString ->
   fst (warnings_sequence rt w (getenv w "KNMI_API_KEY" EmptyString) s) = Ok ws ->
   forall b, fst (get_weather rt w day s) = Ok b ->
             getitem_str b "warnings" = Ok (JArr ws)) /\
  (fst (warnings_sequence rt w "KNMI_API_KEY_HIER" s) = Ok ws ->
   forall reply, fst (lambda_handler rt w event s) = Ok reply ->
                 statusCode reply = 200 ->
                 getitem_str (body reply) "warnings" = Ok (JArr ws)).
Proof.
  intros Hd.
  assert (Hwarn : forall api, getitem_str (to_dict api) "warnings"
                              = Ok (JArr (warnings api))).
  { intros api. destruct (to_dict_keys api) as (m & -> & _ & Hm).
    simpl. rewrite Hm. reflexivity. }
  split.
  - intros Hkey Hseq b Hb.
    destruct (get_weather_run rt w day) as (ws0 & calls & _ & Hw & Hrun).
    assert (ws0 = ws) as ->.
    { specialize (Hw s). unfold web_warnings in Hw.
      rewrite (proj2 (String.eqb_neq _ _) Hkey) in Hw. simpl in Hw.
      exact (try_warnings_returns_parsed _ _ _ _ _ Hseq Hw). }
    assert (Hres : forall payload, web_response rt payload day ws = Ok b ->
                     getitem_str b "warnings" = Ok (JArr ws)).
    { intros payload Hp.
      destruct (web_response_cases rt payload day ws)
        as [(api & Hok & Hws)|[[H400 _]|[detail H500]]];
        [|rewrite H400 in Hp; discriminate|rewrite H500 in Hp; discriminate].
      rewrite Hok in Hp. injection Hp as <-. rewrite Hwarn, Hws. reflexivity. }
    rewrite Hrun in Hb.
    destruct (refetch_due w s); [|exact (Hres _ Hb)].
    destruct (web_fetch w); [exact (Hres _ Hb)|].
    destruct (is_None (data_cache s)); [discriminate|exact (Hres _ Hb)].
  - intros Hseq reply Hreply H200.
    rewrite (lambda_handler_run rt w event day_index s Hd) in Hreply.
    destruct (handle_day_run rt w day_index) as (ws0 & calls & _ & Hw & Hrun).
    assert (ws0 = ws) as ->.
    { exact (try_warnings_returns_parsed _ _ _ _ _ Hseq (Hw s)). }
    assert (Hres : forall payload, lambda_reply rt payload day_index ws = reply ->
                     getitem_str (body reply) "warnings" = Ok (JArr ws)).
    { intros payload Hp.
      destruct (lambda_reply_cases rt payload day_index ws)
        as [(api & Hok & Hws)|[[H400 _]|[msg H500]]].
      - rewrite Hok in Hp. subst reply. cbn [body]. rewrite Hwarn, Hws. reflexivity.
      - rewrite H400 in Hp. subst reply. discriminate.
      - rewrite H500 in Hp. subst reply. discriminate. }
    rewrite Hrun in Hreply.
    destruct (refetch_due w s); [|injection Hreply as Hr; exact (Hres _ Hr)].
    destruct (lambda_fetch w); [injection Hreply as Hr; exact (Hres _ Hr)|].
    destruct (is_None (data_cache s)); [|injection Hreply as Hr; exact (Hres _ Hr)].
    injection Hreply as <-. discriminate.
Qed.

(** X20.  The forecast part of a body does not depend on the warnings
    path.  In two worlds with the same clock reading and the same
    forecast reply (which may differ in the environment, the warnings
    provider, the current instant and the library parsers), if one
    request gets a body so does the other, and the two bodies agree on
    every key but ["warnings"]. *)
Theorem forecast_values_do_not_depend_on_warnings
    (rt' : Runtime) (w' : World) (day : Z) (s : store) :
  time_time w' = time_time w ->
  forecast_reply w' = forecast_reply w ->
  (forall b, fst (get_weather rt w day s) = Ok b ->
     exists b', fst (get_weather rt' w' day s) = Ok b' /\
       forall key, key <> "warnings" -> getitem_str b' key = getitem_str b key) /\
  (forall reply, fst (handle_day rt w day s) = Ok reply -> statusCode reply = 200 ->
     exists reply', fst (handle_day rt' w' day s) = Ok reply' /\
       statusCode reply' = 200 /\
       forall key, key <> "warnings" ->
                   getitem_str (body reply') key = getitem_str (body reply) key).
Proof.
  intros Htime Hreply.
  assert (Hdue : refetch_due w' s = refetch_due w s).
  { unfold refetch_due. rewrite Htime. reflexivity. }
  assert (Hwf : web_fetch w' = web_fetch w).
  { unfold web_fetch. rewrite Hreply. reflexivity. }
  assert (Hlf : lambda_fetch w' = lambda_fetch w).
  { unfold lambda_fetch. rewrite Hreply. reflexivity. }
  split.
  - intros b Hb.
    destruct (get_weather_run rt w day) as (ws & calls & _ & _ & Hrun).
    destruct (get_weather_run rt' w' day) as (ws' & calls' & _ & _ & Hrun').
    rewrite Hrun in Hb. rewrite Hrun', Hdue, Hwf.
    assert (Hres : forall payload, web_response rt payload day ws = Ok b ->
              exists b', web_response rt' payload day ws' = Ok b' /\
                forall key, key <> "warnings" -> getitem_str b' key = getitem_str b key).
    { intros payload. unfold web_response.
      destruct (weather_response_mapper payload day (Some ws)) as [api|exc] eqn:Hm;
        [|destruct (is_IndexError exc); discriminate].
      destruct (weather_response_mapper payload day (Some ws')) as [api'|exc'] eqn:Hm'.
      - intros [= <-]. exists (to_dict api'). split; [reflexivity|].
        intros key Hkey. exact (mapper_forecast_fields _ _ _ _ _ _ key Hm' Hm Hkey).
      - exfalso. unfold weather_response_mapper in Hm, Hm'.
        destruct (from_api payload day); discriminate. }
    destruct (refetch_due w s); [|exact (Hres _ Hb)].
    destruct (web_fetch w); [exact (Hres _ Hb)|].
    destruct (is_None (data_cache s)); [discriminate|exact (Hres _ Hb)].
  - intros reply Hr H200.
    destruct (handle_day_run rt w day) as (ws & calls & _ & _ & Hrun).
    destruct (handle_day_run rt' w' day) as (ws' & calls' & _ & _ & Hrun').
    rewrite Hrun in Hr. rewrite Hrun', Hdue, Hlf.
    assert (Hres : forall payload, lambda_reply rt payload day ws = reply ->
              statusCode (lambda_reply rt' payload day ws') = 200 /\
              forall key, key <> "warnings" ->
                getitem_str (body (lambda_reply rt' payload day ws')) key =
                  getitem_str (body reply) key).
    { intros payload. unfold lambda_reply.
      destruct (weather_response_mapper payload day (Some ws)) as [api|exc] eqn:Hm.
      2:{ intros <-. destruct (is_IndexError exc); discriminate. }
      destruct (weather_response_mapper payload day (Some ws')) as [api'|exc'] eqn:Hm'.
      - intros <-. split; [reflexivity|].
        intros key Hkey. exact (mapper_forecast_fields _ _ _ _ _ _ key Hm' Hm Hkey).
      - exfalso. unfold weather_response_mapper in Hm, Hm'.
        destruct (from_api payload day); discriminate. }
    assert (Hwrap : forall payload (t : store),
              lambda_reply rt payload day ws = reply ->
              exists reply',
                fst (Ok (lambda_reply rt' payload day ws'), t) = Ok reply' /\
                statusCode reply' = 200 /\
                forall key, key <> "warnings" ->
                  getitem_str (body reply') key = getitem_str (body reply) key).
    { intros payload t Hp. eexists. split; [reflexivity|]. exact (Hres payload Hp). }
    destruct (refetch_due w s); [|injection Hr as Hr; exact (Hwrap _ _ Hr)].
    destruct (lambda_fetch w); [injection Hr as Hr; exact (Hwrap _ _ Hr)|].
    destruct (is_None (data_cache s)); [|injection Hr as Hr; exact (Hwrap _ _ Hr)].
    injection Hr as <-. discriminate.
Qed.

End Body.

Lemma parsed_warnings_reach_the_body_witness :
  getitem_str
    (to_dict {| min_temp := JFloat 2.1; max_temp := JNull; rain := JNull;
                showers := JNull; snow := JNull; sunrise := JNull; sunset := JNull;
                min_visibility := JNull; max_visibility := JNull;
                wind_speed := JNull; wind_gusts := JNull;
                warnings := [dict [("color", JStr "orange"); ("type", JStr "SNEEUW")]] |})
    "warnings"
  = Ok (JArr [dict [("color", JStr "orange"); ("type", JStr "SNEEUW")]]).
Proof.
  apply (proj1 (parsed_warnings_reach_the_body knmi_runtime
                  (knmi_world (Some example_listing) (Some current_xml))
                  0 (dict []) 0
                  [dict [("color", JStr "orange"); ("type", JStr "SNEEUW")]]
                  initial_store ltac:(vm_compute; reflexivity))).
  - vm_compute. discriminate.
  - vm_compute. reflexivity.
  - vm_compute. reflexivity.
Defined.

Lemma forecast_values_do_not_depend_on_warnings_witness :
  exists b',
    fst (get_weather knmi_runtime
           (knmi_world (Some example_listing) (Some current_xml)) 1 initial_store)
      = Ok b' /\
    forall key, key <> "warnings" ->
      getitem_str b' key =
        getitem_str (to_dict (init (JFloat 3.4) JNull JNull JNull JNull JNull JNull
                                JNull JNull JNull JNull None)) key.
Proof.
  apply (proj1 (forecast_values_do_not_depend_on_warnings (runtime_with [])
                  (listing_world with_key None) knmi_runtime
                  (knmi_world (Some example_listing) (Some current_xml))
                  1 initial_store eq_refl eq_refl)).
  vm_compute. reflexivity.
Defined.
